(** * portal-backend: the academic-records data model and its integrity rules

    A shallow embedding of [api/models.py] (the twenty model classes, their
    foreign keys with their [on_delete] rule, their [unique_together]
    constraints and the derived property [CourseOffering.available_slots]) and
    of the computed columns of [api/admin.py].

    The models are declarations; what they mean is what the object-relational
    mapper does with them.  A table is a list of rows, a row is a record with
    the model's fields and the generated key [id]; saving and deleting are
    functions on the [Store], written out from the declarations:
    - an INSERT is refused when a [unique_together] key is already present
      (the foreign keys are deferred constraints, checked after it);
    - a DELETE collects the rows that reference the deleted one through a
      [CASCADE] key, recursively, and clears the [SET_NULL] keys;
    - a column listed in [list_editable] is written as submitted. *)

From Stdlib Require Import ZArith NArith QArith Qround Qabs.
From Stdlib Require Import List Bool String Lia Permutation Sorted.
Import ListNotations.
Open Scope Z_scope.

(** ** Field types *)

Definition pk := Z.            (* the generated [id] of a row *)
Definition Date := Z.          (* DateField: a day number *)
Definition Time := Z.          (* TimeField: seconds after midnight *)
Definition DateTime := Z.      (* DateTimeField: seconds of an epoch *)
Definition Decimal := Q.       (* DecimalField: the value of the decimal *)
Definition File := option string. (* FileField / ImageField with null=True *)

(** ** Choice enumerations *)

Inductive SemesterType := SEM_1ST | SEM_2ND | SEM_SUMMER.
Inductive EmploymentStatus := FULL_TIME | PART_TIME | CONTRACT.
Inductive StudentStatus := ACTIVE | INACTIVE | GRADUATED | SUSPENDED | LOA.
Inductive DegreeType := BS | BA | MS | MA | PHD.
Inductive CourseType := MAJOR | MINOR | GEN_ED | ELECTIVE.
Inductive DayOfWeek := MON | TUE | WED | THU | FRI | SAT.
Inductive Priority := LOW | NORMAL | HIGH | URGENT.
Inductive AssessmentType := QUIZ | EXAM | PROJECT | RECITATION | ASSIGNMENT.
Inductive DocumentType :=
  TOR | CERT_GRADES | CERT_ENROLLMENT | GOOD_MORAL | DIPLOMA | CAV.
Inductive EventType :=
  EV_ACADEMIC | EV_SEMINAR | EV_WORKSHOP | EV_SPORTS | EV_CULTURAL | EV_OTHER.
Inductive NotificationType :=
  NT_ANNOUNCEMENT | NT_GRADE | NT_ASSIGNMENT | NT_EVENT | NT_PAYMENT
| NT_GENERAL.
Inductive FeedbackType := COMPLAINT | SUGGESTION | INQUIRY | PRAISE.

(** The three status columns that the admin console edits in place. *)
Inductive EnrollmentStatus :=
  PENDING | APPROVED | ENROLLED | DROPPED | COMPLETED.
Inductive RequestStatus :=
  RQ_PENDING | RQ_PROCESSING | RQ_READY | RQ_CLAIMED | RQ_CANCELLED.
Inductive FeedbackStatus := FB_PENDING | FB_REVIEWED | FB_RESOLVED | FB_CLOSED.

(** ** The models, one record per class of [models.py] *)

Module AcademicYear.
Record row := mk {
    id : pk;
    name : string;                       (* unique *)
    start_date : Date;
    end_date : Date;
    is_active : bool }.
End AcademicYear.

Module Semester.
Record row := mk {
    id : pk;
    academic_year : pk;                  (* CASCADE *)
    semester_type : SemesterType;
    start_date : Date;
    end_date : Date;
    is_active : bool;
    enrollment_start : Date;
    enrollment_end : Date }.
End Semester.

Module Department.
Record row := mk {
    id : pk;
    name : string;                       (* unique *)
    code : string;                       (* unique *)
    description : string;
    head : option pk;                    (* Faculty, SET_NULL *)
    email : string;
    phone : string;
    building : string }.
End Department.

Module Faculty.
Record row := mk {
    id : pk;
    user : pk;                           (* one-to-one, CASCADE *)
    department : option pk;              (* Department, SET_NULL *)
    employee_id : string;                (* unique *)
    title : string;
    employment_status : EmploymentStatus;
    specialization : string;
    office_room : string;
    consultation_hours : string;
    contact_number : string;
    date_hired : option Date;
    bio : string;
    is_active : bool }.

Definition set_department (d : option pk) (f : row) : row :=
    mk (id f) (user f) d (employee_id f) (title f) (employment_status f)
       (specialization f) (office_room f) (consultation_hours f)
       (contact_number f) (date_hired f) (bio f) (is_active f).
End Faculty.

Module Student.
Record row := mk {
    id : pk;
    user : pk;                           (* one-to-one, CASCADE *)
    student_id : string;                 (* unique *)
    department : option pk;              (* Department, SET_NULL *)
    date_of_birth : option Date;
    year_level : Z;
    status : StudentStatus;
    address : string;
    contact_number : string;
    emergency_contact_name : string;
    emergency_contact_number : string;
    guardian_name : string;
    guardian_contact : string;
    enrolled_at : Date;
    profile_picture : File }.

Definition set_department (d : option pk) (s : row) : row :=
    mk (id s) (user s) (student_id s) d (date_of_birth s) (year_level s)
       (status s) (address s) (contact_number s) (emergency_contact_name s)
       (emergency_contact_number s) (guardian_name s) (guardian_contact s)
       (enrolled_at s) (profile_picture s).
End Student.

Module Program.
Record row := mk {
    id : pk;
    name : string;
    code : string;                       (* unique *)
    degree_type : DegreeType;
    department : pk;                     (* Department, CASCADE *)
    description : string;
    total_units : N;
    duration_years : N }.
End Program.

Module Course.
Record row := mk {
    id : pk;
    course_code : string;                (* unique *)
    title : string;
    description : string;
    department : option pk;              (* Department, SET_NULL *)
    units : N;
    lecture_hours : N;
    lab_hours : N;
    course_type : CourseType;
    year_level : Z;
    semester_offered : string }.

Definition set_department (d : option pk) (c : row) : row :=
    mk (id c) (course_code c) (title c) (description c) d (units c)
       (lecture_hours c) (lab_hours c) (course_type c) (year_level c)
       (semester_offered c).
End Course.

(** [Course.prerequisites] is a many-to-many field on ['self'] with
    [symmetrical=False]: the mapper keeps it in a table of its own, one row
    per link, with a cascading key to each end. *)
Module CoursePrerequisite.
Record row := mk {
    id : pk;
    from_course : pk;                    (* the course that requires *)
    to_course : pk }.                    (* the course required *)
End CoursePrerequisite.

Module CourseOffering.
Record row := mk {
    id : pk;
    course : pk;                         (* Course, CASCADE *)
    semester : pk;                       (* Semester, CASCADE *)
    faculty : option pk;                 (* Faculty, SET_NULL *)
    section : string;
    max_slots : N;                       (* PositiveIntegerField *)
    enrolled_count : N;                  (* PositiveIntegerField *)
    is_active : bool }.

(** [return self.max_slots - self.enrolled_count]: a difference of Python
    integers, which may be negative. *)
Definition available_slots (self : row) : Z :=
    Z.of_N (max_slots self) - Z.of_N (enrolled_count self).
End CourseOffering.

Module Schedule.
Record row := mk {
    id : pk;
    course_offering : pk;                (* CourseOffering, CASCADE *)
    day_of_week : DayOfWeek;
    start_time : Time;
    end_time : Time;
    room : string;
    building : string }.
End Schedule.

Module Enrollment.
Record row := mk {
    id : pk;
    student : pk;                        (* Student, CASCADE *)
    course_offering : pk;                (* CourseOffering, CASCADE *)
    date_enrolled : Date;                (* auto_now_add *)
    status : EnrollmentStatus;
    dropped_date : option Date }.

Definition set_status (s : EnrollmentStatus) (e : row) : row :=
    mk (id e) (student e) (course_offering e) (date_enrolled e) s
       (dropped_date e).
End Enrollment.

Module Grade.
Record row := mk {
    id : pk;
    enrollment : pk;                     (* one-to-one, CASCADE *)
    midterm_grade : option Decimal;
    final_grade : option Decimal;
    final_rating : string;
    remarks : string;
    date_submitted : option DateTime }.
End Grade.

Module Announcement.
Record row := mk {
    id : pk;
    department : option pk;              (* Department, SET_NULL *)
    title : string;
    content : string;
    posted_by : option pk;               (* User, SET_NULL *)
    priority : Priority;
    target_audience : string;
    created_at : DateTime;
    updated_at : DateTime;
    is_public : bool;
    is_active : bool;
    expiry_date : option DateTime;
    attachment : File }.

Definition set_department (d : option pk) (a : row) : row :=
    mk (id a) d (title a) (content a) (posted_by a) (priority a)
       (target_audience a) (created_at a) (updated_at a) (is_public a)
       (is_active a) (expiry_date a) (attachment a).
End Announcement.

Module Assessment.
Record row := mk {
    id : pk;
    course_offering : pk;                (* CourseOffering, CASCADE *)
    title : string;
    assessment_type : AssessmentType;
    max_score : Decimal;
    weight : Decimal;                    (* percentage weight in final grade *)
    date_given : Date;
    description : string }.
End Assessment.

Module AssessmentScore.
Record row := mk {
    id : pk;
    assessment : pk;                     (* Assessment, CASCADE *)
    enrollment : pk;                     (* Enrollment, CASCADE *)
    score : Decimal;
    remarks : string;
    date_recorded : DateTime }.          (* auto_now_add *)
End AssessmentScore.

Module DocumentRequest.
Record row := mk {
    id : pk;
    student : pk;                        (* Student, CASCADE *)
    document_type : DocumentType;
    purpose : string;
    copies : N;
    request_date : DateTime;             (* auto_now_add *)
    status : RequestStatus;
    claimed_date : option DateTime;
    processing_fee : Decimal;
    remarks : string }.

Definition set_status (s : RequestStatus) (r : row) : row :=
    mk (id r) (student r) (document_type r) (purpose r) (copies r)
       (request_date r) s (claimed_date r) (processing_fee r) (remarks r).
End DocumentRequest.

Module Event.
Record row := mk {
    id : pk;
    title : string;
    description : string;
    event_type : EventType;
    start_datetime : DateTime;
    end_datetime : DateTime;
    venue : string;
    organizer : option pk;               (* User, SET_NULL *)
    department : option pk;              (* Department, SET_NULL *)
    max_participants : option N;
    is_published : bool;
    banner_image : File }.

Definition set_department (d : option pk) (e : row) : row :=
    mk (id e) (title e) (description e) (event_type e) (start_datetime e)
       (end_datetime e) (venue e) (organizer e) d (max_participants e)
       (is_published e) (banner_image e).
End Event.

Module EventRegistration.
Record row := mk {
    id : pk;
    event : pk;                          (* Event, CASCADE *)
    student : pk;                        (* Student, CASCADE *)
    registration_date : DateTime;
    attended : bool;
    certificate_issued : bool }.
End EventRegistration.

Module Notification.
Record row := mk {
    id : pk;
    recipient : pk;                      (* User, CASCADE *)
    notification_type : NotificationType;
    title : string;
    message : string;
    is_read : bool;
    created_at : DateTime;
    link : string }.
End Notification.

Module Feedback.
Record row := mk {
    id : pk;
    student : pk;                        (* Student, CASCADE *)
    feedback_type : FeedbackType;
    subject : string;
    message : string;
    status : FeedbackStatus;
    submitted_at : DateTime;
    response : string;
    responded_by : option pk;            (* User, SET_NULL *)
    responded_at : option DateTime }.

Definition set_status (s : FeedbackStatus) (f : row) : row :=
    mk (id f) (student f) (feedback_type f) (subject f) (message f) s
       (submitted_at f) (response f) (responded_by f) (responded_at f).
End Feedback.

Module CourseEvaluation.
Record row := mk {
    id : pk;
    enrollment : pk;                     (* one-to-one, CASCADE *)
    teaching_effectiveness : Z;
    course_content : Z;
    learning_resources : Z;
    assessment_fairness : Z;
    overall_satisfaction : Z;
    comments : string;
    submitted_at : DateTime;
    is_anonymous : bool }.
End CourseEvaluation.

(** ** The store: one table per model *)

Record Store := mkStore {
  academic_years : list AcademicYear.row;
  semesters : list Semester.row;
  departments : list Department.row;
  faculty : list Faculty.row;
  students : list Student.row;
  programs : list Program.row;
  courses : list Course.row;
  course_prerequisites : list CoursePrerequisite.row;
  course_offerings : list CourseOffering.row;
  schedules : list Schedule.row;
  enrollments : list Enrollment.row;
  grades : list Grade.row;
  announcements : list Announcement.row;
  assessments : list Assessment.row;
  assessment_scores : list AssessmentScore.row;
  document_requests : list DocumentRequest.row;
  events : list Event.row;
  event_registrations : list EventRegistration.row;
  notifications : list Notification.row;
  feedbacks : list Feedback.row;
  course_evaluations : list CourseEvaluation.row }.

Definition empty_store : Store :=
  mkStore [] [] [] [] [] [] [] [] [] [] [] [] [] [] [] [] [] [] [] [] [].

(** Replacing one table.  Every table has a row type of its own, so the
    positions cannot be confused. *)
Definition set_course_prerequisites (v : list CoursePrerequisite.row)
  (st : Store) : Store :=
  mkStore (academic_years st) (semesters st) (departments st) (faculty st)
    (students st) (programs st) (courses st) v (course_offerings st)
    (schedules st) (enrollments st) (grades st) (announcements st)
    (assessments st) (assessment_scores st) (document_requests st)
    (events st) (event_registrations st) (notifications st) (feedbacks st)
    (course_evaluations st).

Definition set_enrollments (v : list Enrollment.row) (st : Store) : Store :=
  mkStore (academic_years st) (semesters st) (departments st) (faculty st)
    (students st) (programs st) (courses st) (course_prerequisites st)
    (course_offerings st) (schedules st) v (grades st) (announcements st)
    (assessments st) (assessment_scores st) (document_requests st)
    (events st) (event_registrations st) (notifications st) (feedbacks st)
    (course_evaluations st).

Definition set_assessment_scores (v : list AssessmentScore.row)
  (st : Store) : Store :=
  mkStore (academic_years st) (semesters st) (departments st) (faculty st)
    (students st) (programs st) (courses st) (course_prerequisites st)
    (course_offerings st) (schedules st) (enrollments st) (grades st)
    (announcements st) (assessments st) v (document_requests st)
    (events st) (event_registrations st) (notifications st) (feedbacks st)
    (course_evaluations st).

Definition set_document_requests (v : list DocumentRequest.row)
  (st : Store) : Store :=
  mkStore (academic_years st) (semesters st) (departments st) (faculty st)
    (students st) (programs st) (courses st) (course_prerequisites st)
    (course_offerings st) (schedules st) (enrollments st) (grades st)
    (announcements st) (assessments st) (assessment_scores st) v
    (events st) (event_registrations st) (notifications st) (feedbacks st)
    (course_evaluations st).

Definition set_feedbacks (v : list Feedback.row) (st : Store) : Store :=
  mkStore (academic_years st) (semesters st) (departments st) (faculty st)
    (students st) (programs st) (courses st) (course_prerequisites st)
    (course_offerings st) (schedules st) (enrollments st) (grades st)
    (announcements st) (assessments st) (assessment_scores st)
    (document_requests st) (events st) (event_registrations st)
    (notifications st) v (course_evaluations st).

(** ** Keys *)

(** [mem k ks]: the key [k] is one of [ks]. *)
Definition mem (k : pk) (ks : list pk) : bool := existsb (Z.eqb k) ks.

(** [refers fk k]: the nullable key [fk] points at row [k]. *)
Definition refers (fk : option pk) (k : pk) : bool :=
  match fk with Some j => j =? k | None => false end.

(** The key the database generates for a new row of a table. *)
Definition next_id {A : Type} (id : A -> pk) (table : list A) : pk :=
  1 + fold_right Z.max 0 (map id table).

(** ** What a write reports *)

Inductive Error :=
| UniqueViolation (model : string) (key : list (string * pk))
    (* IntegrityError: the unique_together columns and the values in conflict *)
| ForeignKeyViolation (model field : string) (target : pk)
    (* IntegrityError: the referenced row does not exist *)
| DoesNotExist (model : string) (id : pk).

Inductive Result := Saved (id : pk) | Rejected (e : Error).

(** ** Enrollment *)

Definition Enrollment_key (student course_offering : pk) : list (string * pk) :=
  [("student"%string, student); ("course_offering"%string, course_offering)].

(** The rows that hold the pair of [unique_together = ('student',
    'course_offering')]. *)
Definition Enrollment_with (student course_offering : pk)
  (e : Enrollment.row) : bool :=
  (Enrollment.student e =? student)
  && (Enrollment.course_offering e =? course_offering).

(** [Enrollment.objects.create(student=..., course_offering=..., status=...,
    dropped_date=...)] on day [today]: the only checks are the model's
    constraints.  The offering's counters are neither read nor written. *)
Definition Enrollment_create (st : Store) (today : Date)
  (student course_offering : pk) (status : EnrollmentStatus)
  (dropped_date : option Date) : Result * Store :=
  if existsb (Enrollment_with student course_offering) (enrollments st) then
    (Rejected (UniqueViolation "Enrollment"
                 (Enrollment_key student course_offering)), st)
  else if negb (existsb (fun s => Student.id s =? student) (students st)) then
    (Rejected (ForeignKeyViolation "Enrollment" "student" student), st)
  else if negb (existsb (fun o => CourseOffering.id o =? course_offering)
                  (course_offerings st)) then
    (Rejected (ForeignKeyViolation "Enrollment" "course_offering"
                 course_offering), st)
  else
    let id := next_id Enrollment.id (enrollments st) in
    (Saved id,
     set_enrollments
       (enrollments st ++
        [Enrollment.mk id student course_offering today status dropped_date])
       st).

(** [status] has [default='PENDING'], [dropped_date] is nullable. *)
Definition Enrollment_create_default (st : Store) (today : Date)
  (student course_offering : pk) : Result * Store :=
  Enrollment_create st today student course_offering PENDING None.

(** [EnrollmentAdmin.list_editable = ('status',)]: the change list saves the
    submitted status of a listed row.  The form accepts every member of
    [STATUS_CHOICES]; there is no check of the status the row has. *)
Definition Enrollment_save_status (st : Store) (id : pk)
  (status : EnrollmentStatus) : Result * Store :=
  if existsb (fun e => Enrollment.id e =? id) (enrollments st) then
    (Saved id,
     set_enrollments
       (map (fun e => if Enrollment.id e =? id
                      then Enrollment.set_status status e else e)
          (enrollments st))
       st)
  else (Rejected (DoesNotExist "Enrollment" id), st).

(** [DocumentRequestAdmin.list_editable = ('status',)]. *)
Definition DocumentRequest_save_status (st : Store) (id : pk)
  (status : RequestStatus) : Result * Store :=
  if existsb (fun r => DocumentRequest.id r =? id) (document_requests st) then
    (Saved id,
     set_document_requests
       (map (fun r => if DocumentRequest.id r =? id
                      then DocumentRequest.set_status status r else r)
          (document_requests st))
       st)
  else (Rejected (DoesNotExist "DocumentRequest" id), st).

(** [FeedbackAdmin.list_editable = ('status',)]. *)
Definition Feedback_save_status (st : Store) (id : pk)
  (status : FeedbackStatus) : Result * Store :=
  if existsb (fun f => Feedback.id f =? id) (feedbacks st) then
    (Saved id,
     set_feedbacks
       (map (fun f => if Feedback.id f =? id
                      then Feedback.set_status status f else f)
          (feedbacks st))
       st)
  else (Rejected (DoesNotExist "Feedback" id), st).

(** The requests of the enrollment life cycle: enrolling a student, and
    saving a status ("dropping" is saving [DROPPED]). *)
Inductive Request :=
| Enroll (today : Date) (student course_offering : pk)
    (status : EnrollmentStatus)
| SetStatus (enrollment : pk) (status : EnrollmentStatus).

Definition Drop (enrollment : pk) : Request := SetStatus enrollment DROPPED.

Definition handle (st : Store) (r : Request) : Store :=
  match r with
  | Enroll today s o status => snd (Enrollment_create st today s o status None)
  | SetStatus e status => snd (Enrollment_save_status st e status)
  end.

Definition run (rs : list Request) (st : Store) : Store :=
  fold_left handle rs st.

Definition find_offering (st : Store) (id : pk) : option CourseOffering.row :=
  find (fun o => CourseOffering.id o =? id) (course_offerings st).

Definition find_enrollment (st : Store) (id : pk) : option Enrollment.row :=
  find (fun e => Enrollment.id e =? id) (enrollments st).

(** ** The prerequisite relation *)

Definition link_is (from to : pk) (l : CoursePrerequisite.row) : bool :=
  (CoursePrerequisite.from_course l =? from)
  && (CoursePrerequisite.to_course l =? to).

(** [course.prerequisites.add(other)]: with [symmetrical=False] one link
    [course -> other] is stored, and none for the way back; a link that is
    already there is not stored twice. *)
Definition prerequisites_add (st : Store) (course other : pk) : Store :=
  if existsb (link_is course other) (course_prerequisites st) then st
  else
    set_course_prerequisites
      (course_prerequisites st ++
       [CoursePrerequisite.mk
          (next_id CoursePrerequisite.id (course_prerequisites st))
          course other])
      st.

(** [course.prerequisites.all()], as keys: the courses required before
    [course]. *)
Definition prerequisites (st : Store) (course : pk) : list pk :=
  map CoursePrerequisite.to_course
    (filter (fun l => CoursePrerequisite.from_course l =? course)
       (course_prerequisites st)).

(** [course.prerequisite_for.all()] ([related_name='prerequisite_for']), as
    keys: the courses that require [course]. *)
Definition prerequisite_for (st : Store) (course : pk) : list pk :=
  map CoursePrerequisite.from_course
    (filter (fun l => CoursePrerequisite.to_course l =? course)
       (course_prerequisites st)).

(** ** Deleting

    One function per model that is deleted here, over a list of keys of that
    model: it first deletes the rows of every model that has a [CASCADE] key
    to it, then the rows themselves.  [Grade], [AssessmentScore],
    [CourseEvaluation], [Schedule], [Program] and the prerequisite links are
    referenced by no key, so deleting them is a filter. *)

(** Enrollment is referenced by [Grade.enrollment] (CASCADE),
    [AssessmentScore.enrollment] (CASCADE) and [CourseEvaluation.enrollment]
    (CASCADE). *)
Definition delete_enrollments (ids : list pk) (st : Store) : Store :=
  mkStore (academic_years st) (semesters st) (departments st) (faculty st)
    (students st) (programs st) (courses st) (course_prerequisites st)
    (course_offerings st) (schedules st)
    (filter (fun e => negb (mem (Enrollment.id e) ids)) (enrollments st))
    (filter (fun g => negb (mem (Grade.enrollment g) ids)) (grades st))
    (announcements st) (assessments st)
    (filter (fun s => negb (mem (AssessmentScore.enrollment s) ids))
       (assessment_scores st))
    (document_requests st) (events st) (event_registrations st)
    (notifications st) (feedbacks st)
    (filter (fun v => negb (mem (CourseEvaluation.enrollment v) ids))
       (course_evaluations st)).

(** Assessment is referenced by [AssessmentScore.assessment] (CASCADE). *)
Definition delete_assessments (ids : list pk) (st : Store) : Store :=
  mkStore (academic_years st) (semesters st) (departments st) (faculty st)
    (students st) (programs st) (courses st) (course_prerequisites st)
    (course_offerings st) (schedules st) (enrollments st) (grades st)
    (announcements st)
    (filter (fun a => negb (mem (Assessment.id a) ids)) (assessments st))
    (filter (fun s => negb (mem (AssessmentScore.assessment s) ids))
       (assessment_scores st))
    (document_requests st) (events st) (event_registrations st)
    (notifications st) (feedbacks st) (course_evaluations st).

Definition enrollments_of_offerings (st : Store) (ids : list pk) : list pk :=
  map Enrollment.id
    (filter (fun e => mem (Enrollment.course_offering e) ids) (enrollments st)).

Definition assessments_of_offerings (st : Store) (ids : list pk) : list pk :=
  map Assessment.id
    (filter (fun a => mem (Assessment.course_offering a) ids) (assessments st)).

(** CourseOffering is referenced by [Schedule.course_offering] (CASCADE),
    [Enrollment.course_offering] (CASCADE) and [Assessment.course_offering]
    (CASCADE). *)
Definition delete_course_offerings (ids : list pk) (st : Store) : Store :=
  let st1 := delete_enrollments (enrollments_of_offerings st ids) st in
  let st2 := delete_assessments (assessments_of_offerings st ids) st1 in
  mkStore (academic_years st2) (semesters st2) (departments st2) (faculty st2)
    (students st2) (programs st2) (courses st2) (course_prerequisites st2)
    (filter (fun o => negb (mem (CourseOffering.id o) ids))
       (course_offerings st2))
    (filter (fun s => negb (mem (Schedule.course_offering s) ids))
       (schedules st2))
    (enrollments st2) (grades st2) (announcements st2) (assessments st2)
    (assessment_scores st2) (document_requests st2) (events st2)
    (event_registrations st2) (notifications st2) (feedbacks st2)
    (course_evaluations st2).

Definition offerings_of_course (st : Store) (id : pk) : list pk :=
  map CourseOffering.id
    (filter (fun o => CourseOffering.course o =? id) (course_offerings st)).

(** [course.delete()].  Course is referenced by [CourseOffering.course]
    (CASCADE) and by both ends of the prerequisite links (CASCADE). *)
Definition Course_delete (st : Store) (id : pk) : Store :=
  let st1 := delete_course_offerings (offerings_of_course st id) st in
  mkStore (academic_years st1) (semesters st1) (departments st1) (faculty st1)
    (students st1) (programs st1)
    (filter (fun c => negb (Course.id c =? id)) (courses st1))
    (filter (fun l => negb ((CoursePrerequisite.from_course l =? id)
                            || (CoursePrerequisite.to_course l =? id)))
       (course_prerequisites st1))
    (course_offerings st1) (schedules st1) (enrollments st1) (grades st1)
    (announcements st1) (assessments st1) (assessment_scores st1)
    (document_requests st1) (events st1) (event_registrations st1)
    (notifications st1) (feedbacks st1) (course_evaluations st1).

(** Clearing a [SET_NULL] key that points at the deleted row. *)
Definition clear {A : Type} (get : A -> option pk) (set : option pk -> A -> A)
  (id : pk) (r : A) : A :=
  if refers (get r) id then set None r else r.

(** [department.delete()].  Department is referenced by [Program.department]
    (CASCADE) and, with SET_NULL, by [Faculty.department],
    [Student.department], [Course.department], [Announcement.department] and
    [Event.department]. *)
Definition Department_delete (st : Store) (id : pk) : Store :=
  mkStore (academic_years st) (semesters st)
    (filter (fun d => negb (Department.id d =? id)) (departments st))
    (map (clear Faculty.department Faculty.set_department id) (faculty st))
    (map (clear Student.department Student.set_department id) (students st))
    (filter (fun p => negb (Program.department p =? id)) (programs st))
    (map (clear Course.department Course.set_department id) (courses st))
    (course_prerequisites st) (course_offerings st) (schedules st)
    (enrollments st) (grades st)
    (map (clear Announcement.department Announcement.set_department id)
       (announcements st))
    (assessments st) (assessment_scores st) (document_requests st)
    (map (clear Event.department Event.set_department id) (events st))
    (event_registrations st) (notifications st) (feedbacks st)
    (course_evaluations st).

(** [faculty.headed_department.all()] ([related_name='headed_department'] of
    [Department.head]): the departments that name the faculty member as head. *)
Definition headed_department (st : Store) (f : pk) : list Department.row :=
  filter (fun d => refers (Department.head d) f) (departments st).

Definition find_faculty (st : Store) (id : pk) : option Faculty.row :=
  find (fun f => Faculty.id f =? id) (faculty st).

(** ** Decimal arithmetic

    [DecimalField] values are Python [Decimal]s, whose operations round the
    exact result to the context precision, 28 significant digits, half to
    even.  A decimal is modelled by its value. *)

Definition prec : Z := 28.

Fixpoint digits_fuel (fuel : nat) (n : Z) : Z :=
  match fuel with
  | O => 0
  | S f => if n <? 10 then 1 else 1 + digits_fuel f (n / 10)
  end.

(** The number of decimal digits of a positive integer. *)
Definition digits (n : Z) : Z := digits_fuel (S (Z.to_nat (Z.log2 n))) n.

Definition pow10 (e : Z) : Q := Qpower (10 # 1) e.

(** The exponent of the leading digit of a non-zero value. *)
Definition adjusted (q : Q) : Z :=
  let k := digits (Z.abs (Qnum q)) - digits (Zpos (Qden q)) in
  if Qle_bool (pow10 k) (Qabs q) then k else k - 1.

Definition round_half_even (q : Q) : Z :=
  let f := Qfloor q in
  match Qcompare (q - inject_Z f) (1 # 2) with
  | Lt => f
  | Gt => f + 1
  | Eq => if Z.even f then f else f + 1
  end.

Definition Decimal_round (q : Q) : Q :=
  if Qeq_bool q 0 then 0%Q
  else
    let e := adjusted q - (prec - 1) in
    Qred (inject_Z (round_half_even (q / pow10 e)) * pow10 e).

Inductive Exception :=
| DivisionByZero          (* decimal.DivisionByZero: x / 0 *)
| InvalidOperation        (* decimal.InvalidOperation: 0 / 0 *)
| RelatedObjectDoesNotExist.

(** [a / b] on decimals. *)
Definition Decimal_truediv (a b : Decimal) : Exception + Decimal :=
  if Qeq_bool b 0 then
    inl (if Qeq_bool a 0 then InvalidOperation else DivisionByZero)
  else inr (Decimal_round (a / b)).

(** [a * b] on decimals. *)
Definition Decimal_mul (a b : Decimal) : Decimal := Decimal_round (a * b).

Definition Qlt_bool (a b : Q) : bool := negb (Qle_bool b a).

(** ** The computed columns of the admin console *)

(** How a column function ends.  [Span color v] and [SpanPercent color v]
    are the two calls of the framework's [format_html], on the templates
    [<span style=color: {};>{}</span>] and
    [<span style=color: {};>{:.2f}%</span>], with the arguments they are
    given: the embedding stops at the call, what [format_html] makes of its
    arguments is the framework's.  [Text] is a returned string. *)
Inductive Cell :=
| Span (color : string) (value : Z)
| SpanPercent (color : string) (value : Decimal)
| Text (s : string).

(** [CourseOfferingAdmin.available_slots_display]. *)
Definition available_slots_display (obj : CourseOffering.row) : Cell :=
  let available := CourseOffering.available_slots obj in
  let color :=
    if available >? 10 then "green"%string
    else if available >? 0 then "orange"%string
    else "red"%string in
  Span color available.

(** [AssessmentScoreAdmin.percentage] on a score [obj] whose [obj.assessment]
    is [assessment]. *)
Definition percentage_of (obj : AssessmentScore.row)
  (assessment : Assessment.row) : Exception + Cell :=
  if Qlt_bool (inject_Z 0) (Assessment.max_score assessment) then
    match Decimal_truediv (AssessmentScore.score obj)
            (Assessment.max_score assessment) with
    | inl e => inl e
    | inr q =>
        let pct := Decimal_mul q (inject_Z 100) in
        let color :=
          if Qle_bool (inject_Z 75) pct then "green"%string
          else if Qle_bool (inject_Z 60) pct then "orange"%string
          else "red"%string in
        inr (SpanPercent color pct)
    end
  else inr (Text "-").

Definition find_assessment (st : Store) (id : pk) : option Assessment.row :=
  find (fun a => Assessment.id a =? id) (assessments st).

(** [AssessmentScoreAdmin.percentage], with the related assessment fetched
    from the store. *)
Definition percentage (st : Store) (obj : AssessmentScore.row)
  : Exception + Cell :=
  match find_assessment st (AssessmentScore.assessment obj) with
  | None => inl RelatedObjectDoesNotExist
  | Some a => percentage_of obj a
  end.

(** ** Assessment scores *)

Definition AssessmentScore_key (assessment enrollment : pk)
  : list (string * pk) :=
  [("assessment"%string, assessment); ("enrollment"%string, enrollment)].

Definition AssessmentScore_with (assessment enrollment : pk)
  (s : AssessmentScore.row) : bool :=
  (AssessmentScore.assessment s =? assessment)
  && (AssessmentScore.enrollment s =? enrollment).

(** [AssessmentScore.objects.create(...)] at time [now], under
    [unique_together = ('assessment', 'enrollment')].  The score is not
    compared with the assessment's [max_score], and no grade is touched. *)
Definition AssessmentScore_create (st : Store) (now : DateTime)
  (assessment enrollment : pk) (score : Decimal) (remarks : string)
  : Result * Store :=
  if existsb (AssessmentScore_with assessment enrollment)
       (assessment_scores st) then
    (Rejected (UniqueViolation "AssessmentScore"
                 (AssessmentScore_key assessment enrollment)), st)
  else if negb (existsb (fun a => Assessment.id a =? assessment)
                  (assessments st)) then
    (Rejected (ForeignKeyViolation "AssessmentScore" "assessment" assessment),
     st)
  else if negb (existsb (fun e => Enrollment.id e =? enrollment)
                  (enrollments st)) then
    (Rejected (ForeignKeyViolation "AssessmentScore" "enrollment" enrollment),
     st)
  else
    let id := next_id AssessmentScore.id (assessment_scores st) in
    (Saved id,
     set_assessment_scores
       (assessment_scores st ++
        [AssessmentScore.mk id assessment enrollment score remarks now])
       st).

(** Modelled from the spec: what one score contributes to the "computed
    term score" of an enrollment, [score/max_score * weight], in exact
    arithmetic.  No function of [models.py] or [admin.py] computes it; the
    definition follows the formula of the specification. *)
Definition contribution (score max_score weight : Q) : Q :=
  score / max_score * weight.

Definition Qsum (l : list Q) : Q := fold_right Qplus 0%Q l.

(** The scores recorded for an enrollment on one assessment. *)
Definition scores_on (st : Store) (assessment enrollment : pk)
  : list AssessmentScore.row :=
  filter (AssessmentScore_with assessment enrollment) (assessment_scores st).

(** The assessments attached to an offering. *)
Definition assessments_of (st : Store) (course_offering : pk)
  : list Assessment.row :=
  filter (fun a => Assessment.course_offering a =? course_offering)
    (assessments st).

(** Modelled from the spec: the computed term score of enrollment [e], the
    sum of the contributions of its scores over the assessments of its
    offering.  (It is computed by no function of the sources.) *)
Definition computed_term_score (st : Store) (e : Enrollment.row) : Q :=
  Qsum
    (map (fun a =>
            Qsum
              (map (fun s =>
                      contribution (AssessmentScore.score s)
                        (Assessment.max_score a) (Assessment.weight a))
                 (scores_on st (Assessment.id a) (Enrollment.id e))))
       (assessments_of st (Enrollment.course_offering e))).

(** ** Claims as the specification words them, and sample data *)

Definition rejected (r : Result) : Prop := exists e, r = Rejected e.

(** Capacity contract of the specification: an enrollment against an
    offering with no slot left is refused and leaves the offering as it was. *)
Definition capacity_checked (st : Store) (today : Date)
  (student course_offering : pk) : Prop :=
  forall o,
    find_offering st course_offering = Some o ->
    CourseOffering.available_slots o <= 0 ->
    rejected (fst (Enrollment_create_default st today student course_offering))
    /\ find_offering
         (snd (Enrollment_create_default st today student course_offering))
         course_offering = Some o.

(** Counter invariant of the specification. *)
Definition within_capacity (o : CourseOffering.row) : Prop :=
  (CourseOffering.enrolled_count o <= CourseOffering.max_slots o)%N.

Definition counters_bounded (st : Store) : Prop :=
  forall o, In o (course_offerings st) ->
            within_capacity o /\ 0 <= CourseOffering.available_slots o.

Definition enrolled_counts (st : Store) : list N :=
  map CourseOffering.enrolled_count (course_offerings st).

Definition student_row (id : pk) (student_id : string) : Student.row :=
  Student.mk id id student_id None None 1 ACTIVE "" "" "" "" "" "" 0 None.

Definition offering_row (id course : pk) (max_slots enrolled_count : N)
  : CourseOffering.row :=
  CourseOffering.mk id course 1 None "A" max_slots enrolled_count true.

Definition course_row (id : pk) (course_code : string) : Course.row :=
  Course.mk id course_code "" "" None 3 3 0 MAJOR 1 "".

(** One academic year and its first semester (key 1 each). *)
Definition year_1 : AcademicYear.row :=
  AcademicYear.mk 1 "2024-2025" 0 364 true.
Definition semester_1 : Semester.row := Semester.mk 1 1 SEM_1ST 0 150 true 0 14.

(** One offering (key 1, of course 1 in semester 1) and the students A, B,
    C (keys 1-3). *)
Definition one_offering (max_slots enrolled_count : N)
  (es : list Enrollment.row) : Store :=
  mkStore [year_1] [semester_1] [] []
    [student_row 1 "A"; student_row 2 "B"; student_row 3 "C"] []
    [course_row 1 "CS101"] []
    [offering_row 1 1 max_slots enrolled_count] [] es [] [] [] [] [] [] [] []
    [] [].

(** The scenario of the specification: max_slots = 2, enrolled_count = 0. *)
Definition scenario0 : Store := one_offering 2 0 [].
Definition scenario1 : Store := snd (Enrollment_create_default scenario0 0 1 1).
Definition scenario2 : Store := snd (Enrollment_create_default scenario1 0 2 1).
Definition scenario3 : Store := snd (Enrollment_create_default scenario2 0 3 1).

(** An offering whose two slots are taken according to its counter. *)
Definition full_offering : Store := one_offering 2 2 [].

(** An offering whose counter is above its capacity. *)
Definition overbooked : Store := one_offering 1 2 [].

(** An offering with one student enrolled and counted. *)
Definition one_enrolled : Store :=
  one_offering 2 1 [Enrollment.mk 1 1 1 0 ENROLLED None].

(** Decrement contract of the specification: dropping an enrolled student
    takes one off the offering's counter. *)
Definition drop_decrements (st : Store) (enrollment : pk) : Prop :=
  forall e o,
    find_enrollment st enrollment = Some e ->
    Enrollment.status e = ENROLLED ->
    find_offering st (Enrollment.course_offering e) = Some o ->
    exists o',
      find_offering (handle st (Drop enrollment)) (Enrollment.course_offering e)
      = Some o'
      /\ Z.of_N (CourseOffering.enrolled_count o')
         = Z.of_N (CourseOffering.enrolled_count o) - 1.

(** Terminal states of the three life cycles. *)
Definition Enrollment_terminal (s : EnrollmentStatus) : bool :=
  match s with DROPPED | COMPLETED => true | _ => false end.

Definition Request_terminal (s : RequestStatus) : bool :=
  match s with RQ_CLAIMED | RQ_CANCELLED => true | _ => false end.

Definition Feedback_terminal (s : FeedbackStatus) : bool :=
  match s with FB_CLOSED => true | _ => false end.

(** Terminal-state contract of the specification, for enrollments: a
    change of status of a row in a terminal state is refused. *)
Definition terminal_is_final (st : Store) (enrollment : pk)
  (status : EnrollmentStatus) : Prop :=
  forall e,
    find_enrollment st enrollment = Some e ->
    Enrollment_terminal (Enrollment.status e) = true ->
    status <> Enrollment.status e ->
    rejected (fst (Enrollment_save_status st enrollment status)).

Definition find_document_request (st : Store) (id : pk)
  : option DocumentRequest.row :=
  find (fun r => DocumentRequest.id r =? id) (document_requests st).

Definition find_feedback (st : Store) (id : pk) : option Feedback.row :=
  find (fun f => Feedback.id f =? id) (feedbacks st).

(** A student who has dropped the offering. *)
Definition one_dropped : Store :=
  one_offering 2 0 [Enrollment.mk 1 1 1 0 DROPPED (Some 5)].

(** A claimed document request and a closed feedback of student A. *)
Definition closed_cases : Store :=
  mkStore [] [] [] [] [student_row 1 "A"] [] [] [] [] [] [] [] [] [] []
    [DocumentRequest.mk 1 1 TOR "work" 1 0 RQ_CLAIMED (Some 9) 0%Q ""]
    [] [] []
    [Feedback.mk 1 1 INQUIRY "hours" "when" FB_CLOSED 0 "" None None] [].

(** [unique_together = ('student', 'course_offering')], as a property of a
    store: every pair has at most one enrollment. *)
Definition Enrollment_unique (st : Store) : Prop :=
  forall student course_offering,
    (List.length
       (filter (Enrollment_with student course_offering) (enrollments st))
     <= 1)%nat.

(** A catalog of two courses, with no prerequisite. *)
Definition two_courses : Store :=
  mkStore [] [] [] [] [] [] [course_row 1 "CS101"; course_row 2 "CS102"] []
    [] [] [] [] [] [] [] [] [] [] [] [] [].

(** The assessment and the score of the specification's scenario:
    max_score = 50, weight = 30, a score of 40 (and one of 0 on a second
    sheet, with max_score = 0). *)
Definition assessment_row (id course_offering : pk) (max_score weight : Q)
  : Assessment.row :=
  Assessment.mk id course_offering "Quiz 1" QUIZ max_score weight 0 "".

Definition score_row (id assessment enrollment : pk) (score : Q)
  : AssessmentScore.row :=
  AssessmentScore.mk id assessment enrollment score "" 0.

(** The colour [percentage] gives a percentage. *)
Definition percentage_color (pct : Decimal) : string :=
  if Qle_bool (inject_Z 75) pct then "green"
  else if Qle_bool (inject_Z 60) pct then "orange" else "red".

(** The rows a course owns: its offerings, and the enrollments and the
    assessments of its offerings, each named by its key. *)
Definition offering_of (st : Store) (course : pk) (o : pk) : Prop :=
  exists r, In r (course_offerings st)
            /\ CourseOffering.id r = o /\ CourseOffering.course r = course.

Definition enrollment_of (st : Store) (course : pk) (e : pk) : Prop :=
  exists r, In r (enrollments st)
            /\ Enrollment.id r = e
            /\ offering_of st course (Enrollment.course_offering r).

Definition assessment_of (st : Store) (course : pk) (a : pk) : Prop :=
  exists r, In r (assessments st)
            /\ Assessment.id r = a
            /\ offering_of st course (Assessment.course_offering r).

(** The tables the specification's cascade does not name are left as they
    are: the reading of "no other rows are deleted". *)
Definition only_named_tables_change (st st' : Store) : Prop :=
  academic_years st' = academic_years st
  /\ semesters st' = semesters st
  /\ departments st' = departments st
  /\ faculty st' = faculty st
  /\ students st' = students st
  /\ programs st' = programs st
  /\ course_prerequisites st' = course_prerequisites st
  /\ announcements st' = announcements st
  /\ assessments st' = assessments st
  /\ assessment_scores st' = assessment_scores st
  /\ document_requests st' = document_requests st
  /\ events st' = events st
  /\ event_registrations st' = event_registrations st
  /\ notifications st' = notifications st
  /\ feedbacks st' = feedbacks st
  /\ course_evaluations st' = course_evaluations st.

(** The tables no key path leads to from a course. *)
Definition unrelated_tables_kept (st st' : Store) : Prop :=
  academic_years st' = academic_years st
  /\ semesters st' = semesters st
  /\ departments st' = departments st
  /\ faculty st' = faculty st
  /\ students st' = students st
  /\ programs st' = programs st
  /\ announcements st' = announcements st
  /\ document_requests st' = document_requests st
  /\ events st' = events st
  /\ event_registrations st' = event_registrations st
  /\ notifications st' = notifications st
  /\ feedbacks st' = feedbacks st.

(** Course 1 with offering 1, in which student A is enrolled, graded,
    assessed, scored and has evaluated the course; course 2 requires
    course 1 and has offering 2 with a schedule. *)
Definition taught_course : Store :=
  mkStore [year_1] [semester_1] [] []
    [student_row 1 "A"] []
    [course_row 1 "CS101"; course_row 2 "CS102"]
    [CoursePrerequisite.mk 1 2 1]
    [offering_row 1 1 40 1; offering_row 2 2 40 0]
    [Schedule.mk 1 1 MON 0 60 "R1" ""; Schedule.mk 2 2 TUE 0 60 "R2" ""]
    [Enrollment.mk 1 1 1 0 ENROLLED None]
    [Grade.mk 1 1 None None "" "" None]
    []
    [assessment_row 1 1 (inject_Z 50) (inject_Z 30)]
    [score_row 1 1 1 (inject_Z 40)]
    [] [] [] [] []
    [CourseEvaluation.mk 1 1 5 5 5 5 5 "" 0 true].

Definition faculty_row (id : pk) (employee_id : string)
  (department : option pk) : Faculty.row :=
  Faculty.mk id id department employee_id "Professor" FULL_TIME "" "" "" ""
    None "" true.

(** The head of a department survives the deletion of the department with
    every field as before: the specification's reading. *)
Definition head_untouched (st : Store) (department : pk) : Prop :=
  forall d f,
    In d (departments st) -> Department.id d = department ->
    In f (faculty st) -> Department.head d = Some (Faculty.id f) ->
    In f (faculty (Department_delete st department))
    /\ forall d',
         In d' (headed_department (Department_delete st department)
                  (Faculty.id f)) ->
         Department.id d' <> department.

(** Department 1 is headed by faculty member 1, who belongs to it; faculty
    member 2 belongs to it as well and heads department 2. *)
Definition headed : Store :=
  mkStore [] []
    [Department.mk 1 "Computer Science" "CS" "" (Some 1) "" "" "";
     Department.mk 2 "Mathematics" "MATH" "" (Some 2) "" "" ""]
    [faculty_row 1 "E1" (Some 1); faculty_row 2 "E2" (Some 1)]
    [] [] [] [] [] [] [] [] [] [] [] [] [] [] [] [] [].

(** [taught_course] before the score of student A is recorded. *)
Definition unscored : Store := set_assessment_scores [] taught_course.

(** Recording the score of the scenario, 40, for student A. *)
Definition record_40 : Result * Store :=
  AssessmentScore_create unscored 0 1 1 (inject_Z 40) "".

(** The enrollment of student A in [taught_course]. *)
Definition enrollment_A : Enrollment.row := Enrollment.mk 1 1 1 0 ENROLLED None.

(** [unique_together = ('assessment', 'enrollment')], as a property of a
    store. *)
Definition AssessmentScore_unique (st : Store) : Prop :=
  forall assessment enrollment,
    (List.length
       (filter (AssessmentScore_with assessment enrollment)
          (assessment_scores st))
     <= 1)%nat.

(** The generated keys of the enrollments are pairwise distinct. *)
Definition Enrollment_keys_distinct (st : Store) : Prop :=
  NoDup (map Enrollment.id (enrollments st)).

(** The tables no key leads to from a department. *)
Definition department_free_tables_kept (st st' : Store) : Prop :=
  academic_years st' = academic_years st
  /\ semesters st' = semesters st
  /\ course_prerequisites st' = course_prerequisites st
  /\ course_offerings st' = course_offerings st
  /\ schedules st' = schedules st
  /\ enrollments st' = enrollments st
  /\ grades st' = grades st
  /\ assessments st' = assessments st
  /\ assessment_scores st' = assessment_scores st
  /\ document_requests st' = document_requests st
  /\ event_registrations st' = event_registrations st
  /\ notifications st' = notifications st
  /\ feedbacks st' = feedbacks st
  /\ course_evaluations st' = course_evaluations st.

(** Department 1 with a student, a course and a program of its own, and a
    program of department 2. *)
Definition populated_department : Store :=
  mkStore [] []
    [Department.mk 1 "Computer Science" "CS" "" None "" "" "";
     Department.mk 2 "Mathematics" "MATH" "" None "" "" ""]
    []
    [Student.mk 1 1 "A" (Some 1) None 1 ACTIVE "" "" "" "" "" "" 0 None]
    [Program.mk 1 "Computer Science" "BSCS" BS 1 "" 120 4;
     Program.mk 2 "Mathematics" "BSM" BS 2 "" 120 4]
    [Course.mk 1 "CS101" "" "" (Some 1) 3 3 0 MAJOR 1 ""]
    [] [] [] [] [] [] [] [] [] [] [] [] [] [].

(** ** The other deletions

    The remaining models that a key points at, with the rule of each key
    that points at them. *)

Definition Department_set_head (h : option pk) (d : Department.row)
  : Department.row :=
  Department.mk (Department.id d) (Department.name d) (Department.code d)
    (Department.description d) h (Department.email d) (Department.phone d)
    (Department.building d).

Definition CourseOffering_set_faculty (f : option pk) (o : CourseOffering.row)
  : CourseOffering.row :=
  CourseOffering.mk (CourseOffering.id o) (CourseOffering.course o)
    (CourseOffering.semester o) f (CourseOffering.section o)
    (CourseOffering.max_slots o) (CourseOffering.enrolled_count o)
    (CourseOffering.is_active o).

Definition Announcement_set_posted_by (u : option pk) (a : Announcement.row)
  : Announcement.row :=
  Announcement.mk (Announcement.id a) (Announcement.department a)
    (Announcement.title a) (Announcement.content a) u
    (Announcement.priority a) (Announcement.target_audience a)
    (Announcement.created_at a) (Announcement.updated_at a)
    (Announcement.is_public a) (Announcement.is_active a)
    (Announcement.expiry_date a) (Announcement.attachment a).

Definition Event_set_organizer (u : option pk) (e : Event.row) : Event.row :=
  Event.mk (Event.id e) (Event.title e) (Event.description e)
    (Event.event_type e) (Event.start_datetime e) (Event.end_datetime e)
    (Event.venue e) u (Event.department e) (Event.max_participants e)
    (Event.is_published e) (Event.banner_image e).

Definition Feedback_set_responded_by (u : option pk) (f : Feedback.row)
  : Feedback.row :=
  Feedback.mk (Feedback.id f) (Feedback.student f) (Feedback.feedback_type f)
    (Feedback.subject f) (Feedback.message f) (Feedback.status f)
    (Feedback.submitted_at f) (Feedback.response f) u
    (Feedback.responded_at f).

(** Clearing a [SET_NULL] key that points at one of the deleted rows. *)
Definition clear_in {A : Type} (get : A -> option pk)
  (set : option pk -> A -> A) (ids : list pk) (r : A) : A :=
  match get r with
  | Some k => if mem k ids then set None r else r
  | None => r
  end.

(** [enrollment.delete()], [assessment.delete()], [offering.delete()]. *)
Definition Enrollment_delete (st : Store) (id : pk) : Store :=
  delete_enrollments [id] st.

Definition Assessment_delete (st : Store) (id : pk) : Store :=
  delete_assessments [id] st.

Definition CourseOffering_delete (st : Store) (id : pk) : Store :=
  delete_course_offerings [id] st.

Definition offerings_of_semesters (st : Store) (ids : list pk) : list pk :=
  map CourseOffering.id
    (filter (fun o => mem (CourseOffering.semester o) ids)
       (course_offerings st)).

(** Semester is referenced by [CourseOffering.semester] (CASCADE). *)
Definition delete_semesters (ids : list pk) (st : Store) : Store :=
  let st1 := delete_course_offerings (offerings_of_semesters st ids) st in
  mkStore (academic_years st1)
    (filter (fun s => negb (mem (Semester.id s) ids)) (semesters st1))
    (departments st1) (faculty st1) (students st1) (programs st1)
    (courses st1) (course_prerequisites st1) (course_offerings st1)
    (schedules st1) (enrollments st1) (grades st1) (announcements st1)
    (assessments st1) (assessment_scores st1) (document_requests st1)
    (events st1) (event_registrations st1) (notifications st1)
    (feedbacks st1) (course_evaluations st1).

Definition Semester_delete (st : Store) (id : pk) : Store :=
  delete_semesters [id] st.

Definition semesters_of_year (st : Store) (id : pk) : list pk :=
  map Semester.id
    (filter (fun s => Semester.academic_year s =? id) (semesters st)).

(** [year.delete()].  AcademicYear is referenced by
    [Semester.academic_year] (CASCADE). *)
Definition AcademicYear_delete (st : Store) (id : pk) : Store :=
  let st1 := delete_semesters (semesters_of_year st id) st in
  mkStore
    (filter (fun y => negb (AcademicYear.id y =? id)) (academic_years st1))
    (semesters st1) (departments st1) (faculty st1) (students st1)
    (programs st1) (courses st1) (course_prerequisites st1)
    (course_offerings st1) (schedules st1) (enrollments st1) (grades st1)
    (announcements st1) (assessments st1) (assessment_scores st1)
    (document_requests st1) (events st1) (event_registrations st1)
    (notifications st1) (feedbacks st1) (course_evaluations st1).

Definition enrollments_of_students (st : Store) (ids : list pk) : list pk :=
  map Enrollment.id
    (filter (fun e => mem (Enrollment.student e) ids) (enrollments st)).

(** Student is referenced by [Enrollment.student], [DocumentRequest.student],
    [EventRegistration.student] and [Feedback.student] (all CASCADE). *)
Definition delete_students (ids : list pk) (st : Store) : Store :=
  let st1 := delete_enrollments (enrollments_of_students st ids) st in
  mkStore (academic_years st1) (semesters st1) (departments st1) (faculty st1)
    (filter (fun s => negb (mem (Student.id s) ids)) (students st1))
    (programs st1) (courses st1) (course_prerequisites st1)
    (course_offerings st1) (schedules st1) (enrollments st1) (grades st1)
    (announcements st1) (assessments st1) (assessment_scores st1)
    (filter (fun r => negb (mem (DocumentRequest.student r) ids))
       (document_requests st1))
    (events st1)
    (filter (fun r => negb (mem (EventRegistration.student r) ids))
       (event_registrations st1))
    (notifications st1)
    (filter (fun f => negb (mem (Feedback.student f) ids)) (feedbacks st1))
    (course_evaluations st1).

Definition Student_delete (st : Store) (id : pk) : Store :=
  delete_students [id] st.

(** Faculty is referenced by [Department.head] and [CourseOffering.faculty]
    (both SET_NULL). *)
Definition delete_faculty (ids : list pk) (st : Store) : Store :=
  mkStore (academic_years st) (semesters st)
    (map (clear_in Department.head Department_set_head ids) (departments st))
    (filter (fun f => negb (mem (Faculty.id f) ids)) (faculty st))
    (students st) (programs st) (courses st) (course_prerequisites st)
    (map (clear_in CourseOffering.faculty CourseOffering_set_faculty ids)
       (course_offerings st))
    (schedules st) (enrollments st) (grades st) (announcements st)
    (assessments st) (assessment_scores st) (document_requests st)
    (events st) (event_registrations st) (notifications st) (feedbacks st)
    (course_evaluations st).

Definition Faculty_delete (st : Store) (id : pk) : Store :=
  delete_faculty [id] st.

(** [event.delete()].  Event is referenced by [EventRegistration.event]
    (CASCADE). *)
Definition Event_delete (st : Store) (id : pk) : Store :=
  mkStore (academic_years st) (semesters st) (departments st) (faculty st)
    (students st) (programs st) (courses st) (course_prerequisites st)
    (course_offerings st) (schedules st) (enrollments st) (grades st)
    (announcements st) (assessments st) (assessment_scores st)
    (document_requests st)
    (filter (fun e => negb (Event.id e =? id)) (events st))
    (filter (fun r => negb (EventRegistration.event r =? id))
       (event_registrations st))
    (notifications st) (feedbacks st) (course_evaluations st).

Definition faculty_of_user (st : Store) (u : pk) : list pk :=
  map Faculty.id (filter (fun f => Faculty.user f =? u) (faculty st)).

Definition students_of_user (st : Store) (u : pk) : list pk :=
  map Student.id (filter (fun s => Student.user s =? u) (students st)).

(** [user.delete()], on the tables of [models.py].  The user of the
    framework is referenced by [Faculty.user], [Student.user] and
    [Notification.recipient] (CASCADE) and by [Announcement.posted_by],
    [Event.organizer] and [Feedback.responded_by] (SET_NULL). *)
Definition User_delete (st : Store) (u : pk) : Store :=
  let st1 := delete_faculty (faculty_of_user st u) st in
  let st2 := delete_students (students_of_user st u) st1 in
  mkStore (academic_years st2) (semesters st2) (departments st2) (faculty st2)
    (students st2) (programs st2) (courses st2) (course_prerequisites st2)
    (course_offerings st2) (schedules st2) (enrollments st2) (grades st2)
    (map (clear Announcement.posted_by Announcement_set_posted_by u)
       (announcements st2))
    (assessments st2) (assessment_scores st2) (document_requests st2)
    (map (clear Event.organizer Event_set_organizer u) (events st2))
    (event_registrations st2)
    (filter (fun n => negb (Notification.recipient n =? u))
       (notifications st2))
    (map (clear Feedback.responded_by Feedback_set_responded_by u)
       (feedbacks st2))
    (course_evaluations st2).

(** ** Referential integrity

    Every key of a row names a row of the table it points at (the keys to
    the framework's user are outside the store). *)

Definition refs {A B : Type} (fk : A -> pk) (src : list A) (id : B -> pk)
  (tgt : list B) : Prop :=
  forall a, In a src -> In (fk a) (map id tgt).

Definition refs_opt {A B : Type} (fk : A -> option pk) (src : list A)
  (id : B -> pk) (tgt : list B) : Prop :=
  forall a k, In a src -> fk a = Some k -> In k (map id tgt).

Record referential_integrity (st : Store) : Prop := {
  ri_semester_year :
    refs Semester.academic_year (semesters st)
      AcademicYear.id (academic_years st);
  ri_department_head :
    refs_opt Department.head (departments st) Faculty.id (faculty st);
  ri_faculty_department :
    refs_opt Faculty.department (faculty st) Department.id (departments st);
  ri_student_department :
    refs_opt Student.department (students st) Department.id (departments st);
  ri_program_department :
    refs Program.department (programs st) Department.id (departments st);
  ri_course_department :
    refs_opt Course.department (courses st) Department.id (departments st);
  ri_prerequisite_from :
    refs CoursePrerequisite.from_course (course_prerequisites st)
      Course.id (courses st);
  ri_prerequisite_to :
    refs CoursePrerequisite.to_course (course_prerequisites st)
      Course.id (courses st);
  ri_offering_course :
    refs CourseOffering.course (course_offerings st) Course.id (courses st);
  ri_offering_semester :
    refs CourseOffering.semester (course_offerings st)
      Semester.id (semesters st);
  ri_offering_faculty :
    refs_opt CourseOffering.faculty (course_offerings st)
      Faculty.id (faculty st);
  ri_schedule_offering :
    refs Schedule.course_offering (schedules st)
      CourseOffering.id (course_offerings st);
  ri_enrollment_student :
    refs Enrollment.student (enrollments st) Student.id (students st);
  ri_enrollment_offering :
    refs Enrollment.course_offering (enrollments st)
      CourseOffering.id (course_offerings st);
  ri_grade_enrollment :
    refs Grade.enrollment (grades st) Enrollment.id (enrollments st);
  ri_announcement_department :
    refs_opt Announcement.department (announcements st)
      Department.id (departments st);
  ri_assessment_offering :
    refs Assessment.course_offering (assessments st)
      CourseOffering.id (course_offerings st);
  ri_score_assessment :
    refs AssessmentScore.assessment (assessment_scores st)
      Assessment.id (assessments st);
  ri_score_enrollment :
    refs AssessmentScore.enrollment (assessment_scores st)
      Enrollment.id (enrollments st);
  ri_request_student :
    refs DocumentRequest.student (document_requests st)
      Student.id (students st);
  ri_event_department :
    refs_opt Event.department (events st) Department.id (departments st);
  ri_registration_event :
    refs EventRegistration.event (event_registrations st)
      Event.id (events st);
  ri_registration_student :
    refs EventRegistration.student (event_registrations st)
      Student.id (students st);
  ri_feedback_student :
    refs Feedback.student (feedbacks st) Student.id (students st);
  ri_evaluation_enrollment :
    refs CourseEvaluation.enrollment (course_evaluations st)
      Enrollment.id (enrollments st) }.

(** The same, as a check that computes. *)
Definition refs_b {A B : Type} (fk : A -> pk) (src : list A) (id : B -> pk)
  (tgt : list B) : bool :=
  forallb (fun a => mem (fk a) (map id tgt)) src.

Definition refs_opt_b {A B : Type} (fk : A -> option pk) (src : list A)
  (id : B -> pk) (tgt : list B) : bool :=
  forallb (fun a => match fk a with
                    | Some k => mem k (map id tgt)
                    | None => true
                    end) src.

Definition referential_integrity_b (st : Store) : bool :=
  refs_b Semester.academic_year (semesters st)
    AcademicYear.id (academic_years st)
  && refs_opt_b Department.head (departments st) Faculty.id (faculty st)
  && refs_opt_b Faculty.department (faculty st)
       Department.id (departments st)
  && refs_opt_b Student.department (students st)
       Department.id (departments st)
  && refs_b Program.department (programs st) Department.id (departments st)
  && refs_opt_b Course.department (courses st)
       Department.id (departments st)
  && refs_b CoursePrerequisite.from_course (course_prerequisites st)
       Course.id (courses st)
  && refs_b CoursePrerequisite.to_course (course_prerequisites st)
       Course.id (courses st)
  && refs_b CourseOffering.course (course_offerings st) Course.id (courses st)
  && refs_b CourseOffering.semester (course_offerings st)
       Semester.id (semesters st)
  && refs_opt_b CourseOffering.faculty (course_offerings st)
       Faculty.id (faculty st)
  && refs_b Schedule.course_offering (schedules st)
       CourseOffering.id (course_offerings st)
  && refs_b Enrollment.student (enrollments st) Student.id (students st)
  && refs_b Enrollment.course_offering (enrollments st)
       CourseOffering.id (course_offerings st)
  && refs_b Grade.enrollment (grades st) Enrollment.id (enrollments st)
  && refs_opt_b Announcement.department (announcements st)
       Department.id (departments st)
  && refs_b Assessment.course_offering (assessments st)
       CourseOffering.id (course_offerings st)
  && refs_b AssessmentScore.assessment (assessment_scores st)
       Assessment.id (assessments st)
  && refs_b AssessmentScore.enrollment (assessment_scores st)
       Enrollment.id (enrollments st)
  && refs_b DocumentRequest.student (document_requests st)
       Student.id (students st)
  && refs_opt_b Event.department (events st) Department.id (departments st)
  && refs_b EventRegistration.event (event_registrations st)
       Event.id (events st)
  && refs_b EventRegistration.student (event_registrations st)
       Student.id (students st)
  && refs_b Feedback.student (feedbacks st) Student.id (students st)
  && refs_b CourseEvaluation.enrollment (course_evaluations st)
       Enrollment.id (enrollments st).

(** A campus: two departments with their heads, programs, students and
    courses, the offerings of one semester with schedules, enrollments,
    grades, assessments, scores and evaluations, and the records of the
    students' requests, events and feedback. *)
Definition campus : Store :=
  mkStore
    [year_1]
    [semester_1]
    [Department.mk 1 "Computer Science" "CS" "" (Some 1) "" "" "";
     Department.mk 2 "Mathematics" "MATH" "" (Some 2) "" "" ""]
    [faculty_row 1 "E1" (Some 1); faculty_row 2 "E2" (Some 2)]
    [Student.mk 1 11 "A" (Some 1) None 1 ACTIVE "" "" "" "" "" "" 0 None;
     Student.mk 2 12 "B" (Some 2) None 2 ACTIVE "" "" "" "" "" "" 0 None]
    [Program.mk 1 "Computer Science" "BSCS" BS 1 "" 120 4;
     Program.mk 2 "Mathematics" "BSM" BS 2 "" 120 4]
    [Course.mk 1 "CS101" "Programming" "" (Some 1) 3 3 0 MAJOR 1 "1ST";
     Course.mk 2 "CS102" "Data Structures" "" (Some 1) 3 3 0 MAJOR 1 "2ND";
     Course.mk 3 "MATH101" "Calculus" "" (Some 2) 3 3 0 GEN_ED 1 "BOTH"]
    [CoursePrerequisite.mk 1 2 1]
    [CourseOffering.mk 1 1 1 (Some 1) "A" 40 2 true;
     CourseOffering.mk 2 3 1 (Some 2) "A" 40 1 true]
    [Schedule.mk 1 1 MON 28800 32400 "R1" "Main";
     Schedule.mk 2 1 FRI 28800 32400 "R1" "Main";
     Schedule.mk 3 2 TUE 36000 39600 "R2" "Main"]
    [Enrollment.mk 1 1 1 0 ENROLLED None;
     Enrollment.mk 2 2 1 0 ENROLLED None;
     Enrollment.mk 3 1 2 0 ENROLLED None]
    [Grade.mk 1 1 None None "" "" None;
     Grade.mk 2 3 None None "1.25" "Passed" (Some 100)]
    [Announcement.mk 1 (Some 1) "Enrollment" "Open" (Some 21) NORMAL "ALL" 0 0
       true true None None]
    [assessment_row 1 1 (inject_Z 50) (inject_Z 30);
     assessment_row 2 2 (inject_Z 100) (inject_Z 40)]
    [score_row 1 1 1 (inject_Z 40); score_row 2 1 2 (inject_Z 35);
     score_row 3 2 3 (inject_Z 90)]
    [DocumentRequest.mk 1 1 TOR "work" 1 0 RQ_PENDING None 0%Q ""]
    [Event.mk 1 "Orientation" "" EV_ACADEMIC 0 3600 "Gym" (Some 21) (Some 1)
       (Some 1%N) true None]
    [EventRegistration.mk 1 1 1 0 false false;
     EventRegistration.mk 2 1 2 0 false false]
    [Notification.mk 1 11 NT_GENERAL "Welcome" "" false 0 ""]
    [Feedback.mk 1 2 INQUIRY "hours" "when" FB_PENDING 0 "" (Some 21) None]
    [CourseEvaluation.mk 1 1 5 4 4 5 5 "" 0 true].

(** The enrollments of a student, the semesters of a year and what hangs
    on them, each row named by its key. *)
Definition enrollment_of_student (st : Store) (student : pk) (e : pk) : Prop :=
  exists r, In r (enrollments st)
            /\ Enrollment.id r = e /\ Enrollment.student r = student.

Definition semester_of_year (st : Store) (year : pk) (s : pk) : Prop :=
  exists r, In r (semesters st)
            /\ Semester.id r = s /\ Semester.academic_year r = year.

Definition offering_in_year (st : Store) (year : pk) (o : pk) : Prop :=
  exists r, In r (course_offerings st)
            /\ CourseOffering.id r = o
            /\ semester_of_year st year (CourseOffering.semester r).

Definition enrollment_in_year (st : Store) (year : pk) (e : pk) : Prop :=
  exists r, In r (enrollments st)
            /\ Enrollment.id r = e
            /\ offering_in_year st year (Enrollment.course_offering r).

Definition assessment_in_year (st : Store) (year : pk) (a : pk) : Prop :=
  exists r, In r (assessments st)
            /\ Assessment.id r = a
            /\ offering_in_year st year (Assessment.course_offering r).

(** The tables no key leads to from a student. *)
Definition student_free_tables_kept (st st' : Store) : Prop :=
  academic_years st' = academic_years st
  /\ semesters st' = semesters st
  /\ departments st' = departments st
  /\ faculty st' = faculty st
  /\ programs st' = programs st
  /\ courses st' = courses st
  /\ course_prerequisites st' = course_prerequisites st
  /\ course_offerings st' = course_offerings st
  /\ schedules st' = schedules st
  /\ announcements st' = announcements st
  /\ assessments st' = assessments st
  /\ events st' = events st
  /\ notifications st' = notifications st.

(** The tables no key leads to from a faculty member. *)
Definition faculty_free_tables_kept (st st' : Store) : Prop :=
  academic_years st' = academic_years st
  /\ semesters st' = semesters st
  /\ students st' = students st
  /\ programs st' = programs st
  /\ courses st' = courses st
  /\ course_prerequisites st' = course_prerequisites st
  /\ schedules st' = schedules st
  /\ enrollments st' = enrollments st
  /\ grades st' = grades st
  /\ announcements st' = announcements st
  /\ assessments st' = assessments st
  /\ assessment_scores st' = assessment_scores st
  /\ document_requests st' = document_requests st
  /\ events st' = events st
  /\ event_registrations st' = event_registrations st
  /\ notifications st' = notifications st
  /\ feedbacks st' = feedbacks st
  /\ course_evaluations st' = course_evaluations st.

(** The tables no key leads to from an academic year. *)
Definition calendar_free_tables_kept (st st' : Store) : Prop :=
  departments st' = departments st
  /\ faculty st' = faculty st
  /\ students st' = students st
  /\ programs st' = programs st
  /\ courses st' = courses st
  /\ course_prerequisites st' = course_prerequisites st
  /\ announcements st' = announcements st
  /\ document_requests st' = document_requests st
  /\ events st' = events st
  /\ event_registrations st' = event_registrations st
  /\ notifications st' = notifications st
  /\ feedbacks st' = feedbacks st.

(** The tables no key leads to from an event. *)
Definition event_free_tables_kept (st st' : Store) : Prop :=
  academic_years st' = academic_years st
  /\ semesters st' = semesters st
  /\ departments st' = departments st
  /\ faculty st' = faculty st
  /\ students st' = students st
  /\ programs st' = programs st
  /\ courses st' = courses st
  /\ course_prerequisites st' = course_prerequisites st
  /\ course_offerings st' = course_offerings st
  /\ schedules st' = schedules st
  /\ enrollments st' = enrollments st
  /\ grades st' = grades st
  /\ announcements st' = announcements st
  /\ assessments st' = assessments st
  /\ assessment_scores st' = assessment_scores st
  /\ document_requests st' = document_requests st
  /\ notifications st' = notifications st
  /\ feedbacks st' = feedbacks st
  /\ course_evaluations st' = course_evaluations st.

(** The capacity columns of the offerings, by key. *)
Definition capacity_columns (st : Store) : list (pk * N * N) :=
  map (fun o => (CourseOffering.id o, CourseOffering.max_slots o,
                 CourseOffering.enrolled_count o))
    (course_offerings st).

(** The number of enrollments a store holds for an offering. *)
Definition enrollment_count (st : Store) (course_offering : pk) : nat :=
  List.length
    (filter (fun e => Enrollment.course_offering e =? course_offering)
       (enrollments st)).

(** ** Choices

    Each choice of a field, with the value stored and the label shown, as
    the [*_CHOICES] lists of [models.py] give them. *)

Open Scope string_scope.

Definition SemesterType_choice (x : SemesterType) : string * string :=
  match x with
  | SEM_1ST => ("1ST", "First Semester")
  | SEM_2ND => ("2ND", "Second Semester")
  | SEM_SUMMER => ("SUMMER", "Summer")
  end.

Definition EmploymentStatus_choice (x : EmploymentStatus) : string * string :=
  match x with
  | FULL_TIME => ("FULL_TIME", "Full Time")
  | PART_TIME => ("PART_TIME", "Part Time")
  | CONTRACT => ("CONTRACT", "Contract")
  end.

Definition StudentStatus_choice (x : StudentStatus) : string * string :=
  match x with
  | ACTIVE => ("ACTIVE", "Active")
  | INACTIVE => ("INACTIVE", "Inactive")
  | GRADUATED => ("GRADUATED", "Graduated")
  | SUSPENDED => ("SUSPENDED", "Suspended")
  | LOA => ("LOA", "Leave of Absence")
  end.

Definition DegreeType_choice (x : DegreeType) : string * string :=
  match x with
  | BS => ("BS", "Bachelor of Science")
  | BA => ("BA", "Bachelor of Arts")
  | MS => ("MS", "Master of Science")
  | MA => ("MA", "Master of Arts")
  | PHD => ("PHD", "Doctor of Philosophy")
  end.

Definition CourseType_choice (x : CourseType) : string * string :=
  match x with
  | MAJOR => ("MAJOR", "Major")
  | MINOR => ("MINOR", "Minor")
  | GEN_ED => ("GEN_ED", "General Education")
  | ELECTIVE => ("ELECTIVE", "Elective")
  end.

Definition DayOfWeek_choice (x : DayOfWeek) : string * string :=
  match x with
  | MON => ("MON", "Monday")
  | TUE => ("TUE", "Tuesday")
  | WED => ("WED", "Wednesday")
  | THU => ("THU", "Thursday")
  | FRI => ("FRI", "Friday")
  | SAT => ("SAT", "Saturday")
  end.

Definition EnrollmentStatus_choice (x : EnrollmentStatus) : string * string :=
  match x with
  | PENDING => ("PENDING", "Pending")
  | APPROVED => ("APPROVED", "Approved")
  | ENROLLED => ("ENROLLED", "Enrolled")
  | DROPPED => ("DROPPED", "Dropped")
  | COMPLETED => ("COMPLETED", "Completed")
  end.

Definition GRADE_CHOICES : list (string * string) :=
  [("1.00", "1.00"); ("1.25", "1.25"); ("1.50", "1.50"); ("1.75", "1.75");
   ("2.00", "2.00"); ("2.25", "2.25"); ("2.50", "2.50"); ("2.75", "2.75");
   ("3.00", "3.00"); ("5.00", "5.00 (Failed)"); ("INC", "Incomplete");
   ("DRP", "Dropped")]%string.

Definition Priority_choice (x : Priority) : string * string :=
  match x with
  | LOW => ("LOW", "Low")
  | NORMAL => ("NORMAL", "Normal")
  | HIGH => ("HIGH", "High")
  | URGENT => ("URGENT", "Urgent")
  end.

Definition AssessmentType_choice (x : AssessmentType) : string * string :=
  match x with
  | QUIZ => ("QUIZ", "Quiz")
  | EXAM => ("EXAM", "Exam")
  | PROJECT => ("PROJECT", "Project")
  | RECITATION => ("RECITATION", "Recitation")
  | ASSIGNMENT => ("ASSIGNMENT", "Assignment")
  end.

Definition DocumentType_choice (x : DocumentType) : string * string :=
  match x with
  | TOR => ("TOR", "Transcript of Records")
  | CERT_GRADES => ("CERT_GRADES", "Certificate of Grades")
  | CERT_ENROLLMENT => ("CERT_ENROLLMENT", "Certificate of Enrollment")
  | GOOD_MORAL => ("GOOD_MORAL", "Certificate of Good Moral")
  | DIPLOMA => ("DIPLOMA", "Diploma")
  | CAV => ("CAV", "Certificate of Authentication and Verification")
  end.

Definition RequestStatus_choice (x : RequestStatus) : string * string :=
  match x with
  | RQ_PENDING => ("PENDING", "Pending")
  | RQ_PROCESSING => ("PROCESSING", "Processing")
  | RQ_READY => ("READY", "Ready for Pickup")
  | RQ_CLAIMED => ("CLAIMED", "Claimed")
  | RQ_CANCELLED => ("CANCELLED", "Cancelled")
  end.

Definition EventType_choice (x : EventType) : string * string :=
  match x with
  | EV_ACADEMIC => ("ACADEMIC", "Academic")
  | EV_SEMINAR => ("SEMINAR", "Seminar")
  | EV_WORKSHOP => ("WORKSHOP", "Workshop")
  | EV_SPORTS => ("SPORTS", "Sports")
  | EV_CULTURAL => ("CULTURAL", "Cultural")
  | EV_OTHER => ("OTHER", "Other")
  end.

Definition NotificationType_choice (x : NotificationType) : string * string :=
  match x with
  | NT_ANNOUNCEMENT => ("ANNOUNCEMENT", "Announcement")
  | NT_GRADE => ("GRADE", "Grade Posted")
  | NT_ASSIGNMENT => ("ASSIGNMENT", "Assignment")
  | NT_EVENT => ("EVENT", "Event")
  | NT_PAYMENT => ("PAYMENT", "Payment")
  | NT_GENERAL => ("GENERAL", "General")
  end.

Definition FeedbackType_choice (x : FeedbackType) : string * string :=
  match x with
  | COMPLAINT => ("COMPLAINT", "Complaint")
  | SUGGESTION => ("SUGGESTION", "Suggestion")
  | INQUIRY => ("INQUIRY", "Inquiry")
  | PRAISE => ("PRAISE", "Praise")
  end.

Definition FeedbackStatus_choice (x : FeedbackStatus) : string * string :=
  match x with
  | FB_PENDING => ("PENDING", "Pending")
  | FB_REVIEWED => ("REVIEWED", "Reviewed")
  | FB_RESOLVED => ("RESOLVED", "Resolved")
  | FB_CLOSED => ("CLOSED", "Closed")
  end.

(** A [CharField] with choices: its [max_length], its choices in the order
    of the source and its default, when it has one. *)
Record ChoiceField := mkChoiceField {
  cf_model : string;
  cf_name : string;
  cf_max_length : nat;
  cf_choices : list (string * string);
  cf_default : option string }.

Definition choice_fields : list ChoiceField :=
  [mkChoiceField "Semester" "semester_type" 10
     (map SemesterType_choice [SEM_1ST; SEM_2ND; SEM_SUMMER]) None;
   mkChoiceField "Faculty" "employment_status" 20
     (map EmploymentStatus_choice [FULL_TIME; PART_TIME; CONTRACT])
     (Some "FULL_TIME"%string);
   mkChoiceField "Student" "status" 20
     (map StudentStatus_choice [ACTIVE; INACTIVE; GRADUATED; SUSPENDED; LOA])
     (Some "ACTIVE"%string);
   mkChoiceField "Program" "degree_type" 10
     (map DegreeType_choice [BS; BA; MS; MA; PHD]) None;
   mkChoiceField "Course" "course_type" 20
     (map CourseType_choice [MAJOR; MINOR; GEN_ED; ELECTIVE])
     (Some "MAJOR"%string);
   mkChoiceField "Schedule" "day_of_week" 3
     (map DayOfWeek_choice [MON; TUE; WED; THU; FRI; SAT]) None;
   mkChoiceField "Enrollment" "status" 20
     (map EnrollmentStatus_choice
        [PENDING; APPROVED; ENROLLED; DROPPED; COMPLETED])
     (Some "PENDING"%string);
   mkChoiceField "Grade" "final_rating" 5 GRADE_CHOICES None;
   mkChoiceField "Announcement" "priority" 10
     (map Priority_choice [LOW; NORMAL; HIGH; URGENT])
     (Some "NORMAL"%string);
   mkChoiceField "Assessment" "assessment_type" 20
     (map AssessmentType_choice
        [QUIZ; EXAM; PROJECT; RECITATION; ASSIGNMENT]) None;
   mkChoiceField "DocumentRequest" "document_type" 20
     (map DocumentType_choice
        [TOR; CERT_GRADES; CERT_ENROLLMENT; GOOD_MORAL; DIPLOMA; CAV]) None;
   mkChoiceField "DocumentRequest" "status" 20
     (map RequestStatus_choice
        [RQ_PENDING; RQ_PROCESSING; RQ_READY; RQ_CLAIMED; RQ_CANCELLED])
     (Some "PENDING"%string);
   mkChoiceField "Event" "event_type" 20
     (map EventType_choice
        [EV_ACADEMIC; EV_SEMINAR; EV_WORKSHOP; EV_SPORTS; EV_CULTURAL;
         EV_OTHER]) None;
   mkChoiceField "Notification" "notification_type" 20
     (map NotificationType_choice
        [NT_ANNOUNCEMENT; NT_GRADE; NT_ASSIGNMENT; NT_EVENT; NT_PAYMENT;
         NT_GENERAL]) None;
   mkChoiceField "Feedback" "feedback_type" 20
     (map FeedbackType_choice [COMPLAINT; SUGGESTION; INQUIRY; PRAISE]) None;
   mkChoiceField "Feedback" "status" 20
     (map FeedbackStatus_choice
        [FB_PENDING; FB_REVIEWED; FB_RESOLVED; FB_CLOSED])
     (Some "PENDING"%string)].

Close Scope string_scope.

(** [get_semester_type_display], [get_day_of_week_display] and
    [get_document_type_display]: the label of the stored choice. *)
Definition get_semester_type_display (s : Semester.row) : string :=
  snd (SemesterType_choice (Semester.semester_type s)).

Definition get_day_of_week_display (s : Schedule.row) : string :=
  snd (DayOfWeek_choice (Schedule.day_of_week s)).

Definition get_document_type_display (r : DocumentRequest.row) : string :=
  snd (DocumentType_choice (DocumentRequest.document_type r)).

Definition distinct (l : list string) : bool :=
  (fix go (l : list string) : bool :=
     match l with
     | [] => true
     | x :: l' => negb (existsb (String.eqb x) l') && go l'
     end) l.

(** What a choice field needs to store and show its choices: distinct
    values that fit the column, distinct labels, and a default among the
    values. *)
Definition choice_field_ok (f : ChoiceField) : Prop :=
  NoDup (map fst (cf_choices f))
  /\ NoDup (map snd (cf_choices f))
  /\ (forall v, In v (map fst (cf_choices f)) ->
                (String.length v <= cf_max_length f)%nat)
  /\ (forall d, cf_default f = Some d -> In d (map fst (cf_choices f))).

Definition choice_field_ok_b (f : ChoiceField) : bool :=
  distinct (map fst (cf_choices f))
  && distinct (map snd (cf_choices f))
  && forallb (fun v => (String.length v <=? cf_max_length f)%nat)
       (map fst (cf_choices f))
  && match cf_default f with
     | Some d => existsb (String.eqb d) (map fst (cf_choices f))
     | None => true
     end.

(** ** Related objects and what is shown of them *)

(** [obj.<key>]: the row a key names, or [RelatedObjectDoesNotExist]. *)
Definition related {A : Type} (o : option A) : Exception + A :=
  match o with
  | Some a => inr a
  | None => inl RelatedObjectDoesNotExist
  end.

Definition bind {A B : Type} (c : Exception + A) (k : A -> Exception + B)
  : Exception + B :=
  match c with
  | inl e => inl e
  | inr a => k a
  end.

Notation "x <- c ;; k" := (bind c (fun x => k))
  (at level 61, c at next level, right associativity).

Definition find_academic_year (st : Store) (id : pk)
  : option AcademicYear.row :=
  find (fun y => AcademicYear.id y =? id) (academic_years st).

Definition find_semester (st : Store) (id : pk) : option Semester.row :=
  find (fun s => Semester.id s =? id) (semesters st).

Definition find_student (st : Store) (id : pk) : option Student.row :=
  find (fun s => Student.id s =? id) (students st).

Definition find_course (st : Store) (id : pk) : option Course.row :=
  find (fun c => Course.id c =? id) (courses st).

Definition find_event (st : Store) (id : pk) : option Event.row :=
  find (fun e => Event.id e =? id) (events st).

(** [GradeAdmin.student_display]: [obj.enrollment.student.student_id]. *)
Definition GradeAdmin_student_display (st : Store) (obj : Grade.row)
  : Exception + string :=
  e <- related (find_enrollment st (Grade.enrollment obj)) ;;
  s <- related (find_student st (Enrollment.student e)) ;;
  inr (Student.student_id s).

(** [GradeAdmin.course_display]:
    [obj.enrollment.course_offering.course.course_code]. *)
Definition GradeAdmin_course_display (st : Store) (obj : Grade.row)
  : Exception + string :=
  e <- related (find_enrollment st (Grade.enrollment obj)) ;;
  o <- related (find_offering st (Enrollment.course_offering e)) ;;
  c <- related (find_course st (CourseOffering.course o)) ;;
  inr (Course.course_code c).

(** [AssessmentScoreAdmin.student_display]. *)
Definition AssessmentScoreAdmin_student_display (st : Store)
  (obj : AssessmentScore.row) : Exception + string :=
  e <- related (find_enrollment st (AssessmentScore.enrollment obj)) ;;
  s <- related (find_student st (Enrollment.student e)) ;;
  inr (Student.student_id s).

(** The [__str__] methods that read the store's own tables. *)
Definition AcademicYear_str (self : AcademicYear.row) : string :=
  AcademicYear.name self.

Definition Semester_str (st : Store) (self : Semester.row)
  : Exception + string :=
  y <- related (find_academic_year st (Semester.academic_year self)) ;;
  inr (get_semester_type_display self ++ " - " ++ AcademicYear.name y)%string.

Definition Department_str (self : Department.row) : string :=
  (Department.name self ++ " (" ++ Department.code self ++ ")")%string.

Definition Program_str (self : Program.row) : string :=
  (Program.code self ++ " - " ++ Program.name self)%string.

Definition Course_str (self : Course.row) : string :=
  (Course.course_code self ++ " - " ++ Course.title self)%string.

Definition CourseOffering_str (st : Store) (self : CourseOffering.row)
  : Exception + string :=
  c <- related (find_course st (CourseOffering.course self)) ;;
  s <- related (find_semester st (CourseOffering.semester self)) ;;
  sem <- Semester_str st s ;;
  inr (Course.course_code c ++ " - " ++ CourseOffering.section self
       ++ " (" ++ sem ++ ")")%string.

Definition Enrollment_str (st : Store) (self : Enrollment.row)
  : Exception + string :=
  s <- related (find_student st (Enrollment.student self)) ;;
  o <- related (find_offering st (Enrollment.course_offering self)) ;;
  off <- CourseOffering_str st o ;;
  inr (Student.student_id s ++ " enrolled in " ++ off)%string.

Definition Grade_str (st : Store) (self : Grade.row) : Exception + string :=
  e <- related (find_enrollment st (Grade.enrollment self)) ;;
  s <- related (find_student st (Enrollment.student e)) ;;
  o <- related (find_offering st (Enrollment.course_offering e)) ;;
  c <- related (find_course st (CourseOffering.course o)) ;;
  inr (Student.student_id s ++ " - " ++ Course.course_code c ++ " - "
       ++ Grade.final_rating self)%string.

Definition Announcement_str (self : Announcement.row) : string :=
  Announcement.title self.

Definition Assessment_str (st : Store) (self : Assessment.row)
  : Exception + string :=
  o <- related (find_offering st (Assessment.course_offering self)) ;;
  c <- related (find_course st (CourseOffering.course o)) ;;
  inr (Course.course_code c ++ " - " ++ Assessment.title self)%string.

Definition DocumentRequest_str (st : Store) (self : DocumentRequest.row)
  : Exception + string :=
  s <- related (find_student st (DocumentRequest.student self)) ;;
  inr (Student.student_id s ++ " - " ++ get_document_type_display self)%string.

Definition Event_str (self : Event.row) : string := Event.title self.

Definition EventRegistration_str (st : Store) (self : EventRegistration.row)
  : Exception + string :=
  s <- related (find_student st (EventRegistration.student self)) ;;
  e <- related (find_event st (EventRegistration.event self)) ;;
  inr (Student.student_id s ++ " - " ++ Event.title e)%string.

Definition Feedback_str (st : Store) (self : Feedback.row)
  : Exception + string :=
  s <- related (find_student st (Feedback.student self)) ;;
  inr (Student.student_id s ++ " - " ++ Feedback.subject self)%string.

Definition CourseEvaluation_str (st : Store) (self : CourseEvaluation.row)
  : Exception + string :=
  e <- related (find_enrollment st (CourseEvaluation.enrollment self)) ;;
  s <- related (find_student st (Enrollment.student e)) ;;
  o <- related (find_offering st (Enrollment.course_offering e)) ;;
  c <- related (find_course st (CourseOffering.course o)) ;;
  inr (Student.student_id s ++ " - " ++ Course.course_code c)%string.

(** A grade that has lost its enrollment. *)
Definition orphan_grade : Store :=
  mkStore [] [] [] [] [] [] [] [] [] [] []
    [Grade.mk 1 9 None None "" "" None] [] [] [] [] [] [] [] [] [].

(** ** Default ordering

    [Meta.ordering]: the rows of a table as a query lists them, sorted on
    the columns named.  The sort keeps the order of the table among rows
    with equal columns, where the database is free. *)

Fixpoint insert_by {A : Type} (leb : A -> A -> bool) (x : A) (l : list A)
  : list A :=
  match l with
  | [] => [x]
  | y :: l' => if leb x y then x :: l else y :: insert_by leb x l'
  end.

Definition order_by {A : Type} (leb : A -> A -> bool) (l : list A) : list A :=
  fold_right (insert_by leb) [] l.

(** [Schedule.Meta.ordering = ['day_of_week', 'start_time']]: on the stored
    value of the day, a string, then on the start time. *)
Definition Schedule_before (a b : Schedule.row) : bool :=
  match String.compare (fst (DayOfWeek_choice (Schedule.day_of_week a)))
          (fst (DayOfWeek_choice (Schedule.day_of_week b))) with
  | Lt => true
  | Gt => false
  | Eq => Schedule.start_time a <=? Schedule.start_time b
  end.

(** [Schedule.objects.all()]. *)
Definition Schedule_all (st : Store) : list Schedule.row :=
  order_by Schedule_before (schedules st).

(** The place of a day among the stored values in alphabetical order. *)
Definition day_rank (d : DayOfWeek) : Z :=
  match d with
  | FRI => 0 | MON => 1 | SAT => 2 | THU => 3 | TUE => 4 | WED => 5
  end.

(** A schedule row comes no later than another: its day is earlier in
    alphabetical order, or it is the same day and it starts no later. *)
Definition listed_before (a b : Schedule.row) : Prop :=
  day_rank (Schedule.day_of_week a) < day_rank (Schedule.day_of_week b)
  \/ (Schedule.day_of_week a = Schedule.day_of_week b
      /\ Schedule.start_time a <= Schedule.start_time b).

(** ** Registrations, grades and evaluations *)

Definition EventRegistration_with (event student : pk)
  (r : EventRegistration.row) : bool :=
  (EventRegistration.event r =? event)
  && (EventRegistration.student r =? student).

(** [EventRegistration.objects.create(event=..., student=...)] at time
    [now], under [unique_together = ('event', 'student')]; [attended] and
    [certificate_issued] default to False.  The event's [max_participants]
    is not read. *)
Definition EventRegistration_create (st : Store) (now : DateTime)
  (event student : pk) : Result * Store :=
  if existsb (EventRegistration_with event student)
       (event_registrations st) then
    (Rejected (UniqueViolation "EventRegistration"
                 [("event"%string, event); ("student"%string, student)]), st)
  else if negb (existsb (fun e => Event.id e =? event) (events st)) then
    (Rejected (ForeignKeyViolation "EventRegistration" "event" event), st)
  else if negb (existsb (fun s => Student.id s =? student) (students st)) then
    (Rejected (ForeignKeyViolation "EventRegistration" "student" student), st)
  else
    let id := next_id EventRegistration.id (event_registrations st) in
    (Saved id,
     mkStore (academic_years st) (semesters st) (departments st) (faculty st)
       (students st) (programs st) (courses st) (course_prerequisites st)
       (course_offerings st) (schedules st) (enrollments st) (grades st)
       (announcements st) (assessments st) (assessment_scores st)
       (document_requests st) (events st)
       (event_registrations st ++
        [EventRegistration.mk id event student now false false])
       (notifications st) (feedbacks st) (course_evaluations st)).

Definition EventRegistration_unique (st : Store) : Prop :=
  forall event student,
    (List.length
       (filter (EventRegistration_with event student)
          (event_registrations st))
     <= 1)%nat.

(** The number of registrations a store holds for an event. *)
Definition registration_count (st : Store) (event : pk) : N :=
  N.of_nat
    (List.length
       (filter (fun r => EventRegistration.event r =? event)
          (event_registrations st))).

(** [Grade.objects.create(enrollment=..., ...)]: [enrollment] is a
    one-to-one key, so it is unique in the table. *)
Definition Grade_create (st : Store) (enrollment : pk)
  (midterm_grade final_grade : option Decimal) (final_rating remarks : string)
  (date_submitted : option DateTime) : Result * Store :=
  if existsb (fun g => Grade.enrollment g =? enrollment) (grades st) then
    (Rejected (UniqueViolation "Grade" [("enrollment"%string, enrollment)]),
     st)
  else if negb (existsb (fun e => Enrollment.id e =? enrollment)
                  (enrollments st)) then
    (Rejected (ForeignKeyViolation "Grade" "enrollment" enrollment), st)
  else
    let id := next_id Grade.id (grades st) in
    (Saved id,
     mkStore (academic_years st) (semesters st) (departments st) (faculty st)
       (students st) (programs st) (courses st) (course_prerequisites st)
       (course_offerings st) (schedules st) (enrollments st)
       (grades st ++
        [Grade.mk id enrollment midterm_grade final_grade final_rating
           remarks date_submitted])
       (announcements st) (assessments st) (assessment_scores st)
       (document_requests st) (events st) (event_registrations st)
       (notifications st) (feedbacks st) (course_evaluations st)).

(** [enrollment.grade]: the grade of an enrollment, through the reverse
    side of the one-to-one key ([related_name='grade']). *)
Definition Enrollment_grade (st : Store) (enrollment : pk)
  : Exception + Grade.row :=
  related (find (fun g => Grade.enrollment g =? enrollment) (grades st)).

Definition Grade_unique (st : Store) : Prop :=
  NoDup (map Grade.enrollment (grades st)).

(** An event that is full according to its [max_participants]. *)
Definition full_event : Store :=
  mkStore [] [] [] []
    [student_row 1 "A"; student_row 2 "B"] [] [] [] [] [] [] [] [] [] [] []
    [Event.mk 1 "Seminar" "" EV_SEMINAR 0 3600 "Hall" None None (Some 1%N)
       true None]
    [EventRegistration.mk 1 1 1 0 false false] [] [] [].

(** ** The admin console

    What [admin.py] declares, class by class, against the fields that
    [models.py] declares, and what the framework makes of it: the form of
    the add and change pages, built from [fieldsets], and the options of
    the change list. *)

Open Scope string_scope.

(** A field of a model, as far as the console is concerned: a column of
    data, a date or date-time column, a key to another model or a
    many-to-many relation; [auto_now] and [auto_now_add] columns are not
    editable. *)
Inductive Kind := Data | DateLike | Key (to : string) | Many (to : string).

Record ModelField := mkField {
  mf_name : string;
  mf_kind : Kind;
  mf_editable : bool }.

Definition data (n : string) : ModelField := mkField n Data true.
Definition date (n : string) : ModelField := mkField n DateLike true.
Definition auto_date (n : string) : ModelField := mkField n DateLike false.
Definition key (n to : string) : ModelField := mkField n (Key to) true.
Definition many (n to : string) : ModelField := mkField n (Many to) true.

(** The fields of each model, in the order of [models.py]; for the
    framework's user, the fields the console names. *)
Definition schema : list (string * list ModelField) :=
  [("User", [data "username"; data "first_name"; data "last_name";
             data "email"]);
   ("AcademicYear",
    [data "name"; date "start_date"; date "end_date"; data "is_active"]);
   ("Semester",
    [key "academic_year" "AcademicYear"; data "semester_type";
     date "start_date"; date "end_date"; data "is_active";
     date "enrollment_start"; date "enrollment_end"]);
   ("Department",
    [data "name"; data "code"; data "description"; key "head" "Faculty";
     data "email"; data "phone"; data "building"]);
   ("Faculty",
    [key "user" "User"; key "department" "Department"; data "employee_id";
     data "title"; data "employment_status"; data "specialization";
     data "office_room"; data "consultation_hours"; data "contact_number";
     date "date_hired"; data "bio"; data "is_active"]);
   ("Student",
    [key "user" "User"; data "student_id"; key "department" "Department";
     date "date_of_birth"; data "year_level"; data "status"; data "address";
     data "contact_number"; data "emergency_contact_name";
     data "emergency_contact_number"; data "guardian_name";
     data "guardian_contact"; auto_date "enrolled_at";
     data "profile_picture"]);
   ("Program",
    [data "name"; data "code"; data "degree_type";
     key "department" "Department"; data "description"; data "total_units";
     data "duration_years"]);
   ("Course",
    [data "course_code"; data "title"; data "description";
     key "department" "Department"; data "units"; data "lecture_hours";
     data "lab_hours"; data "course_type"; many "prerequisites" "Course";
     data "year_level"; data "semester_offered"]);
   ("CourseOffering",
    [key "course" "Course"; key "semester" "Semester";
     key "faculty" "Faculty"; data "section"; data "max_slots";
     data "enrolled_count"; data "is_active"]);
   ("Schedule",
    [key "course_offering" "CourseOffering"; data "day_of_week";
     data "start_time"; data "end_time"; data "room"; data "building"]);
   ("Enrollment",
    [key "student" "Student"; key "course_offering" "CourseOffering";
     auto_date "date_enrolled"; data "status"; date "dropped_date"]);
   ("Grade",
    [key "enrollment" "Enrollment"; data "midterm_grade"; data "final_grade";
     data "final_rating"; data "remarks"; date "date_submitted"]);
   ("Announcement",
    [key "department" "Department"; data "title"; data "content";
     key "posted_by" "User"; data "priority"; data "target_audience";
     auto_date "created_at"; auto_date "updated_at"; data "is_public";
     data "is_active"; date "expiry_date"; data "attachment"]);
   ("Assessment",
    [key "course_offering" "CourseOffering"; data "title";
     data "assessment_type"; data "max_score"; data "weight";
     date "date_given"; data "description"]);
   ("AssessmentScore",
    [key "assessment" "Assessment"; key "enrollment" "Enrollment";
     data "score"; data "remarks"; auto_date "date_recorded"]);
   ("DocumentRequest",
    [key "student" "Student"; data "document_type"; data "purpose";
     data "copies"; auto_date "request_date"; data "status";
     date "claimed_date"; data "processing_fee"; data "remarks"]);
   ("Event",
    [data "title"; data "description"; data "event_type";
     date "start_datetime"; date "end_datetime"; data "venue";
     key "organizer" "User"; key "department" "Department";
     data "max_participants"; data "is_published"; data "banner_image"]);
   ("EventRegistration",
    [key "event" "Event"; key "student" "Student";
     auto_date "registration_date"; data "attended";
     data "certificate_issued"]);
   ("Notification",
    [key "recipient" "User"; data "notification_type"; data "title";
     data "message"; data "is_read"; auto_date "created_at"; data "link"]);
   ("Feedback",
    [key "student" "Student"; data "feedback_type"; data "subject";
     data "message"; data "status"; auto_date "submitted_at";
     data "response"; key "responded_by" "User"; date "responded_at"]);
   ("CourseEvaluation",
    [key "enrollment" "Enrollment"; data "teaching_effectiveness";
     data "course_content"; data "learning_resources";
     data "assessment_fairness"; data "overall_satisfaction";
     data "comments"; auto_date "submitted_at"; data "is_anonymous"])].

Definition fields_of (model : string) : list ModelField :=
  match find (fun p => String.eqb (fst p) model) schema with
  | Some p => snd p
  | None => []
  end.

Definition field_named (model n : string) : option ModelField :=
  find (fun f => String.eqb (mf_name f) n) (fields_of model).

Definition named (n : string) (l : list string) : bool :=
  existsb (String.eqb n) l.

(** A lookup [a__b__c], as the list of its parts: every part but the last
    is a relation, and the last a field of the model reached. *)
Fixpoint resolves (model : string) (path : list string) : bool :=
  match path with
  | [] => false
  | n :: rest =>
      match field_named model n with
      | None => false
      | Some f =>
          match rest with
          | [] => true
          | _ =>
              match mf_kind f with
              | Key to | Many to => resolves to rest
              | _ => false
              end
          end
      end
  end.

(** An inline of a change page: the rows of [il_model] that refer to the
    object of the page, with the columns [il_fields]. *)
Record InlineAdmin := mkInline {
  il_name : string;
  il_model : string;
  il_fields : list string }.

Definition ScheduleInline : InlineAdmin :=
  mkInline "ScheduleInline" "Schedule"
    ["day_of_week"; "start_time"; "end_time"; "room"; "building"].

(** The options of a [ModelAdmin] class; [am_methods] are the methods the
    class defines, [am_fieldsets] is [None] for a class without
    fieldsets.  An [ordering] entry carries its sign. *)
Record ModelAdmin := mkAdmin {
  am_name : string;
  am_model : string;
  am_inlines : list InlineAdmin;
  am_list_display : list string;
  am_methods : list string;
  am_list_filter : list (list string);
  am_search_fields : list (list string);
  am_ordering : list (bool * list string);
  am_list_editable : list string;
  am_date_hierarchy : option string;
  am_filter_horizontal : list string;
  am_readonly_fields : list string;
  am_fieldsets : option (list (string * list string)) }.

Definition desc (n : string) : bool * list string := (true, [n]).
Definition asc (n : string) : bool * list string := (false, [n]).

Definition AcademicYearAdmin : ModelAdmin :=
  mkAdmin "AcademicYearAdmin" "AcademicYear" []
    ["name"; "start_date"; "end_date"; "is_active"] []
    [["is_active"]] [["name"]] [desc "start_date"] ["is_active"] None [] []
    None.

Definition SemesterAdmin : ModelAdmin :=
  mkAdmin "SemesterAdmin" "Semester" []
    ["semester_type"; "academic_year"; "start_date"; "end_date";
     "is_active"; "enrollment_period"]
    ["enrollment_period"]
    [["is_active"]; ["semester_type"]; ["academic_year"]]
    [["semester_type"]; ["academic_year"; "name"]]
    [desc "start_date"] ["is_active"] (Some "start_date") [] [] None.

Definition DepartmentAdmin : ModelAdmin :=
  mkAdmin "DepartmentAdmin" "Department" []
    ["code"; "name"; "head"; "email"; "phone"; "building"] []
    [["building"]] [["name"]; ["code"]; ["email"]] [asc "name"] [] None [] []
    (Some [("Basic Information", ["name"; "code"; "description"]);
           ("Management", ["head"]);
           ("Contact Information", ["email"; "phone"; "building"])]).

Definition FacultyAdmin : ModelAdmin :=
  mkAdmin "FacultyAdmin" "Faculty" []
    ["employee_id"; "full_name"; "title"; "department"; "employment_status";
     "is_active"]
    ["full_name"]
    [["employment_status"]; ["is_active"]; ["department"]; ["title"]]
    [["employee_id"]; ["user"; "first_name"]; ["user"; "last_name"];
     ["user"; "email"]]
    [(false, ["user"; "last_name"])] ["is_active"] None [] []
    (Some [("User Account", ["user"]);
           ("Employment Information",
            ["employee_id"; "department"; "title"; "employment_status";
             "date_hired"; "is_active"]);
           ("Professional Details", ["specialization"; "bio"]);
           ("Contact & Office",
            ["contact_number"; "office_room"; "consultation_hours"])]).

Definition StudentAdmin : ModelAdmin :=
  mkAdmin "StudentAdmin" "Student" []
    ["student_id"; "full_name"; "department"; "year_level"; "status";
     "enrolled_at"]
    ["full_name"]
    [["status"]; ["year_level"]; ["department"]; ["enrolled_at"]]
    [["student_id"]; ["user"; "first_name"]; ["user"; "last_name"];
     ["user"; "email"]]
    [asc "student_id"] ["status"] (Some "enrolled_at") [] []
    (Some [("User Account", ["user"; "student_id"]);
           ("Academic Information",
            ["department"; "year_level"; "status"; "enrolled_at"]);
           ("Personal Information",
            ["date_of_birth"; "address"; "contact_number";
             "profile_picture"]);
           ("Emergency Contacts",
            ["emergency_contact_name"; "emergency_contact_number";
             "guardian_name"; "guardian_contact"])]).

Definition ProgramAdmin : ModelAdmin :=
  mkAdmin "ProgramAdmin" "Program" []
    ["code"; "name"; "degree_type"; "department"; "total_units";
     "duration_years"] []
    [["degree_type"]; ["department"]] [["name"]; ["code"]] [asc "code"] []
    None [] [] None.

Definition CourseAdmin : ModelAdmin :=
  mkAdmin "CourseAdmin" "Course" []
    ["course_code"; "title"; "department"; "units"; "course_type";
     "year_level"; "semester_offered"] []
    [["course_type"]; ["department"]; ["year_level"]; ["semester_offered"]]
    [["course_code"]; ["title"]] [asc "course_code"] [] None
    ["prerequisites"] []
    (Some [("Basic Information",
            ["course_code"; "title"; "description"; "department"]);
           ("Course Details",
            ["units"; "lecture_hours"; "lab_hours"; "course_type"]);
           ("Academic Planning",
            ["year_level"; "semester_offered"; "prerequisites"])]).

Definition CourseOfferingAdmin : ModelAdmin :=
  mkAdmin "CourseOfferingAdmin" "CourseOffering" [ScheduleInline]
    ["course"; "section"; "semester"; "faculty"; "enrolled_count";
     "max_slots"; "available_slots_display"; "is_active"]
    ["available_slots_display"]
    [["semester"]; ["course"; "department"]; ["is_active"]]
    [["course"; "course_code"]; ["course"; "title"]; ["section"];
     ["faculty"; "user"; "last_name"]]
    [asc "course"; asc "section"] ["is_active"] None [] []
    (Some [("Course Information", ["course"; "semester"; "section"]);
           ("Assignment", ["faculty"]);
           ("Capacity", ["max_slots"; "enrolled_count"; "is_active"])]).

Definition ScheduleAdmin : ModelAdmin :=
  mkAdmin "ScheduleAdmin" "Schedule" []
    ["course_offering"; "day_of_week"; "start_time"; "end_time"; "room";
     "building"] []
    [["day_of_week"]; ["course_offering"; "semester"]]
    [["course_offering"; "course"; "course_code"]; ["room"]; ["building"]]
    [asc "day_of_week"; asc "start_time"] [] None [] [] None.

Definition EnrollmentAdmin : ModelAdmin :=
  mkAdmin "EnrollmentAdmin" "Enrollment" []
    ["student"; "course_offering"; "date_enrolled"; "status"; "dropped_date"]
    []
    [["status"]; ["date_enrolled"]; ["course_offering"; "semester"]]
    [["student"; "student_id"]; ["student"; "user"; "first_name"];
     ["student"; "user"; "last_name"];
     ["course_offering"; "course"; "course_code"]]
    [desc "date_enrolled"] ["status"] (Some "date_enrolled") [] []
    (Some [("Enrollment Information",
            ["student"; "course_offering"; "date_enrolled"; "status"]);
           ("Additional Information", ["dropped_date"])]).

Definition GradeAdmin : ModelAdmin :=
  mkAdmin "GradeAdmin" "Grade" []
    ["student_display"; "course_display"; "midterm_grade"; "final_grade";
     "final_rating"; "remarks"; "date_submitted"]
    ["student_display"; "course_display"]
    [["final_rating"]; ["remarks"];
     ["enrollment"; "course_offering"; "semester"]]
    [["enrollment"; "student"; "student_id"];
     ["enrollment"; "student"; "user"; "first_name"];
     ["enrollment"; "student"; "user"; "last_name"];
     ["enrollment"; "course_offering"; "course"; "course_code"]]
    [desc "date_submitted"] [] (Some "date_submitted") [] [] None.

Definition AnnouncementAdmin : ModelAdmin :=
  mkAdmin "AnnouncementAdmin" "Announcement" []
    ["title"; "department"; "posted_by"; "priority"; "target_audience";
     "is_active"; "created_at"; "expiry_date"] []
    [["priority"]; ["target_audience"]; ["is_active"]; ["department"];
     ["created_at"]]
    [["title"]; ["content"]] [desc "created_at"] ["is_active"; "priority"]
    (Some "created_at") [] []
    (Some [("Announcement Details", ["title"; "content"; "attachment"]);
           ("Targeting", ["department"; "target_audience"; "priority"]);
           ("Publishing",
            ["posted_by"; "is_public"; "is_active"; "expiry_date"])]).

Definition AssessmentAdmin : ModelAdmin :=
  mkAdmin "AssessmentAdmin" "Assessment" []
    ["title"; "course_offering"; "assessment_type"; "max_score"; "weight";
     "date_given"] []
    [["assessment_type"]; ["date_given"]; ["course_offering"; "semester"]]
    [["title"]; ["course_offering"; "course"; "course_code"]]
    [desc "date_given"] [] (Some "date_given") [] [] None.

Definition AssessmentScoreAdmin : ModelAdmin :=
  mkAdmin "AssessmentScoreAdmin" "AssessmentScore" []
    ["student_display"; "assessment"; "score"; "percentage"; "date_recorded"]
    ["student_display"; "percentage"]
    [["assessment"; "assessment_type"]; ["date_recorded"]]
    [["enrollment"; "student"; "student_id"]; ["assessment"; "title"]]
    [desc "date_recorded"] [] (Some "date_recorded") [] [] None.

Definition DocumentRequestAdmin : ModelAdmin :=
  mkAdmin "DocumentRequestAdmin" "DocumentRequest" []
    ["student"; "document_type"; "copies"; "status"; "request_date";
     "processing_fee"; "claimed_date"] []
    [["document_type"]; ["status"]; ["request_date"]]
    [["student"; "student_id"]; ["student"; "user"; "first_name"];
     ["student"; "user"; "last_name"]]
    [desc "request_date"] ["status"] (Some "request_date") [] []
    (Some [("Request Information",
            ["student"; "document_type"; "purpose"; "copies"]);
           ("Status", ["status"; "processing_fee"; "remarks"]);
           ("Dates", ["request_date"; "claimed_date"])]).

Definition EventAdmin : ModelAdmin :=
  mkAdmin "EventAdmin" "Event" []
    ["title"; "event_type"; "start_datetime"; "end_datetime"; "venue";
     "organizer"; "max_participants"; "is_published"] []
    [["event_type"]; ["is_published"]; ["department"]; ["start_datetime"]]
    [["title"]; ["venue"]; ["organizer"; "username"]]
    [desc "start_datetime"] ["is_published"] (Some "start_datetime") [] []
    (Some [("Event Details",
            ["title"; "description"; "event_type"; "banner_image"]);
           ("Schedule", ["start_datetime"; "end_datetime"; "venue"]);
           ("Organization", ["organizer"; "department"; "max_participants"]);
           ("Publishing", ["is_published"])]).

Definition EventRegistrationAdmin : ModelAdmin :=
  mkAdmin "EventRegistrationAdmin" "EventRegistration" []
    ["student"; "event"; "registration_date"; "attended";
     "certificate_issued"] []
    [["attended"]; ["certificate_issued"]; ["registration_date"];
     ["event"; "event_type"]]
    [["student"; "student_id"]; ["student"; "user"; "first_name"];
     ["student"; "user"; "last_name"]; ["event"; "title"]]
    [desc "registration_date"] ["attended"; "certificate_issued"]
    (Some "registration_date") [] [] None.

Definition NotificationAdmin : ModelAdmin :=
  mkAdmin "NotificationAdmin" "Notification" []
    ["recipient"; "notification_type"; "title"; "is_read"; "created_at"] []
    [["notification_type"]; ["is_read"]; ["created_at"]]
    [["recipient"; "username"]; ["title"]; ["message"]]
    [desc "created_at"] ["is_read"] (Some "created_at") [] []
    (Some [("Notification Information",
            ["recipient"; "notification_type"; "title"; "message"]);
           ("Status", ["is_read"; "link"])]).

Definition FeedbackAdmin : ModelAdmin :=
  mkAdmin "FeedbackAdmin" "Feedback" []
    ["student"; "feedback_type"; "subject"; "status"; "submitted_at";
     "responded_by"; "responded_at"] []
    [["feedback_type"]; ["status"]; ["submitted_at"]]
    [["student"; "student_id"]; ["subject"]; ["message"]]
    [desc "submitted_at"] ["status"] (Some "submitted_at") [] []
    (Some [("Feedback Information",
            ["student"; "feedback_type"; "subject"; "message"]);
           ("Status", ["status"]);
           ("Response", ["response"; "responded_by"; "responded_at"])]).

Definition CourseEvaluationAdmin : ModelAdmin :=
  mkAdmin "CourseEvaluationAdmin" "CourseEvaluation" []
    ["enrollment"; "teaching_effectiveness"; "course_content";
     "learning_resources"; "assessment_fairness"; "overall_satisfaction";
     "submitted_at"; "is_anonymous"] []
    [["is_anonymous"]; ["submitted_at"]; ["overall_satisfaction"]]
    [["enrollment"; "student"; "student_id"];
     ["enrollment"; "course_offering"; "course"; "course_code"];
     ["comments"]]
    [desc "submitted_at"] [] (Some "submitted_at") [] ["submitted_at"]
    (Some [("Evaluation Information", ["enrollment"; "is_anonymous"]);
           ("Ratings",
            ["teaching_effectiveness"; "course_content";
             "learning_resources"; "assessment_fairness";
             "overall_satisfaction"]);
           ("Comments", ["comments"; "submitted_at"])]).

(** The classes registered, in the order of [admin.py]. *)
Definition admins : list ModelAdmin :=
  [AcademicYearAdmin; SemesterAdmin; DepartmentAdmin; FacultyAdmin;
   StudentAdmin; ProgramAdmin; CourseAdmin; CourseOfferingAdmin;
   ScheduleAdmin; EnrollmentAdmin; GradeAdmin; AnnouncementAdmin;
   AssessmentAdmin; AssessmentScoreAdmin; DocumentRequestAdmin; EventAdmin;
   EventRegistrationAdmin; NotificationAdmin; FeedbackAdmin;
   CourseEvaluationAdmin].

Close Scope string_scope.

(** The error the framework raises when a model form cannot be built. *)
Inductive FieldError :=
| NonEditable (field : string)
    (* '<field>' cannot be specified for <model> model form as it is a
       non-editable field *)
| UnknownFields (fields : list string).
    (* Unknown field(s) (<fields>) specified for <model> *)

Definition flatten_fieldsets (fs : list (string * list string))
  : list string :=
  flat_map snd fs.

(** [ModelAdmin.get_form]: the fields of the add and change form.  The
    fields asked for are those of the fieldsets, the read-only ones are
    excluded; going through the fields of the model, a field that is not
    editable and is asked for raises; a name asked for that gives no form
    field raises as unknown.  Without fieldsets the form has every
    editable field. *)
Definition get_form (a : ModelAdmin) : FieldError + list string :=
  let exclude := am_readonly_fields a in
  match am_fieldsets a with
  | None =>
      inr (map mf_name
             (filter (fun f => mf_editable f
                               && negb (named (mf_name f) exclude))
                (fields_of (am_model a))))
  | Some fs =>
      let fields := flatten_fieldsets fs in
      match find (fun f => negb (mf_editable f) && named (mf_name f) fields
                           && negb (named (mf_name f) exclude))
              (fields_of (am_model a)) with
      | Some f => inl (NonEditable (mf_name f))
      | None =>
          let asked := filter (fun n => negb (named n exclude)) fields in
          match filter (fun n => match field_named (am_model a) n with
                                 | Some _ => false
                                 | None => true
                                 end) asked with
          | [] => inr asked
          | unknown => inl (UnknownFields unknown)
          end
      end
  end.

(** Two lists of names hold the same names. *)
Definition same_names (l1 l2 : list string) : bool :=
  forallb (fun n => named n l2) l1 && forallb (fun n => named n l1) l2.

(** The form has every field of the model that can be edited. *)
Definition form_complete (a : ModelAdmin) : bool :=
  match get_form a with
  | inl _ => false
  | inr fields =>
      distinct fields
      && same_names fields
           (map mf_name
              (filter (fun f => mf_editable f
                                && negb (named (mf_name f)
                                           (am_readonly_fields a)))
                 (fields_of (am_model a))))
  end.

(** The checks of the change list options: a column of [list_display] is
    a field of the model or a method of the class; a [list_editable]
    column is shown, is an editable field and is not the first column,
    which links to the change page; [date_hierarchy] is a date column;
    the lookups of [list_filter], [search_fields] and [ordering] resolve;
    [filter_horizontal] names many-to-many fields; [readonly_fields] are
    fields of the model. *)
Definition is_field (a : ModelAdmin) (n : string) : bool :=
  match field_named (am_model a) n with Some _ => true | None => false end.

Definition list_display_ok (a : ModelAdmin) : bool :=
  forallb (fun n => is_field a n || named n (am_methods a))
    (am_list_display a).

Definition list_editable_ok (a : ModelAdmin) : bool :=
  forallb
    (fun n =>
       named n (am_list_display a)
       && match field_named (am_model a) n with
          | Some f => mf_editable f
          | None => false
          end
       && negb (match am_list_display a with
                | first :: _ => String.eqb first n
                | [] => true
                end))
    (am_list_editable a).

Definition date_hierarchy_ok (a : ModelAdmin) : bool :=
  match am_date_hierarchy a with
  | None => true
  | Some n =>
      match field_named (am_model a) n with
      | Some f => match mf_kind f with DateLike => true | _ => false end
      | None => false
      end
  end.

Definition lookups_ok (a : ModelAdmin) : bool :=
  forallb (resolves (am_model a)) (am_list_filter a)
  && forallb (resolves (am_model a)) (am_search_fields a)
  && forallb (fun o => resolves (am_model a) (snd o)) (am_ordering a).

Definition filter_horizontal_ok (a : ModelAdmin) : bool :=
  forallb (fun n => match field_named (am_model a) n with
                    | Some f => match mf_kind f with
                                | Many _ => true
                                | _ => false
                                end
                    | None => false
                    end)
    (am_filter_horizontal a).

(** An inline needs its model to hold one key to the model of the page,
    and its columns to be editable fields of its model other than that
    key, which the page fills in. *)
Definition keys_to (parent : string) (model : string) : list string :=
  map mf_name
    (filter (fun f => match mf_kind f with
                      | Key to => String.eqb to parent
                      | _ => false
                      end) (fields_of model)).

Definition inline_ok (a : ModelAdmin) (i : InlineAdmin) : bool :=
  match keys_to (am_model a) (il_model i) with
  | [fk] =>
      distinct (il_fields i)
      && forallb (fun n => negb (String.eqb n fk)
                           && match field_named (il_model i) n with
                              | Some f => mf_editable f
                              | None => false
                              end) (il_fields i)
  | _ => false
  end.

Definition change_list_ok (a : ModelAdmin) : bool :=
  list_display_ok a && list_editable_ok a && date_hierarchy_ok a
  && lookups_ok a && filter_horizontal_ok a
  && forallb (is_field a) (am_readonly_fields a).

(** ** Facts about the operations *)

Lemma Enrollment_create_course_offerings st today s o status dd :
  course_offerings (snd (Enrollment_create st today s o status dd))
  = course_offerings st.
Proof.
  unfold Enrollment_create.
  repeat match goal with |- context [if ?b then _ else _] => destruct b end;
    reflexivity.
Qed.

Lemma Enrollment_save_status_course_offerings st id status :
  course_offerings (snd (Enrollment_save_status st id status))
  = course_offerings st.
Proof.
  unfold Enrollment_save_status.
  destruct (existsb _ _); reflexivity.
Qed.

Lemma handle_course_offerings st r :
  course_offerings (handle st r) = course_offerings st.
Proof.
  destruct r; simpl.
  - apply Enrollment_create_course_offerings.
  - apply Enrollment_save_status_course_offerings.
Qed.

Lemma run_course_offerings rs : forall st,
  course_offerings (run rs st) = course_offerings st.
Proof.
  induction rs as [|r rs IH]; intro st; simpl.
  - reflexivity.
  - unfold run in IH. rewrite IH. apply handle_course_offerings.
Qed.

Lemma Enrollment_create_rejected st today s o status dd e :
  fst (Enrollment_create st today s o status dd) = Rejected e ->
  snd (Enrollment_create st today s o status dd) = st
  /\ (e = UniqueViolation "Enrollment" (Enrollment_key s o)
      \/ e = ForeignKeyViolation "Enrollment" "student" s
      \/ e = ForeignKeyViolation "Enrollment" "course_offering" o).
Proof.
  unfold Enrollment_create.
  repeat match goal with |- context [if ?b then _ else _] => destruct b end;
    simpl; intro H; inversion H; subst; auto.
Qed.

Lemma find_existsb {A} (f : A -> bool) l x :
  find f l = Some x -> existsb f l = true.
Proof.
  induction l as [|a l IH]; simpl; [discriminate|].
  destruct (f a); auto.
Qed.

Lemma Enrollment_create_saved st today s o status dd off :
  find_offering st o = Some off ->
  existsb (fun x => Student.id x =? s) (students st) = true ->
  existsb (Enrollment_with s o) (enrollments st) = false ->
  Enrollment_create st today s o status dd
  = (Saved (next_id Enrollment.id (enrollments st)),
     set_enrollments
       (enrollments st ++
        [Enrollment.mk (next_id Enrollment.id (enrollments st)) s o today
           status dd]) st).
Proof.
  intros Ho Hs He. unfold Enrollment_create.
  rewrite He, Hs. simpl.
  unfold find_offering in Ho. rewrite (find_existsb _ _ _ Ho). reflexivity.
Qed.

(** C1 (as amended).  Creating an enrollment never looks at the capacity:
    whatever [available_slots] is, the attempt is saved as soon as the
    student and the offering exist and the pair is new; a refusal is a
    uniqueness or foreign-key violation and leaves the store as it was; no
    attempt, saved or refused, changes a row of the offerings.  In the
    scenario max_slots = 2, enrolled_count = 0, the three successive
    enrollments are all saved and enrolled_count stays 0. *)
Theorem Enrollment_create_ignores_capacity :
  (forall st today s o status dd off,
      find_offering st o = Some off ->
      existsb (fun x => Student.id x =? s) (students st) = true ->
      existsb (Enrollment_with s o) (enrollments st) = false ->
      fst (Enrollment_create st today s o status dd)
      = Saved (next_id Enrollment.id (enrollments st))
      /\ find_offering (snd (Enrollment_create st today s o status dd)) o
         = Some off)
  /\ (forall st today s o status dd e,
         fst (Enrollment_create st today s o status dd) = Rejected e ->
         snd (Enrollment_create st today s o status dd) = st
         /\ (e = UniqueViolation "Enrollment" (Enrollment_key s o)
             \/ e = ForeignKeyViolation "Enrollment" "student" s
             \/ e = ForeignKeyViolation "Enrollment" "course_offering" o))
  /\ (forall st today s o status dd,
         course_offerings (snd (Enrollment_create st today s o status dd))
         = course_offerings st)
  /\ (fst (Enrollment_create_default scenario0 0 1 1) = Saved 1
      /\ fst (Enrollment_create_default scenario1 0 2 1) = Saved 2
      /\ fst (Enrollment_create_default scenario2 0 3 1) = Saved 3
      /\ enrolled_counts scenario1 = [0%N]
      /\ enrolled_counts scenario2 = [0%N]
      /\ enrolled_counts scenario3 = [0%N]).
Proof.
  split; [|split; [|split]].
  - intros st today s o status dd off Ho Hs He.
    unfold find_offering.
    rewrite Enrollment_create_course_offerings.
    rewrite (Enrollment_create_saved _ today _ _ status dd _ Ho Hs He).
    split; [reflexivity | exact Ho].
  - intros. now apply Enrollment_create_rejected.
  - intros. apply Enrollment_create_course_offerings.
  - repeat split; vm_compute; reflexivity.
Qed.

(** The general part of C1, at an offering whose counter says it is full. *)
Lemma Enrollment_create_ignores_capacity_full :
  CourseOffering.available_slots (offering_row 1 1 2 2) <= 0
  /\ fst (Enrollment_create full_offering 0 3 1 PENDING None) = Saved 1
  /\ find_offering (snd (Enrollment_create full_offering 0 3 1 PENDING None)) 1
     = Some (offering_row 1 1 2 2).
Proof.
  split; [vm_compute; discriminate|].
  apply (proj1 Enrollment_create_ignores_capacity full_offering 0 3 1 PENDING
           None (offering_row 1 1 2 2)); reflexivity.
Defined.

(** C1 as the specification states it fails: the offering of [full_offering]
    has no slot left, and the enrollment of student C is saved; in the
    scenario the first enrollment leaves enrolled_count at 0 and the third is
    saved. *)
Lemma capacity_not_checked :
  ~ capacity_checked full_offering 0 3 1
  /\ enrolled_counts scenario1 <> [1%N]
  /\ ~ rejected (fst (Enrollment_create_default scenario2 0 3 1)).
Proof.
  split; [|split].
  - intro H.
    destruct (H (offering_row 1 1 2 2)) as [[e He] _].
    + reflexivity.
    + vm_compute. discriminate.
    + vm_compute in He. discriminate.
  - vm_compute. discriminate.
  - intros [e He]. vm_compute in He. discriminate.
Qed.

Lemma available_slots_nonneg o :
  0 <= CourseOffering.available_slots o <-> within_capacity o.
Proof.
  unfold CourseOffering.available_slots, within_capacity. lia.
Qed.

(** C2 (as amended).  Enrollment and drop requests never write a row of the
    offerings, so after every sequence of them each offering has the
    counters it had before: [enrolled_count <= max_slots] holds afterwards
    when it held before.  Both counters are non-negative, and
    [available_slots] is non-negative exactly when
    [enrolled_count <= max_slots], which no declaration of the model
    enforces. *)
Theorem counters_kept_by_requests :
  forall rs st,
    course_offerings (run rs st) = course_offerings st
    /\ (forall o, In o (course_offerings (run rs st)) ->
          0 <= Z.of_N (CourseOffering.enrolled_count o)
          /\ 0 <= Z.of_N (CourseOffering.max_slots o)
          /\ (0 <= CourseOffering.available_slots o <-> within_capacity o))
    /\ (counters_bounded st -> counters_bounded (run rs st)).
Proof.
  intros rs st. split; [apply run_course_offerings|]. split.
  - intros o _. split; [lia|]. split; [lia|]. apply available_slots_nonneg.
  - unfold counters_bounded. rewrite run_course_offerings. auto.
Qed.

(** C2, on the scenario of the specification after an enrollment and a drop. *)
Lemma counters_kept_by_requests_scenario :
  counters_bounded (run [Enroll 0 1 1 ENROLLED; Drop 1] scenario0).
Proof.
  apply (proj2 (proj2 (counters_kept_by_requests
                         [Enroll 0 1 1 ENROLLED; Drop 1] scenario0))).
  intros o [<-|[]]. split; vm_compute; discriminate.
Defined.

(** C2 as the specification states it fails: an offering saved with
    enrolled_count = 2 and max_slots = 1 keeps these counters through an
    enrollment and a drop, and its [available_slots] is -1. *)
Lemma counters_not_bounded :
  ~ counters_bounded (run [Enroll 0 1 1 ENROLLED; Drop 1] overbooked)
  /\ map CourseOffering.available_slots
       (course_offerings (run [Enroll 0 1 1 ENROLLED; Drop 1] overbooked))
     = [-1].
Proof.
  split; [|reflexivity].
  intro H. destruct (H (offering_row 1 1 1 2)) as [_ H0].
  - left. reflexivity.
  - vm_compute in H0. apply H0. reflexivity.
Qed.

(** *** Saving a column of the row with a given key *)

Section Update.
Variables (A : Type) (id : A -> pk) (f : A -> A).
Hypothesis id_f : forall a, id (f a) = id a.
Variable k : pk.

Lemma find_update l :
  find (fun a => id a =? k) (map (fun a => if id a =? k then f a else a) l)
  = option_map f (find (fun a => id a =? k) l).
Proof.
  induction l as [|a l IH]; simpl; [reflexivity|].
  destruct (id a =? k) eqn:E.
  - rewrite id_f, E. reflexivity.
  - rewrite E. exact IH.
Qed.

Lemma existsb_update l :
  existsb (fun a => id a =? k) (map (fun a => if id a =? k then f a else a) l)
  = existsb (fun a => id a =? k) l.
Proof.
  induction l as [|a l IH]; simpl; [reflexivity|].
  rewrite IH. f_equal.
  destruct (id a =? k) eqn:E; [rewrite id_f|]; exact E.
Qed.

Lemma update_twice l :
  (forall a, f (f a) = f a) ->
  map (fun a => if id a =? k then f a else a)
    (map (fun a => if id a =? k then f a else a) l)
  = map (fun a => if id a =? k then f a else a) l.
Proof.
  intro ff. rewrite map_map. apply map_ext. intro a.
  destruct (id a =? k) eqn:E.
  - rewrite id_f, E. apply ff.
  - rewrite E. reflexivity.
Qed.
End Update.

Lemma Enrollment_save_status_found st id status e :
  find_enrollment st id = Some e ->
  fst (Enrollment_save_status st id status) = Saved id
  /\ find_enrollment (snd (Enrollment_save_status st id status)) id
     = Some (Enrollment.set_status status e).
Proof.
  intro H. unfold Enrollment_save_status, find_enrollment in *.
  rewrite (find_existsb _ _ _ H). simpl. split; [reflexivity|].
  rewrite (find_update _ Enrollment.id (Enrollment.set_status status))
    by reflexivity.
  rewrite H. reflexivity.
Qed.

Lemma Enrollment_save_status_twice st id status :
  snd (Enrollment_save_status (snd (Enrollment_save_status st id status))
         id status)
  = snd (Enrollment_save_status st id status).
Proof.
  unfold Enrollment_save_status at 2 3.
  destruct (existsb _ (enrollments st)) eqn:E; simpl.
  - unfold Enrollment_save_status. simpl.
    rewrite (existsb_update _ Enrollment.id (Enrollment.set_status status))
      by reflexivity.
    rewrite E. simpl. unfold set_enrollments. simpl.
    rewrite (update_twice _ Enrollment.id (Enrollment.set_status status))
      by reflexivity.
    reflexivity.
  - unfold Enrollment_save_status. rewrite E. reflexivity.
Qed.

(** C4 (as amended).  Saving the status "dropped" on an enrollment writes
    that one column: the row gets the status, no row of the offerings
    changes, so enrolled_count is not decremented; saving it a second time
    changes nothing more.  Creating an enrollment does not change
    enrolled_count either. *)
Theorem drop_keeps_enrolled_count :
  forall st id,
    course_offerings (handle st (Drop id)) = course_offerings st
    /\ (forall e, find_enrollment st id = Some e ->
          find_enrollment (handle st (Drop id)) id
          = Some (Enrollment.set_status DROPPED e))
    /\ handle (handle st (Drop id)) (Drop id) = handle st (Drop id)
    /\ (forall today s o status,
          course_offerings (handle st (Enroll today s o status))
          = course_offerings st).
Proof.
  intros st id. split; [apply handle_course_offerings|]. split; [|split].
  - intros e H. apply (Enrollment_save_status_found st id DROPPED e H).
  - apply Enrollment_save_status_twice.
  - intros. apply handle_course_offerings.
Qed.

(** C4, on an offering with one student enrolled: the counter stays 1. *)
Lemma drop_keeps_enrolled_count_one :
  find_enrollment (handle one_enrolled (Drop 1)) 1
  = Some (Enrollment.mk 1 1 1 0 DROPPED None)
  /\ enrolled_counts (handle one_enrolled (Drop 1)) = [1%N].
Proof.
  split.
  - apply (proj1 (proj2 (drop_keeps_enrolled_count one_enrolled 1))
             (Enrollment.mk 1 1 1 0 ENROLLED None)).
    reflexivity.
  - unfold enrolled_counts.
    rewrite (proj1 (drop_keeps_enrolled_count one_enrolled 1)). reflexivity.
Defined.

(** C4 as the specification states it fails: the student of [one_enrolled]
    is enrolled and counted, and after the drop the counter is still 1; in
    the scenario an accepted enrollment leaves the counter at 0. *)
Lemma drop_does_not_decrement :
  ~ drop_decrements one_enrolled 1
  /\ enrolled_counts scenario0 = [0%N]
  /\ enrolled_counts (handle scenario0 (Enroll 0 1 1 ENROLLED)) = [0%N].
Proof.
  split; [|split; reflexivity].
  intro H.
  destruct (H (Enrollment.mk 1 1 1 0 ENROLLED None) (offering_row 1 1 2 1))
    as [o' [Ho' Hc]]; try reflexivity.
  vm_compute in Ho'. inversion Ho'; subst o'. vm_compute in Hc. discriminate.
Qed.

Lemma DocumentRequest_save_status_found st id status r :
  find_document_request st id = Some r ->
  fst (DocumentRequest_save_status st id status) = Saved id
  /\ find_document_request (snd (DocumentRequest_save_status st id status)) id
     = Some (DocumentRequest.set_status status r).
Proof.
  intro H. unfold DocumentRequest_save_status, find_document_request in *.
  rewrite (find_existsb _ _ _ H). simpl. split; [reflexivity|].
  rewrite (find_update _ DocumentRequest.id
             (DocumentRequest.set_status status)) by reflexivity.
  rewrite H. reflexivity.
Qed.

Lemma Feedback_save_status_found st id status f :
  find_feedback st id = Some f ->
  fst (Feedback_save_status st id status) = Saved id
  /\ find_feedback (snd (Feedback_save_status st id status)) id
     = Some (Feedback.set_status status f).
Proof.
  intro H. unfold Feedback_save_status, find_feedback in *.
  rewrite (find_existsb _ _ _ H). simpl. split; [reflexivity|].
  rewrite (find_update _ Feedback.id (Feedback.set_status status))
    by reflexivity.
  rewrite H. reflexivity.
Qed.

(** C7 (as amended).  The status column of an Enrollment, a DocumentRequest
    and a Feedback is saved as submitted: for every row that exists, every
    status of the model's choices is accepted and becomes the row's status,
    whatever status the row had, terminal or not.  The only refusal is for
    a key that names no row. *)
Theorem status_saved_as_submitted :
  (forall st id status e,
      find_enrollment st id = Some e ->
      fst (Enrollment_save_status st id status) = Saved id
      /\ find_enrollment (snd (Enrollment_save_status st id status)) id
         = Some (Enrollment.set_status status e))
  /\ (forall st id status r,
         find_document_request st id = Some r ->
         fst (DocumentRequest_save_status st id status) = Saved id
         /\ find_document_request
              (snd (DocumentRequest_save_status st id status)) id
            = Some (DocumentRequest.set_status status r))
  /\ (forall st id status f,
         find_feedback st id = Some f ->
         fst (Feedback_save_status st id status) = Saved id
         /\ find_feedback (snd (Feedback_save_status st id status)) id
            = Some (Feedback.set_status status f)).
Proof.
  split; [|split].
  - apply Enrollment_save_status_found.
  - apply DocumentRequest_save_status_found.
  - apply Feedback_save_status_found.
Qed.

(** C7, out of three terminal states: a dropped enrollment is enrolled
    again, a claimed request is pending again, a closed feedback is pending
    again. *)
Lemma status_saved_as_submitted_terminal :
  (fst (Enrollment_save_status one_dropped 1 ENROLLED) = Saved 1
   /\ find_enrollment (snd (Enrollment_save_status one_dropped 1 ENROLLED)) 1
      = Some (Enrollment.mk 1 1 1 0 ENROLLED (Some 5)))
  /\ (fst (DocumentRequest_save_status closed_cases 1 RQ_PENDING) = Saved 1
      /\ find_document_request
           (snd (DocumentRequest_save_status closed_cases 1 RQ_PENDING)) 1
         = Some (DocumentRequest.mk 1 1 TOR "work" 1 0 RQ_PENDING (Some 9) 0%Q
                   ""))
  /\ (fst (Feedback_save_status closed_cases 1 FB_PENDING) = Saved 1
      /\ find_feedback (snd (Feedback_save_status closed_cases 1 FB_PENDING)) 1
         = Some (Feedback.mk 1 1 INQUIRY "hours" "when" FB_PENDING 0 "" None
                   None)).
Proof.
  split; [|split].
  - apply (proj1 status_saved_as_submitted one_dropped 1 ENROLLED
             (Enrollment.mk 1 1 1 0 DROPPED (Some 5))).
    reflexivity.
  - apply (proj1 (proj2 status_saved_as_submitted) closed_cases 1 RQ_PENDING
             (DocumentRequest.mk 1 1 TOR "work" 1 0 RQ_CLAIMED (Some 9) 0%Q
                "")).
    reflexivity.
  - apply (proj2 (proj2 status_saved_as_submitted) closed_cases 1 FB_PENDING
             (Feedback.mk 1 1 INQUIRY "hours" "when" FB_CLOSED 0 "" None
                None)).
    reflexivity.
Defined.

(** C7 as the specification states it fails: the enrollment of
    [one_dropped] is in the terminal state "dropped", and saving "enrolled"
    on it is accepted; so are "pending" on the claimed request and on the
    closed feedback of [closed_cases]. *)
Lemma terminal_is_not_final :
  ~ terminal_is_final one_dropped 1 ENROLLED
  /\ (option_map (fun r => Request_terminal (DocumentRequest.status r))
         (find_document_request closed_cases 1) = Some true
      /\ fst (DocumentRequest_save_status closed_cases 1 RQ_PENDING) = Saved 1)
  /\ (option_map (fun f => Feedback_terminal (Feedback.status f))
         (find_feedback closed_cases 1) = Some true
      /\ fst (Feedback_save_status closed_cases 1 FB_PENDING) = Saved 1).
Proof.
  split; [|repeat split].
  intro H.
  destruct (H (Enrollment.mk 1 1 1 0 DROPPED (Some 5))) as [e He];
    try reflexivity; try discriminate.
Qed.

(** *** One enrollment per pair *)

Lemma existsb_false_filter {A} (f : A -> bool) l :
  existsb f l = false -> filter f l = [].
Proof.
  induction l as [|a l IH]; simpl; [reflexivity|].
  destruct (f a); simpl; [discriminate|exact IH].
Qed.

Lemma Enrollment_with_eq s o s' o' e :
  Enrollment_with s o e = true -> Enrollment_with s' o' e = true ->
  s' = s /\ o' = o.
Proof.
  unfold Enrollment_with. rewrite !andb_true_iff, !Z.eqb_eq. lia.
Qed.

Lemma Enrollment_create_unique st today s o status dd :
  Enrollment_unique st ->
  Enrollment_unique (snd (Enrollment_create st today s o status dd)).
Proof.
  intros U. unfold Enrollment_create.
  destruct (existsb (Enrollment_with s o) (enrollments st)) eqn:E;
    [exact U|].
  destruct (negb _); [exact U|]. destruct (negb _); [exact U|].
  intros s' o'. simpl. rewrite filter_app, length_app. simpl.
  destruct (Enrollment_with s' o' _) eqn:W; simpl.
  - unfold Enrollment_with in W. simpl in W.
    apply andb_true_iff in W. rewrite !Z.eqb_eq in W. destruct W; subst.
    rewrite (existsb_false_filter _ _ E). simpl. lia.
  - specialize (U s' o'). lia.
Qed.

Lemma filter_map_same {A} (P : A -> bool) (g : A -> A) l :
  (forall a, P (g a) = P a) ->
  List.length (filter P (map g l)) = List.length (filter P l).
Proof.
  intro H. induction l as [|a l IH]; simpl; [reflexivity|].
  rewrite H. destruct (P a); simpl; congruence.
Qed.

Lemma Enrollment_save_status_unique st id status :
  Enrollment_unique st ->
  Enrollment_unique (snd (Enrollment_save_status st id status)).
Proof.
  intros U. unfold Enrollment_save_status.
  destruct (existsb _ _); [|exact U].
  intros s o. simpl. rewrite filter_map_same; [apply U|].
  intro e. destruct (Enrollment.id e =? id); reflexivity.
Qed.

Lemma run_unique rs : forall st,
  Enrollment_unique st -> Enrollment_unique (run rs st).
Proof.
  induction rs as [|r rs IH]; intros st U; simpl; [exact U|].
  apply IH. destruct r; simpl.
  - now apply Enrollment_create_unique.
  - now apply Enrollment_save_status_unique.
Qed.

Lemma filter_filter_length {A} (P Q : A -> bool) l :
  (List.length (filter P (filter Q l)) <= List.length (filter P l))%nat.
Proof.
  induction l as [|a l IH]; simpl; [lia|].
  destruct (Q a); simpl; destruct (P a); simpl; lia.
Qed.

Lemma Course_delete_unique st id :
  Enrollment_unique st -> Enrollment_unique (Course_delete st id).
Proof.
  intros U s o. simpl.
  eapply Nat.le_trans; [apply filter_filter_length | apply U].
Qed.

Lemma Enrollment_create_duplicate st today s o status dd e :
  In e (enrollments st) ->
  Enrollment.student e = s -> Enrollment.course_offering e = o ->
  Enrollment_create st today s o status dd
  = (Rejected (UniqueViolation "Enrollment" (Enrollment_key s o)), st).
Proof.
  intros Hin Hs Ho. unfold Enrollment_create.
  replace (existsb (Enrollment_with s o) (enrollments st)) with true;
    [reflexivity|].
  symmetry. apply existsb_exists. exists e. split; [exact Hin|].
  unfold Enrollment_with. rewrite Hs, Ho, !Z.eqb_refl. reflexivity.
Qed.

Lemma Enrollment_unique_empty st :
  enrollments st = [] -> Enrollment_unique st.
Proof.
  intros E s o. rewrite E. simpl. lia.
Qed.

(** C3.  For every (student, course offering) pair at most one Enrollment
    exists: the property holds of a store with no enrollment, it is kept by
    every sequence of enrollment requests and by the deletion of a course,
    and an attempt to create a second Enrollment for a pair that has one is
    refused as a uniqueness violation that names the pair, leaving the
    store unchanged. *)
Theorem Enrollment_pair_unique :
  (forall st, enrollments st = [] -> Enrollment_unique st)
  /\ (forall st,
         Enrollment_unique st ->
         (forall rs, Enrollment_unique (run rs st))
         /\ (forall id, Enrollment_unique (Course_delete st id)))
  /\ (forall st today s o status dd e,
         In e (enrollments st) ->
         Enrollment.student e = s -> Enrollment.course_offering e = o ->
         Enrollment_create st today s o status dd
         = (Rejected
              (UniqueViolation "Enrollment"
                 [("student"%string, s); ("course_offering"%string, o)]),
            st)).
Proof.
  split; [|split].
  - apply Enrollment_unique_empty.
  - intros st U. split.
    + intro rs. now apply run_unique.
    + intro id. now apply Course_delete_unique.
  - intros st today s o status dd e Hin Hs Ho.
    exact (Enrollment_create_duplicate st today s o status dd e Hin Hs Ho).
Qed.

(** C3 in the scenario: whatever is requested, no pair gets two
    enrollments, and student A cannot be enrolled twice in offering 1. *)
Lemma Enrollment_pair_unique_scenario :
  Enrollment_unique
    (run [Enroll 0 1 1 PENDING; Enroll 0 2 1 PENDING; Enroll 3 1 1 ENROLLED]
       scenario0)
  /\ Enrollment_create scenario1 3 1 1 ENROLLED None
     = (Rejected
          (UniqueViolation "Enrollment"
             [("student"%string, 1); ("course_offering"%string, 1)]),
        scenario1).
Proof.
  split.
  - apply (proj1 (proj1 (proj2 Enrollment_pair_unique) scenario0
                    (proj1 Enrollment_pair_unique scenario0 eq_refl))).
  - apply (proj2 (proj2 Enrollment_pair_unique) scenario1 3 1 1 ENROLLED None
             (Enrollment.mk 1 1 1 0 PENDING None)).
    + left. reflexivity.
    + reflexivity.
    + reflexivity.
Defined.

(** *** The prerequisite relation *)

Lemma prerequisites_In st course other :
  In other (prerequisites st course)
  <-> exists l, In l (course_prerequisites st)
                /\ CoursePrerequisite.from_course l = course
                /\ CoursePrerequisite.to_course l = other.
Proof.
  unfold prerequisites. rewrite in_map_iff. split.
  - intros [l [Hto Hin]]. apply filter_In in Hin. destruct Hin as [Hin Hf].
    apply Z.eqb_eq in Hf. exists l. auto.
  - intros [l [Hin [Hf Hto]]]. exists l. split; [exact Hto|].
    apply filter_In. split; [exact Hin|]. now apply Z.eqb_eq.
Qed.

Lemma prerequisite_for_In st course other :
  In other (prerequisite_for st course)
  <-> exists l, In l (course_prerequisites st)
                /\ CoursePrerequisite.from_course l = other
                /\ CoursePrerequisite.to_course l = course.
Proof.
  unfold prerequisite_for. rewrite in_map_iff. split.
  - intros [l [Hfrom Hin]]. apply filter_In in Hin. destruct Hin as [Hin Ht].
    apply Z.eqb_eq in Ht. exists l. auto.
  - intros [l [Hin [Hfrom Ht]]]. exists l. split; [exact Hfrom|].
    apply filter_In. split; [exact Hin|]. now apply Z.eqb_eq.
Qed.

Lemma prerequisites_add_In st course other :
  In other (prerequisites (prerequisites_add st course other) course).
Proof.
  apply prerequisites_In. unfold prerequisites_add.
  destruct (existsb _ _) eqn:E.
  - apply existsb_exists in E. destruct E as [l [Hin Hl]].
    unfold link_is in Hl. apply andb_true_iff in Hl.
    rewrite !Z.eqb_eq in Hl. exists l. tauto.
  - eexists. split; [simpl; apply in_or_app; right; left; reflexivity|].
    split; reflexivity.
Qed.

Lemma prerequisites_add_other st course other c :
  c <> course ->
  prerequisites (prerequisites_add st course other) c = prerequisites st c.
Proof.
  intro H. unfold prerequisites_add.
  destruct (existsb _ _); [reflexivity|].
  unfold prerequisites. simpl. rewrite filter_app. simpl.
  replace (course =? c) with false by (symmetry; apply Z.eqb_neq; congruence).
  rewrite app_nil_r. reflexivity.
Qed.

Lemma prerequisite_for_add_other st course other c :
  c <> other ->
  prerequisite_for (prerequisites_add st course other) c
  = prerequisite_for st c.
Proof.
  intro H. unfold prerequisites_add.
  destruct (existsb _ _); [reflexivity|].
  unfold prerequisite_for. simpl. rewrite filter_app. simpl.
  replace (other =? c) with false by (symmetry; apply Z.eqb_neq; congruence).
  rewrite app_nil_r. reflexivity.
Qed.

(** C9.  The prerequisite relation is directed: adding A to B's
    prerequisites puts A in B's list and leaves the list of every other
    course, A's included, as it was, so B does not become a prerequisite of
    A; the inverse query lists exactly the courses whose prerequisite list
    holds the course, and it differs from the prerequisite list.  In the
    catalog of two courses, after CS101 is made a prerequisite of CS102,
    CS101 is in the list of CS102 and CS102 is not in the list of CS101.
    Nothing forbids the link the other way round: both can be stored. *)
Theorem prerequisites_directed :
  (forall st b a, In a (prerequisites (prerequisites_add st b a) b))
  /\ (forall st b a c,
         c <> b ->
         prerequisites (prerequisites_add st b a) c = prerequisites st c)
  /\ (forall st b a c,
         c <> a ->
         prerequisite_for (prerequisites_add st b a) c
         = prerequisite_for st c)
  /\ (forall st a b,
         In b (prerequisite_for st a) <-> In a (prerequisites st b))
  /\ (prerequisites (prerequisites_add two_courses 2 1) 2 = [1]
      /\ prerequisites (prerequisites_add two_courses 2 1) 1 = []
      /\ prerequisite_for (prerequisites_add two_courses 2 1) 1 = [2]
      /\ prerequisite_for (prerequisites_add two_courses 2 1) 2 = [])
  /\ (prerequisites
        (prerequisites_add (prerequisites_add two_courses 2 1) 1 2) 1 = [2]
      /\ prerequisites
           (prerequisites_add (prerequisites_add two_courses 2 1) 1 2) 2
         = [1]).
Proof.
  split; [|split; [|split; [|split; [|split]]]].
  - apply prerequisites_add_In.
  - intros. now apply prerequisites_add_other.
  - intros. now apply prerequisite_for_add_other.
  - intros st a b. rewrite prerequisite_for_In, prerequisites_In.
    split; intros [l H]; exists l; tauto.
  - repeat split.
  - repeat split.
Qed.

(** C9, at the two courses: CS102's list is not touched when CS102 is made
    a prerequisite of CS101. *)
Lemma prerequisites_directed_two_courses :
  prerequisites (prerequisites_add two_courses 1 2) 2
  = prerequisites two_courses 2.
Proof.
  apply (proj1 (proj2 prerequisites_directed) two_courses 1 2 2). discriminate.
Defined.

(** *** The percentage column *)

Lemma Qlt_bool_iff a b : Qlt_bool a b = true <-> (a < b)%Q.
Proof.
  unfold Qlt_bool. rewrite negb_true_iff. split.
  - intro H. apply Qnot_le_lt. intro L. apply Qle_bool_iff in L. congruence.
  - intro H. destruct (Qle_bool b a) eqn:E; [|reflexivity].
    apply Qle_bool_iff in E. exfalso. exact (Qlt_not_le _ _ H E).
Qed.

Lemma Decimal_truediv_nonzero a b :
  ~ (b == 0)%Q -> Decimal_truediv a b = inr (Decimal_round (a / b)).
Proof.
  intro H. unfold Decimal_truediv.
  destruct (Qeq_bool b 0) eqn:E; [|reflexivity].
  apply Qeq_bool_iff in E. contradiction.
Qed.

Lemma percentage_of_positive obj a :
  (0 < Assessment.max_score a)%Q ->
  percentage_of obj a
  = inr (SpanPercent
           (percentage_color
              (Decimal_mul
                 (Decimal_round (AssessmentScore.score obj
                                 / Assessment.max_score a))
                 (inject_Z 100)))
           (Decimal_mul
              (Decimal_round (AssessmentScore.score obj
                              / Assessment.max_score a))
              (inject_Z 100))).
Proof.
  intro H. unfold percentage_of.
  replace (Qlt_bool (inject_Z 0) (Assessment.max_score a)) with true
    by (symmetry; apply Qlt_bool_iff; exact H).
  rewrite Decimal_truediv_nonzero; [reflexivity|].
  intro E. rewrite E in H. exact (Qlt_irrefl _ H).
Qed.

Lemma percentage_of_not_positive obj a :
  ~ (0 < Assessment.max_score a)%Q -> percentage_of obj a = inr (Text "-").
Proof.
  intro H. unfold percentage_of.
  destruct (Qlt_bool (inject_Z 0) (Assessment.max_score a)) eqn:E;
    [|reflexivity].
  apply Qlt_bool_iff in E. contradiction.
Qed.

(** C10.  [percentage] divides the score by the assessment's max_score only
    behind the test [max_score > 0]: for a positive max_score the divisor
    is not zero and the cell is the coloured percentage
    [score / max_score * 100]; for a max_score of 0 (or below) no division
    is made and the cell is the placeholder ['-'].  So the column never
    raises a division by zero, with or without the store lookup. *)
Theorem percentage_never_divides_by_zero :
  forall obj a,
    (exists cell, percentage_of obj a = inr cell)
    /\ ((0 < Assessment.max_score a)%Q ->
        Decimal_truediv (AssessmentScore.score obj) (Assessment.max_score a)
        = inr (Decimal_round (AssessmentScore.score obj
                              / Assessment.max_score a))
        /\ percentage_of obj a
           = inr (SpanPercent
                    (percentage_color
                       (Decimal_mul
                          (Decimal_round (AssessmentScore.score obj
                                          / Assessment.max_score a))
                          (inject_Z 100)))
                    (Decimal_mul
                       (Decimal_round (AssessmentScore.score obj
                                       / Assessment.max_score a))
                       (inject_Z 100))))
    /\ ((Assessment.max_score a == 0)%Q ->
        percentage_of obj a = inr (Text "-"))
    /\ (~ (0 < Assessment.max_score a)%Q ->
        percentage_of obj a = inr (Text "-"))
    /\ (forall st,
           percentage st obj <> inl DivisionByZero
           /\ percentage st obj <> inl InvalidOperation).
Proof.
  intros obj a.
  assert (P : (0 < Assessment.max_score a)%Q ->
              ~ (Assessment.max_score a == 0)%Q).
  { intros H E. rewrite E in H. exact (Qlt_irrefl _ H). }
  assert (T : exists cell, percentage_of obj a = inr cell).
  { destruct (Qlt_le_dec 0 (Assessment.max_score a)) as [H|H].
    - eexists. apply (percentage_of_positive obj a H).
    - eexists. apply percentage_of_not_positive. now apply Qle_not_lt. }
  split; [exact T|]. split; [|split; [|split]].
  - intro H. split.
    + apply Decimal_truediv_nonzero. auto.
    + now apply percentage_of_positive.
  - intro E. apply percentage_of_not_positive. intro H. now apply P.
  - apply percentage_of_not_positive.
  - intro st. unfold percentage.
    destruct (find_assessment st (AssessmentScore.assessment obj)) as [a'|];
      [|split; discriminate].
    clear T P.
    destruct (Qlt_le_dec 0 (Assessment.max_score a')) as [H|H].
    + rewrite (percentage_of_positive obj a' H). split; discriminate.
    + rewrite percentage_of_not_positive by now apply Qle_not_lt.
      split; discriminate.
Qed.

(** C10, at the scores of the scenario: 40 out of 50 is shown as 80, in
    green, and a score on a sheet whose max_score is 0 as ['-']. *)
Lemma percentage_never_divides_by_zero_scenario :
  percentage_of (score_row 1 1 1 (inject_Z 40))
    (assessment_row 1 1 (inject_Z 50) (inject_Z 30))
  = inr (SpanPercent "green" (inject_Z 80))
  /\ percentage_of (score_row 2 2 1 (inject_Z 7))
       (assessment_row 2 1 (inject_Z 0) (inject_Z 30))
     = inr (Text "-").
Proof.
  split.
  - exact (proj2 (proj1 (proj2 (percentage_never_divides_by_zero
                                  (score_row 1 1 1 (inject_Z 40))
                                  (assessment_row 1 1 (inject_Z 50)
                                     (inject_Z 30))))
                    eq_refl)).
  - apply (proj1 (proj2 (proj2 (percentage_never_divides_by_zero
                                  (score_row 2 2 1 (inject_Z 7))
                                  (assessment_row 2 1 (inject_Z 0)
                                     (inject_Z 30)))))).
    reflexivity.
Defined.

(** *** Deleting a department *)

Lemma filter_comm {A} (P Q : A -> bool) l :
  filter P (filter Q l) = filter Q (filter P l).
Proof.
  induction l as [|a l IH]; simpl; [reflexivity|].
  destruct (P a) eqn:EP, (Q a) eqn:EQ; simpl;
    rewrite ?EP, ?EQ, IH; reflexivity.
Qed.

Lemma Faculty_set_department_fields d f :
  Faculty.department (Faculty.set_department d f) = d
  /\ Faculty.id (Faculty.set_department d f) = Faculty.id f
  /\ Faculty.user (Faculty.set_department d f) = Faculty.user f
  /\ Faculty.employee_id (Faculty.set_department d f) = Faculty.employee_id f
  /\ Faculty.title (Faculty.set_department d f) = Faculty.title f
  /\ Faculty.employment_status (Faculty.set_department d f)
     = Faculty.employment_status f
  /\ Faculty.specialization (Faculty.set_department d f)
     = Faculty.specialization f
  /\ Faculty.office_room (Faculty.set_department d f) = Faculty.office_room f
  /\ Faculty.consultation_hours (Faculty.set_department d f)
     = Faculty.consultation_hours f
  /\ Faculty.contact_number (Faculty.set_department d f)
     = Faculty.contact_number f
  /\ Faculty.date_hired (Faculty.set_department d f) = Faculty.date_hired f
  /\ Faculty.bio (Faculty.set_department d f) = Faculty.bio f
  /\ Faculty.is_active (Faculty.set_department d f) = Faculty.is_active f.
Proof. repeat split. Qed.

Lemma Department_delete_faculty_ids st id :
  map Faculty.id (faculty (Department_delete st id))
  = map Faculty.id (faculty st).
Proof.
  simpl. rewrite map_map. apply map_ext. intro f. unfold clear.
  destruct (refers _ _); reflexivity.
Qed.

Lemma Department_delete_headed st id f :
  headed_department (Department_delete st id) f
  = filter (fun d => negb (Department.id d =? id)) (headed_department st f).
Proof.
  unfold headed_department. simpl. apply filter_comm.
Qed.

(** C8 (as amended).  Deleting a department D deletes no faculty member:
    the faculty table keeps its keys, and a member F, head of D or not, is
    kept with every field as before except [department], which becomes
    null when it referenced D and is unchanged otherwise.  Afterwards no
    department with D's key is left, so F's [headed_department] is what it
    was without D: it is empty when D was the only department F headed. *)
Theorem Department_delete_keeps_faculty :
  forall st id f,
    In f (faculty st) ->
    map Faculty.id (faculty (Department_delete st id))
    = map Faculty.id (faculty st)
    /\ In (if refers (Faculty.department f) id
           then Faculty.set_department None f else f)
         (faculty (Department_delete st id))
    /\ (forall d,
           Faculty.department (Faculty.set_department d f) = d
           /\ Faculty.id (Faculty.set_department d f) = Faculty.id f
           /\ Faculty.user (Faculty.set_department d f) = Faculty.user f
           /\ Faculty.employee_id (Faculty.set_department d f)
              = Faculty.employee_id f
           /\ Faculty.title (Faculty.set_department d f) = Faculty.title f
           /\ Faculty.employment_status (Faculty.set_department d f)
              = Faculty.employment_status f
           /\ Faculty.specialization (Faculty.set_department d f)
              = Faculty.specialization f
           /\ Faculty.office_room (Faculty.set_department d f)
              = Faculty.office_room f
           /\ Faculty.consultation_hours (Faculty.set_department d f)
              = Faculty.consultation_hours f
           /\ Faculty.contact_number (Faculty.set_department d f)
              = Faculty.contact_number f
           /\ Faculty.date_hired (Faculty.set_department d f)
              = Faculty.date_hired f
           /\ Faculty.bio (Faculty.set_department d f) = Faculty.bio f
           /\ Faculty.is_active (Faculty.set_department d f)
              = Faculty.is_active f)
    /\ headed_department (Department_delete st id) (Faculty.id f)
       = filter (fun d => negb (Department.id d =? id))
           (headed_department st (Faculty.id f))
    /\ (forall d, In d (departments (Department_delete st id)) ->
                  Department.id d <> id).
Proof.
  intros st id f Hf.
  split; [apply Department_delete_faculty_ids|].
  split; [|split; [|split]].
  - simpl. apply (in_map (clear Faculty.department Faculty.set_department id))
      in Hf. exact Hf.
  - intro d. apply Faculty_set_department_fields.
  - apply Department_delete_headed.
  - intros d Hd. simpl in Hd. apply filter_In in Hd. destruct Hd as [_ Hd].
    apply negb_true_iff, Z.eqb_neq in Hd. exact Hd.
Qed.

(** C8, at the department headed by one of its own members: the head is
    kept, without a department, and heads nothing. *)
Lemma Department_delete_keeps_faculty_headed :
  In (faculty_row 1 "E1" None) (faculty (Department_delete headed 1))
  /\ headed_department (Department_delete headed 1) 1 = [].
Proof.
  split.
  - apply (proj1 (proj2 (Department_delete_keeps_faculty headed 1
                           (faculty_row 1 "E1" (Some 1))
                           (or_introl eq_refl)))).
  - apply (proj1 (proj2 (proj2 (proj2
             (Department_delete_keeps_faculty headed 1
                (faculty_row 1 "E1" (Some 1)) (or_introl eq_refl)))))).
Defined.

(** C8 as the specification states it fails: the head of department 1 of
    [headed] is a member of that department, and after the deletion its
    [department] field has changed to null; the row as it was is no
    longer in the table. *)
Lemma head_is_touched :
  ~ head_untouched headed 1
  /\ map Faculty.department (faculty headed) = [Some 1; Some 1]
  /\ map Faculty.department (faculty (Department_delete headed 1))
     = [None; None].
Proof.
  split; [|split; reflexivity].
  intro H.
  destruct (H (Department.mk 1 "Computer Science" "CS" "" (Some 1) "" "" "")
              (faculty_row 1 "E1" (Some 1))) as [Hin _];
    try reflexivity; try (left; reflexivity).
  simpl in Hin. destruct Hin as [E|[E|[]]]; discriminate.
Qed.

(** *** Deleting a course *)

Lemma mem_In k ks : mem k ks = true <-> In k ks.
Proof.
  unfold mem. rewrite existsb_exists. split.
  - intros [x [Hin E]]. apply Z.eqb_eq in E. now subst.
  - intro H. exists k. split; [exact H | apply Z.eqb_refl].
Qed.

Lemma not_mem_In k ks : negb (mem k ks) = true <-> ~ In k ks.
Proof.
  rewrite negb_true_iff, <- mem_In. destruct (mem k ks); split; congruence.
Qed.

Lemma offerings_of_course_In st c o :
  In o (offerings_of_course st c) <-> offering_of st c o.
Proof.
  unfold offerings_of_course, offering_of. rewrite in_map_iff.
  split; intros [r H]; exists r; rewrite filter_In, Z.eqb_eq in *; tauto.
Qed.

Lemma enrollments_of_offerings_In st c e :
  In e (enrollments_of_offerings st (offerings_of_course st c))
  <-> enrollment_of st c e.
Proof.
  unfold enrollments_of_offerings, enrollment_of. rewrite in_map_iff.
  split; intros [r H]; exists r;
    rewrite filter_In, mem_In, offerings_of_course_In in *; tauto.
Qed.

Lemma assessments_of_offerings_In st c a :
  In a (assessments_of_offerings st (offerings_of_course st c))
  <-> assessment_of st c a.
Proof.
  unfold assessments_of_offerings, assessment_of. rewrite in_map_iff.
  split; intros [r H]; exists r;
    rewrite filter_In, mem_In, offerings_of_course_In in *; tauto.
Qed.

Lemma Course_delete_unrelated st c :
  unrelated_tables_kept st (Course_delete st c).
Proof. repeat split. Qed.

(** With generated keys that are unique, the offerings of a course are the
    rows whose [course] is the course. *)
Lemma offering_of_unique st c o :
  NoDup (map CourseOffering.id (course_offerings st)) ->
  In o (course_offerings st) ->
  offering_of st c (CourseOffering.id o) <-> CourseOffering.course o = c.
Proof.
  intros ND Hin. split.
  - intros [r [Hr [Hid Hc]]].
    assert (r = o); [|now subst].
    clear Hc. induction (course_offerings st) as [|a l IH];
      [contradiction|].
    simpl in ND. inversion ND as [|? ? Hni ND']; subst.
    destruct Hr as [->|Hr], Hin as [->|Hin]; auto.
    + exfalso. apply Hni. rewrite Hid. now apply in_map.
    + exfalso. apply Hni. rewrite <- Hid. now apply in_map.
  - intro Hc. exists o. auto.
Qed.

(** C6 (as amended).  Deleting a course C deletes C, the offerings of C,
    the schedules, the enrollments and the assessments of those offerings,
    the grades, the assessment scores and the course evaluations of those
    enrollments, the assessment scores of those assessments, and the
    prerequisite links from or to C; every other row of these tables is
    kept, and the tables no key leads to from a course are left as they
    are. *)
Theorem Course_delete_cascade :
  forall st c,
    (forall x, In x (courses (Course_delete st c))
               <-> In x (courses st) /\ Course.id x <> c)
    /\ (forall o, In o (course_offerings (Course_delete st c))
                  <-> In o (course_offerings st)
                      /\ ~ offering_of st c (CourseOffering.id o))
    /\ (forall s, In s (schedules (Course_delete st c))
                  <-> In s (schedules st)
                      /\ ~ offering_of st c (Schedule.course_offering s))
    /\ (forall e, In e (enrollments (Course_delete st c))
                  <-> In e (enrollments st)
                      /\ ~ enrollment_of st c (Enrollment.id e))
    /\ (forall g, In g (grades (Course_delete st c))
                  <-> In g (grades st)
                      /\ ~ enrollment_of st c (Grade.enrollment g))
    /\ (forall a, In a (assessments (Course_delete st c))
                  <-> In a (assessments st)
                      /\ ~ assessment_of st c (Assessment.id a))
    /\ (forall s, In s (assessment_scores (Course_delete st c))
                  <-> In s (assessment_scores st)
                      /\ ~ enrollment_of st c (AssessmentScore.enrollment s)
                      /\ ~ assessment_of st c (AssessmentScore.assessment s))
    /\ (forall v, In v (course_evaluations (Course_delete st c))
                  <-> In v (course_evaluations st)
                      /\ ~ enrollment_of st c
                           (CourseEvaluation.enrollment v))
    /\ (forall l, In l (course_prerequisites (Course_delete st c))
                  <-> In l (course_prerequisites st)
                      /\ CoursePrerequisite.from_course l <> c
                      /\ CoursePrerequisite.to_course l <> c)
    /\ unrelated_tables_kept st (Course_delete st c)
    /\ (NoDup (map CourseOffering.id (course_offerings st)) ->
        forall o, In o (course_offerings (Course_delete st c))
                  <-> In o (course_offerings st)
                      /\ CourseOffering.course o <> c).
Proof.
  intros st c.
  assert (HO : forall o, In o (course_offerings (Course_delete st c))
                         <-> In o (course_offerings st)
                             /\ ~ offering_of st c (CourseOffering.id o)).
  { intro o. simpl.
    rewrite filter_In, not_mem_In, offerings_of_course_In. tauto. }
  repeat match goal with |- _ /\ _ => split end.
  - intro x. simpl. rewrite filter_In, negb_true_iff, Z.eqb_neq. tauto.
  - exact HO.
  - intro s. simpl.
    rewrite filter_In, not_mem_In, offerings_of_course_In. tauto.
  - intro e. simpl.
    rewrite filter_In, not_mem_In, enrollments_of_offerings_In. tauto.
  - intro g. simpl.
    rewrite filter_In, not_mem_In, enrollments_of_offerings_In. tauto.
  - intro a. simpl.
    rewrite filter_In, not_mem_In, assessments_of_offerings_In. tauto.
  - intro s. simpl.
    rewrite !filter_In, !not_mem_In, enrollments_of_offerings_In,
      assessments_of_offerings_In. tauto.
  - intro v. simpl.
    rewrite filter_In, not_mem_In, enrollments_of_offerings_In. tauto.
  - intro l. simpl.
    rewrite filter_In, negb_true_iff, orb_false_iff, !Z.eqb_neq. tauto.
  - apply Course_delete_unrelated.
  - intros ND o. rewrite HO. split; intros [Hin H]; split; auto.
    + intro Hc. apply H. now apply offering_of_unique.
    + intro Hof. apply H. now apply (offering_of_unique st c o ND Hin).
Qed.

(** C6, on the taught course: the offering of course 2 is kept when
    course 1 is deleted. *)
Lemma Course_delete_cascade_taught :
  In (offering_row 2 2 40 0) (course_offerings (Course_delete taught_course 1)).
Proof.
  apply (proj2 (proj2 (proj2 (proj2 (proj2 (proj2 (proj2 (proj2 (proj2
           (proj2 (Course_delete_cascade taught_course 1))))))))))).
  - simpl. constructor.
    + intros [E|[]]. discriminate.
    + constructor; [intros []|constructor].
  - split; [right; left; reflexivity | discriminate].
Defined.

(** C6 as the specification states it fails: in [taught_course] the
    deletion of course 1 also deletes the assessment of its offering, the
    score and the evaluation of its enrollment, and the prerequisite link
    to it. *)
Lemma other_rows_are_deleted :
  ~ only_named_tables_change taught_course (Course_delete taught_course 1)
  /\ assessments (Course_delete taught_course 1) = []
  /\ assessment_scores (Course_delete taught_course 1) = []
  /\ course_evaluations (Course_delete taught_course 1) = []
  /\ course_prerequisites (Course_delete taught_course 1) = []
  /\ map Course.id (courses (Course_delete taught_course 1)) = [2]
  /\ map CourseOffering.id (course_offerings (Course_delete taught_course 1))
     = [2]
  /\ map Schedule.id (schedules (Course_delete taught_course 1)) = [2]
  /\ enrollments (Course_delete taught_course 1) = []
  /\ grades (Course_delete taught_course 1) = [].
Proof.
  split; [|repeat split].
  intro H.
  destruct H as (_ & _ & _ & _ & _ & _ & H & _). vm_compute in H. discriminate.
Qed.

(** *** The computed term score *)

Lemma Qsum_app l1 l2 : (Qsum (l1 ++ l2) == Qsum l1 + Qsum l2)%Q.
Proof.
  induction l1 as [|x l1 IH]; simpl.
  - now rewrite Qplus_0_l.
  - rewrite IH. apply Qplus_assoc.
Qed.

Lemma Qsum_map_plus {A} (f g : A -> Q) l :
  (Qsum (map (fun x => f x + g x) l) == Qsum (map f l) + Qsum (map g l))%Q.
Proof.
  induction l as [|x l IH]; simpl.
  - now rewrite Qplus_0_l.
  - rewrite IH. ring.
Qed.

Lemma Qsum_map_ext {A} (f g : A -> Q) l :
  (forall x, In x l -> (f x == g x)%Q) ->
  (Qsum (map f l) == Qsum (map g l))%Q.
Proof.
  induction l as [|x l IH]; simpl; intro H; [reflexivity|].
  rewrite (H x (or_introl eq_refl)), IH; [reflexivity|].
  intros y Hy. apply H. now right.
Qed.

Lemma Qsum_none {A} (id : A -> pk) (g : A -> Q) k l :
  ~ In k (map id l) ->
  (Qsum (map (fun x => if id x =? k then g x else 0) l) == 0)%Q.
Proof.
  induction l as [|x l IH]; simpl; intro H; [reflexivity|].
  destruct (id x =? k) eqn:E.
  - exfalso. apply H. left. now apply Z.eqb_eq.
  - rewrite IH by tauto. ring.
Qed.

Lemma Qsum_one {A} (id : A -> pk) (g : A -> Q) a l :
  NoDup (map id l) -> In a l ->
  (Qsum (map (fun x => if id x =? id a then g x else 0) l) == g a)%Q.
Proof.
  induction l as [|x l IH]; simpl; intros ND Hin; [contradiction|].
  inversion ND as [|? ? Hni ND']; subst.
  destruct Hin as [->|Hin].
  - rewrite Z.eqb_refl, (Qsum_none id g (id a) l Hni). ring.
  - destruct (id x =? id a) eqn:E.
    + exfalso. apply Hni. apply Z.eqb_eq in E. rewrite E. now apply in_map.
    + rewrite IH by assumption. ring.
Qed.

Lemma NoDup_map_filter {A B} (f : A -> B) (P : A -> bool) l :
  NoDup (map f l) -> NoDup (map f (filter P l)).
Proof.
  induction l as [|x l IH]; simpl; intro ND; [constructor|].
  inversion ND as [|? ? Hni ND']; subst.
  destruct (P x); simpl; [|auto].
  constructor; [|auto].
  intro H. apply Hni. apply in_map_iff in H. destruct H as [y [E Hy]].
  apply filter_In in Hy. rewrite <- E. apply in_map. tauto.
Qed.

Lemma In_existsb_id {A} (id : A -> pk) a l :
  In a l -> existsb (fun x => id x =? id a) l = true.
Proof.
  intro H. apply existsb_exists. exists a. split; [exact H|apply Z.eqb_refl].
Qed.

Lemma AssessmentScore_create_saved st now a e score remarks :
  In a (assessments st) -> In e (enrollments st) ->
  existsb (AssessmentScore_with (Assessment.id a) (Enrollment.id e))
    (assessment_scores st) = false ->
  AssessmentScore_create st now (Assessment.id a) (Enrollment.id e) score
    remarks
  = (Saved (next_id AssessmentScore.id (assessment_scores st)),
     set_assessment_scores
       (assessment_scores st ++
        [AssessmentScore.mk (next_id AssessmentScore.id (assessment_scores st))
           (Assessment.id a) (Enrollment.id e) score remarks now]) st).
Proof.
  intros Ha He Hn. unfold AssessmentScore_create.
  rewrite Hn, (In_existsb_id Assessment.id a _ Ha),
    (In_existsb_id Enrollment.id e _ He).
  reflexivity.
Qed.

Lemma AssessmentScore_create_grades st now a e score remarks :
  grades (snd (AssessmentScore_create st now a e score remarks)) = grades st.
Proof.
  unfold AssessmentScore_create.
  repeat match goal with |- context [if ?b then _ else _] => destruct b end;
    reflexivity.
Qed.

Lemma handle_grades st r : grades (handle st r) = grades st.
Proof.
  destruct r; simpl.
  - unfold Enrollment_create.
    repeat match goal with |- context [if ?b then _ else _] => destruct b end;
      reflexivity.
  - unfold Enrollment_save_status. destruct (existsb _ _); reflexivity.
Qed.

Lemma run_grades rs : forall st, grades (run rs st) = grades st.
Proof.
  induction rs as [|r rs IH]; intro st; simpl; [reflexivity|].
  unfold run in IH. rewrite IH. apply handle_grades.
Qed.

Lemma computed_term_score_add st a e id score remarks now :
  NoDup (map Assessment.id (assessments st)) ->
  In a (assessments st) ->
  Assessment.course_offering a = Enrollment.course_offering e ->
  (computed_term_score
     (set_assessment_scores
        (assessment_scores st ++
         [AssessmentScore.mk id (Assessment.id a) (Enrollment.id e) score
            remarks now]) st) e
   == computed_term_score st e
      + contribution score (Assessment.max_score a) (Assessment.weight a))%Q.
Proof.
  intros ND Ha Hc. unfold computed_term_score, scores_on, assessments_of.
  simpl.
  set (l := filter (fun a0 => Assessment.course_offering a0
                              =? Enrollment.course_offering e)
              (assessments st)).
  set (old := fun a0 : Assessment.row =>
         Qsum (map (fun s => contribution (AssessmentScore.score s)
                               (Assessment.max_score a0) (Assessment.weight a0))
                 (filter (AssessmentScore_with (Assessment.id a0)
                            (Enrollment.id e)) (assessment_scores st)))).
  set (new := fun a0 : Assessment.row =>
         if Assessment.id a0 =? Assessment.id a
         then contribution score (Assessment.max_score a0)
                (Assessment.weight a0)
         else 0%Q).
  assert (Hl : In a l).
  { apply filter_In. split; [exact Ha|]. now apply Z.eqb_eq. }
  assert (NDl : NoDup (map Assessment.id l)) by now apply NoDup_map_filter.
  rewrite (Qsum_map_ext _ (fun a0 => old a0 + new a0)%Q).
  - rewrite Qsum_map_plus. fold (Qsum (map old l)).
    unfold new. rewrite (Qsum_one Assessment.id _ a l NDl Hl). reflexivity.
  - intros a0 _. rewrite filter_app, map_app, Qsum_app. fold (old a0).
    apply Qplus_comp; [reflexivity|]. unfold new. simpl.
    unfold AssessmentScore_with at 1. simpl.
    rewrite Z.eqb_refl, andb_true_r, (Z.eqb_sym (Assessment.id a)).
    destruct (Assessment.id a0 =? Assessment.id a); simpl;
      [ring|reflexivity].
Qed.

(** C5.  The computed term score of an enrollment is the sum of
    [score / max_score * weight] over the assessments of its offering:
    recording a score on one of them adds exactly that term.  Nothing
    writes it to a grade: recording a score, enrolling and saving a status
    leave the table of grades, [final_grade] included, as it was.  With
    max_score = 50 and weight = 30, a score of 40 contributes 24. *)
Theorem computed_term_score_sum :
  (forall st e,
      (computed_term_score st e
       == Qsum
            (map (fun a =>
                    Qsum
                      (map (fun s =>
                              AssessmentScore.score s / Assessment.max_score a
                              * Assessment.weight a)
                         (scores_on st (Assessment.id a) (Enrollment.id e))))
               (assessments_of st (Enrollment.course_offering e))))%Q
      /\ (forall a now score remarks,
             NoDup (map Assessment.id (assessments st)) ->
             In a (assessments st) ->
             In e (enrollments st) ->
             Assessment.course_offering a = Enrollment.course_offering e ->
             existsb
               (AssessmentScore_with (Assessment.id a) (Enrollment.id e))
               (assessment_scores st) = false ->
             fst (AssessmentScore_create st now (Assessment.id a)
                    (Enrollment.id e) score remarks)
             = Saved (next_id AssessmentScore.id (assessment_scores st))
             /\ (computed_term_score
                   (snd (AssessmentScore_create st now (Assessment.id a)
                           (Enrollment.id e) score remarks)) e
                 == computed_term_score st e
                    + score / Assessment.max_score a * Assessment.weight a)%Q)
      /\ (forall now a e' score remarks,
             grades (snd (AssessmentScore_create st now a e' score remarks))
             = grades st)
      /\ (forall rs, grades (run rs st) = grades st))
  /\ ((contribution (inject_Z 40) (inject_Z 50) (inject_Z 30) == inject_Z 24)%Q
      /\ (computed_term_score unscored enrollment_A == 0)%Q
      /\ record_40 = (Saved 1, taught_course)
      /\ (computed_term_score taught_course enrollment_A == inject_Z 24)%Q
      /\ map Grade.final_grade (grades taught_course) = [None]).
Proof.
  split.
  - intros st e. split; [reflexivity|]. split; [|split].
    + intros a now score remarks ND Ha He Hc Hn.
      rewrite (AssessmentScore_create_saved st now a e score remarks Ha He Hn).
      split; [reflexivity|]. simpl.
      apply (computed_term_score_add st a e _ score remarks now ND Ha Hc).
    + intros. apply AssessmentScore_create_grades.
    + intro rs. apply run_grades.
  - repeat split.
Qed.

(** C5, on the scenario: recording the score of 40 on the assessment with
    max_score = 50 and weight = 30 adds 40/50*30 to a term score of 0. *)
Lemma computed_term_score_sum_scenario :
  fst record_40 = Saved 1
  /\ (computed_term_score (snd record_40) enrollment_A
      == computed_term_score unscored enrollment_A
         + inject_Z 40 / inject_Z 50 * inject_Z 30)%Q.
Proof.
  apply (proj1 (proj2 (proj1 computed_term_score_sum unscored enrollment_A))
           (assessment_row 1 1 (inject_Z 50) (inject_Z 30)) 0 (inject_Z 40)
           ""%string).
  - simpl. constructor; [intros []|constructor].
  - left. reflexivity.
  - left. reflexivity.
  - reflexivity.
  - reflexivity.
Defined.

(** *** Further properties of the model *)

(** X1.  The colour [available_slots_display] gives to [format_html]:
    green above 10, orange from 1 to 10, red at 0 and below; the number
    shown is the plain difference of the two counters. *)
Theorem available_slots_display_colour :
  forall obj,
    exists color,
      available_slots_display obj
      = Span color (Z.of_N (CourseOffering.max_slots obj)
                    - Z.of_N (CourseOffering.enrolled_count obj))
      /\ (color = "green"%string
          <-> 10 < CourseOffering.available_slots obj)
      /\ (color = "orange"%string
          <-> 0 < CourseOffering.available_slots obj <= 10)
      /\ (color = "red"%string <-> CourseOffering.available_slots obj <= 0).
Proof.
  intro obj. unfold available_slots_display.
  destruct (CourseOffering.available_slots obj >? 10) eqn:E1;
    [|destruct (CourseOffering.available_slots obj >? 0) eqn:E2];
    eexists; (split; [reflexivity|]);
    rewrite ?Z.gtb_ltb, ?Z.ltb_lt, ?Z.ltb_ge in *;
    repeat split; intros; try discriminate; try lia.
Qed.



Lemma next_id_above {A} (id : A -> pk) l x :
  In x l -> id x < next_id id l.
Proof.
  unfold next_id. induction l as [|a l IH]; [contradiction|].
  cbn [map fold_right]. intros [->|H]; [lia|]. specialize (IH H). lia.
Qed.

Lemma next_id_fresh {A} (id : A -> pk) l :
  ~ In (next_id id l) (map id l).
Proof.
  intro H. apply in_map_iff in H. destruct H as [x [E Hx]].
  apply (next_id_above id) in Hx. lia.
Qed.

Lemma NoDup_snoc {A} (l : list A) x :
  NoDup l -> ~ In x l -> NoDup (l ++ [x]).
Proof.
  induction l as [|a l IH]; simpl; intros ND Hx.
  - constructor; [intros []|constructor].
  - inversion ND as [|? ? Hni ND']; subst. constructor.
    + rewrite in_app_iff. simpl. intros [H|[H|[]]]; [tauto|].
      apply Hx. left. congruence.
    + apply IH; tauto.
Qed.

Lemma handle_keys_distinct st r :
  Enrollment_keys_distinct st -> Enrollment_keys_distinct (handle st r).
Proof.
  unfold Enrollment_keys_distinct. intro ND. destruct r; simpl.
  - unfold Enrollment_create.
    repeat match goal with |- context [if ?b then _ else _] => destruct b end;
      try exact ND.
    simpl. rewrite map_app. simpl.
    apply NoDup_snoc; [exact ND | apply next_id_fresh].
  - unfold Enrollment_save_status. destruct (existsb _ _); [|exact ND].
    simpl. rewrite map_map.
    erewrite map_ext; [exact ND|].
    intro e. simpl. destruct (Enrollment.id e =? enrollment); reflexivity.
Qed.

(** The keys generated for enrollments stay pairwise distinct: through
    every sequence of enrollment requests and status saves, and through
    the deletion of a course. *)
Theorem Enrollment_keys_stay_distinct :
  forall st,
    Enrollment_keys_distinct st ->
    (forall rs, Enrollment_keys_distinct (run rs st))
    /\ (forall id, Enrollment_keys_distinct (Course_delete st id)).
Proof.
  intros st ND. split.
  - intro rs. revert st ND.
    induction rs as [|r rs IH]; intros st ND; simpl; [exact ND|].
    apply IH. now apply handle_keys_distinct.
  - intro id. unfold Enrollment_keys_distinct. simpl.
    now apply NoDup_map_filter.
Qed.

(** In the scenario the three enrollments get distinct keys. *)
Lemma Enrollment_keys_stay_distinct_scenario :
  Enrollment_keys_distinct
    (run [Enroll 0 1 1 PENDING; Enroll 0 2 1 PENDING; Enroll 0 3 1 PENDING]
       scenario0).
Proof.
  apply (proj1 (Enrollment_keys_stay_distinct scenario0 (NoDup_nil pk))).
Defined.

Lemma AssessmentScore_create_unique st now a e score remarks :
  AssessmentScore_unique st ->
  AssessmentScore_unique
    (snd (AssessmentScore_create st now a e score remarks)).
Proof.
  intros U. unfold AssessmentScore_create.
  destruct (existsb (AssessmentScore_with a e) (assessment_scores st)) eqn:E;
    [exact U|].
  destruct (negb _); [exact U|]. destruct (negb _); [exact U|].
  intros a' e'. simpl. rewrite filter_app, length_app. simpl.
  destruct (AssessmentScore_with a' e' _) eqn:W; simpl.
  - unfold AssessmentScore_with in W. simpl in W.
    apply andb_true_iff in W. rewrite !Z.eqb_eq in W. destruct W; subst.
    rewrite (existsb_false_filter _ _ E). simpl. lia.
  - specialize (U a' e'). lia.
Qed.

(** X3.  For every (assessment, enrollment) pair at most one score exists:
    creating a score keeps the property, and a second score for a pair is
    refused as a uniqueness violation that names the pair and leaves the
    store unchanged. *)
Theorem AssessmentScore_pair_unique :
  forall st now a e score remarks,
    AssessmentScore_unique st ->
    AssessmentScore_unique
      (snd (AssessmentScore_create st now a e score remarks))
    /\ (forall s,
           In s (assessment_scores st) ->
           AssessmentScore.assessment s = a ->
           AssessmentScore.enrollment s = e ->
           AssessmentScore_create st now a e score remarks
           = (Rejected
                (UniqueViolation "AssessmentScore"
                   [("assessment"%string, a); ("enrollment"%string, e)]),
              st)).
Proof.
  intros st now a e score remarks U.
  split; [now apply AssessmentScore_create_unique|].
  intros s Hin Ha He. unfold AssessmentScore_create.
  replace (existsb (AssessmentScore_with a e) (assessment_scores st))
    with true; [reflexivity|].
  symmetry. apply existsb_exists. exists s. split; [exact Hin|].
  unfold AssessmentScore_with. rewrite Ha, He, !Z.eqb_refl. reflexivity.
Qed.

(** X3, for a second score of student A on the assessment of
    [taught_course]. *)
Lemma AssessmentScore_pair_unique_taught :
  AssessmentScore_create taught_course 0 1 1 (inject_Z 45) ""
  = (Rejected
       (UniqueViolation "AssessmentScore"
          [("assessment"%string, 1); ("enrollment"%string, 1)]),
     taught_course).
Proof.
  refine (proj2 (AssessmentScore_pair_unique taught_course 0 1 1
                   (inject_Z 45) ""%string _)
            (score_row 1 1 1 (inject_Z 40)) (or_introl eq_refl) eq_refl
            eq_refl).
  intros a e. simpl. destruct (AssessmentScore_with a e _); simpl; lia.
Defined.



(** *** The decimal context on sample quotients *)

Example Decimal_round_third :
  Decimal_round (1 # 3) = 0.3333333333333333333333333333%Q.
Proof. reflexivity. Qed.

Example Decimal_round_two_thirds :
  Decimal_round (2 # 3) = 0.6666666666666666666666666667%Q.
Proof. reflexivity. Qed.

Example Decimal_round_thousands :
  Decimal_round (20000 # 3) = 6666.666666666666666666666667%Q.
Proof. reflexivity. Qed.

Example Decimal_truediv_exact :
  Decimal_truediv (inject_Z 40) (inject_Z 50) = inr (4 # 5).
Proof. reflexivity. Qed.

Example Decimal_truediv_zero :
  Decimal_truediv (inject_Z 40) (inject_Z 0) = inl DivisionByZero
  /\ Decimal_truediv (inject_Z 0) (inject_Z 0) = inl InvalidOperation.
Proof. split; reflexivity. Qed.

(** *** Referential integrity *)

Lemma refs_b_sound {A B} (fk : A -> pk) src (id : B -> pk) tgt :
  refs_b fk src id tgt = true -> refs fk src id tgt.
Proof.
  unfold refs_b, refs. rewrite forallb_forall. intros H a Ha.
  apply mem_In. now apply H.
Qed.

Lemma refs_opt_b_sound {A B} (fk : A -> option pk) src (id : B -> pk) tgt :
  refs_opt_b fk src id tgt = true -> refs_opt fk src id tgt.
Proof.
  unfold refs_opt_b, refs_opt. rewrite forallb_forall. intros H a k Ha E.
  specialize (H a Ha). rewrite E in H. now apply mem_In.
Qed.

Lemma referential_integrity_b_sound st :
  referential_integrity_b st = true -> referential_integrity st.
Proof.
  unfold referential_integrity_b. rewrite !andb_true_iff.
  intro H. decompose [and] H.
  constructor;
    first [ apply refs_b_sound; assumption
          | apply refs_opt_b_sound; assumption ].
Qed.

Lemma refs_filter_src {A B} (fk : A -> pk) src (id : B -> pk) tgt P :
  refs fk src id tgt -> refs fk (filter P src) id tgt.
Proof.
  intros H a Ha. apply filter_In in Ha. apply H. tauto.
Qed.

Lemma refs_opt_filter_src {A B} (fk : A -> option pk) src (id : B -> pk)
  tgt P :
  refs_opt fk src id tgt -> refs_opt fk (filter P src) id tgt.
Proof.
  intros H a k Ha. apply filter_In in Ha. apply H. tauto.
Qed.

Lemma refs_map_src {A B} (fk : A -> pk) src (id : B -> pk) tgt g :
  (forall a, fk (g a) = fk a) ->
  refs fk src id tgt -> refs fk (map g src) id tgt.
Proof.
  intros E H a Ha. apply in_map_iff in Ha. destruct Ha as [x [<- Hx]].
  rewrite E. now apply H.
Qed.

Lemma refs_opt_map_src {A B} (fk : A -> option pk) src (id : B -> pk) tgt g :
  (forall a, fk (g a) = fk a) ->
  refs_opt fk src id tgt -> refs_opt fk (map g src) id tgt.
Proof.
  intros E H a k Ha. apply in_map_iff in Ha. destruct Ha as [x [<- Hx]].
  rewrite E. now apply H.
Qed.

Lemma refs_map_tgt {A B} (fk : A -> pk) src (id : B -> pk) tgt g :
  (forall b, id (g b) = id b) ->
  refs fk src id tgt -> refs fk src id (map g tgt).
Proof.
  intros E H a Ha. rewrite map_map.
  rewrite (map_ext _ id) by exact E. now apply H.
Qed.

Lemma refs_opt_map_tgt {A B} (fk : A -> option pk) src (id : B -> pk) tgt g :
  (forall b, id (g b) = id b) ->
  refs_opt fk src id tgt -> refs_opt fk src id (map g tgt).
Proof.
  intros E H a k Ha Hk. rewrite map_map.
  rewrite (map_ext _ id) by exact E. now apply (H a).
Qed.

(** The rows that are kept point at rows that are kept. *)
Lemma refs_filter {A B} (fk : A -> pk) src (id : B -> pk) tgt P q :
  (forall a, In a src -> P a = true -> q (fk a) = true) ->
  refs fk src id tgt ->
  refs fk (filter P src) id (filter (fun b => q (id b)) tgt).
Proof.
  intros K H a Ha. apply filter_In in Ha. destruct Ha as [Ha Pa].
  specialize (H a Ha). apply in_map_iff in H. destruct H as [b [E Hb]].
  apply in_map_iff. exists b. split; [exact E|].
  apply filter_In. split; [exact Hb|]. rewrite E. now apply K.
Qed.

Lemma refs_tgt_filter {A B} (fk : A -> pk) src (id : B -> pk) tgt q :
  (forall a, In a src -> q (fk a) = true) ->
  refs fk src id tgt ->
  refs fk src id (filter (fun b => q (id b)) tgt).
Proof.
  intros K H a Ha.
  specialize (H a Ha). apply in_map_iff in H. destruct H as [b [E Hb]].
  apply in_map_iff. exists b. split; [exact E|].
  apply filter_In. split; [exact Hb|]. rewrite E. now apply K.
Qed.

(** A cleared key points nowhere; the other keys point at rows that are
    kept. *)
Lemma refs_opt_clear_in {A B} (fk : A -> option pk) set src (id : B -> pk)
  tgt ids :
  (forall v a, fk (set v a) = v) ->
  refs_opt fk src id tgt ->
  refs_opt fk (map (clear_in fk set ids) src) id
    (filter (fun b => negb (mem (id b) ids)) tgt).
Proof.
  intros S H a k Ha Hk. apply in_map_iff in Ha. destruct Ha as [x [<- Hx]].
  unfold clear_in in Hk. destruct (fk x) as [j|] eqn:E.
  - destruct (mem j ids) eqn:M.
    + rewrite S in Hk. discriminate.
    + rewrite E in Hk. inversion Hk; subst j.
      specialize (H x k Hx E). apply in_map_iff in H.
      destruct H as [b [Eb Hb]]. apply in_map_iff. exists b.
      split; [exact Eb|]. apply filter_In. split; [exact Hb|].
      rewrite Eb, M. reflexivity.
  - rewrite E in Hk. discriminate.
Qed.

Lemma refs_opt_clear {A B} (fk : A -> option pk) set src (id : B -> pk)
  tgt k0 :
  (forall v a, fk (set v a) = v) ->
  refs_opt fk src id tgt ->
  refs_opt fk (map (clear fk set k0) src) id
    (filter (fun b => negb (id b =? k0)) tgt).
Proof.
  intros S H a k Ha Hk. apply in_map_iff in Ha. destruct Ha as [x [<- Hx]].
  unfold clear, refers in Hk. destruct (fk x) as [j|] eqn:E.
  - destruct (j =? k0) eqn:M.
    + rewrite S in Hk. discriminate.
    + rewrite E in Hk. inversion Hk; subst j.
      specialize (H x k Hx E). apply in_map_iff in H.
      destruct H as [b [Eb Hb]]. apply in_map_iff. exists b.
      split; [exact Eb|]. apply filter_In. split; [exact Hb|].
      rewrite Eb, M. reflexivity.
  - rewrite E in Hk. discriminate.
Qed.

Lemma clear_in_same {A B} (get : A -> option pk) (f : A -> B) set ids :
  (forall v a, f (set v a) = f a) ->
  forall a, f (clear_in get set ids a) = f a.
Proof.
  intros S a. unfold clear_in. destruct (get a) as [k|]; [|reflexivity].
  destruct (mem k ids); [apply S|reflexivity].
Qed.

Lemma clear_same {A B} (get : A -> option pk) (f : A -> B) set k :
  (forall v a, f (set v a) = f a) ->
  forall a, f (clear get set k a) = f a.
Proof.
  intros S a. unfold clear. destruct (refers (get a) k); [apply S|reflexivity].
Qed.

Lemma In_ids_filter {A} (id : A -> pk) P l a :
  In a l -> P a = true -> In (id a) (map id (filter P l)).
Proof.
  intros Ha Pa. apply in_map. apply filter_In. tauto.
Qed.

(** A row whose key is not among the keys of the rows chosen by [P] is
    not chosen by [P]. *)
Lemma kept_not_chosen {A} (id : A -> pk) P l a :
  In a l -> negb (mem (id a) (map id (filter P l))) = true -> P a = false.
Proof.
  intros Ha H. apply not_mem_In in H. destruct (P a) eqn:E; [|reflexivity].
  exfalso. apply H. now apply In_ids_filter.
Qed.

Ltac ri_easy :=
  first [ assumption
        | apply refs_filter_src; assumption
        | apply refs_opt_filter_src; assumption ].

(** [ri_kept q]: the source and the target are filtered on the same keys. *)
Ltac ri_kept q :=
  apply (refs_filter _ _ _ _ _ q);
  [ intros ? ? E; exact E | ri_easy ].

Lemma delete_enrollments_ri ids st :
  referential_integrity st ->
  referential_integrity (delete_enrollments ids st).
Proof.
  intros []. constructor; simpl; try ri_easy;
    ri_kept (fun k => negb (mem k ids)).
Qed.

Lemma delete_assessments_ri ids st :
  referential_integrity st ->
  referential_integrity (delete_assessments ids st).
Proof.
  intros []. constructor; simpl; try ri_easy;
    ri_kept (fun k => negb (mem k ids)).
Qed.

Lemma delete_course_offerings_ri ids st :
  referential_integrity st ->
  referential_integrity (delete_course_offerings ids st).
Proof.
  intros []. constructor; simpl; try ri_easy.
  - ri_kept (fun k => negb (mem k ids)).
  - apply (refs_filter _ _ _ _ _ (fun k => negb (mem k ids)));
      [|assumption].
    intros e He K. apply (kept_not_chosen Enrollment.id) in K; [|exact He].
    simpl in K. now rewrite K.
  - ri_kept (fun k => negb (mem k (enrollments_of_offerings st ids))).
  - apply (refs_filter _ _ _ _ _ (fun k => negb (mem k ids)));
      [|assumption].
    intros a Ha K. apply (kept_not_chosen Assessment.id) in K; [|exact Ha].
    simpl in K. now rewrite K.
  - ri_kept (fun k => negb (mem k (assessments_of_offerings st ids))).
  - apply refs_filter_src.
    ri_kept (fun k => negb (mem k (enrollments_of_offerings st ids))).
  - ri_kept (fun k => negb (mem k (enrollments_of_offerings st ids))).
Qed.

Lemma Course_delete_ri st id :
  referential_integrity st -> referential_integrity (Course_delete st id).
Proof.
  intro H.
  destruct (delete_course_offerings_ri (offerings_of_course st id) st H).
  destruct H.
  constructor; try assumption.
  - apply refs_opt_filter_src. assumption.
  - change (refs CoursePrerequisite.from_course
              (filter (fun l => negb ((CoursePrerequisite.from_course l =? id)
                                    || (CoursePrerequisite.to_course l =? id)))
                 (course_prerequisites st))
              Course.id
              (filter (fun c => negb (Course.id c =? id)) (courses st))).
    apply (refs_filter _ _ _ _ _ (fun k => negb (k =? id)));
      [|assumption].
    intros l _ K. apply negb_true_iff, orb_false_iff in K.
    destruct K as [K _]. now rewrite K.
  - change (refs CoursePrerequisite.to_course
              (filter (fun l => negb ((CoursePrerequisite.from_course l =? id)
                                    || (CoursePrerequisite.to_course l =? id)))
                 (course_prerequisites st))
              Course.id
              (filter (fun c => negb (Course.id c =? id)) (courses st))).
    apply (refs_filter _ _ _ _ _ (fun k => negb (k =? id)));
      [|assumption].
    intros l _ K. apply negb_true_iff, orb_false_iff in K.
    destruct K as [_ K]. now rewrite K.
  - change (refs CourseOffering.course
              (filter (fun o => negb (mem (CourseOffering.id o)
                                        (offerings_of_course st id)))
                 (course_offerings st))
              Course.id
              (filter (fun c => negb (Course.id c =? id)) (courses st))).
    apply (refs_filter _ _ _ _ _ (fun k => negb (k =? id)));
      [|assumption].
    intros o Ho K. apply (kept_not_chosen CourseOffering.id) in K;
      [|exact Ho].
    simpl in K. now rewrite K.
Qed.

Lemma delete_semesters_ri ids st :
  referential_integrity st -> referential_integrity (delete_semesters ids st).
Proof.
  intro H.
  destruct (delete_course_offerings_ri (offerings_of_semesters st ids) st H).
  destruct H.
  constructor; try assumption.
  - apply refs_filter_src. assumption.
  - change (refs CourseOffering.semester
              (filter (fun o => negb (mem (CourseOffering.id o)
                                        (offerings_of_semesters st ids)))
                 (course_offerings st))
              Semester.id
              (filter (fun s => negb (mem (Semester.id s) ids))
                 (semesters st))).
    apply (refs_filter _ _ _ _ _ (fun k => negb (mem k ids)));
      [|assumption].
    intros o Ho K. apply (kept_not_chosen CourseOffering.id) in K;
      [|exact Ho].
    simpl in K. now rewrite K.
Qed.

Lemma AcademicYear_delete_ri st id :
  referential_integrity st ->
  referential_integrity (AcademicYear_delete st id).
Proof.
  intro H.
  destruct (delete_semesters_ri (semesters_of_year st id) st H).
  destruct H.
  constructor; try assumption.
  change (refs Semester.academic_year
            (filter (fun s => negb (mem (Semester.id s)
                                      (semesters_of_year st id)))
               (semesters st))
            AcademicYear.id
            (filter (fun y => negb (AcademicYear.id y =? id))
               (academic_years st))).
  apply (refs_filter _ _ _ _ _ (fun k => negb (k =? id))); [|assumption].
  intros s Hs K. apply (kept_not_chosen Semester.id) in K; [|exact Hs].
  simpl in K. now rewrite K.
Qed.

Lemma delete_students_ri ids st :
  referential_integrity st -> referential_integrity (delete_students ids st).
Proof.
  intro H.
  destruct (delete_enrollments_ri (enrollments_of_students st ids) st H).
  destruct H.
  constructor; try assumption.
  - apply refs_opt_filter_src. assumption.
  - change (refs Enrollment.student
              (filter (fun e => negb (mem (Enrollment.id e)
                                        (enrollments_of_students st ids)))
                 (enrollments st))
              Student.id
              (filter (fun s => negb (mem (Student.id s) ids)) (students st))).
    apply (refs_filter _ _ _ _ _ (fun k => negb (mem k ids)));
      [|assumption].
    intros e He K. apply (kept_not_chosen Enrollment.id) in K; [|exact He].
    simpl in K. now rewrite K.
  - simpl. ri_kept (fun k => negb (mem k ids)).
  - simpl. apply refs_filter_src. assumption.
  - simpl. ri_kept (fun k => negb (mem k ids)).
  - simpl. ri_kept (fun k => negb (mem k ids)).
Qed.

Lemma delete_faculty_ri ids st :
  referential_integrity st -> referential_integrity (delete_faculty ids st).
Proof.
  intros []. constructor; simpl; try ri_easy.
  - apply refs_opt_clear_in; [reflexivity | assumption].
  - apply refs_opt_filter_src. apply refs_opt_map_tgt; [|assumption].
    apply clear_in_same. reflexivity.
  - apply refs_opt_map_tgt; [|assumption]. apply clear_in_same. reflexivity.
  - apply refs_map_tgt; [|assumption]. apply clear_in_same. reflexivity.
  - apply refs_opt_map_tgt; [|assumption]. apply clear_in_same. reflexivity.
  - apply refs_map_src; [|assumption]. apply clear_in_same. reflexivity.
  - apply refs_map_src; [|assumption]. apply clear_in_same. reflexivity.
  - apply refs_opt_clear_in; [reflexivity | assumption].
  - apply refs_map_tgt; [|assumption]. apply clear_in_same. reflexivity.
  - apply refs_map_tgt; [|assumption]. apply clear_in_same. reflexivity.
  - apply refs_opt_map_tgt; [|assumption]. apply clear_in_same. reflexivity.
  - apply refs_map_tgt; [|assumption]. apply clear_in_same. reflexivity.
  - apply refs_opt_map_tgt; [|assumption]. apply clear_in_same. reflexivity.
Qed.

Ltac ri_same :=
  first [ apply clear_same | apply clear_in_same ]; reflexivity.

(** Tables that are filtered on the source side, or rewritten without a
    change of the keys involved, or whose cleared keys point nowhere. *)
Ltac ri_solve :=
  first
    [ assumption
    | apply refs_filter_src; ri_solve
    | apply refs_opt_filter_src; ri_solve
    | apply refs_map_tgt; [ ri_same | ri_solve ]
    | apply refs_opt_map_tgt; [ ri_same | ri_solve ]
    | apply refs_map_src; [ ri_same | ri_solve ]
    | apply refs_opt_map_src; [ ri_same | ri_solve ]
    | apply refs_opt_clear; [ reflexivity | assumption ]
    | apply refs_opt_clear_in; [ reflexivity | assumption ] ].

Lemma Department_delete_ri st id :
  referential_integrity st ->
  referential_integrity (Department_delete st id).
Proof.
  intros []. constructor; simpl; try ri_solve.
  apply (refs_filter _ _ _ _ _ (fun k => negb (k =? id)));
    [intros ? ? E; exact E | assumption].
Qed.

Lemma Event_delete_ri st id :
  referential_integrity st -> referential_integrity (Event_delete st id).
Proof.
  intros []. constructor; simpl; try ri_easy.
  apply (refs_filter _ _ _ _ _ (fun k => negb (k =? id)));
    [intros ? ? E; exact E | assumption].
Qed.

Lemma User_delete_ri st u :
  referential_integrity st -> referential_integrity (User_delete st u).
Proof.
  intro H.
  apply (delete_faculty_ri (faculty_of_user st u)) in H.
  apply (delete_students_ri
           (students_of_user (delete_faculty (faculty_of_user st u) st) u))
    in H.
  destruct H. constructor; try assumption.
  all: match goal with
       | |- refs _ (?t (User_delete _ _)) _ (?t' (User_delete _ _)) =>
           unfold User_delete; cbn [t t']
       | |- refs_opt _ (?t (User_delete _ _)) _ (?t' (User_delete _ _)) =>
           unfold User_delete; cbn [t t']
       end; ri_solve.
Qed.

Lemma refs_app_src {A B} (fk : A -> pk) src (id : B -> pk) tgt a :
  refs fk src id tgt -> In (fk a) (map id tgt) -> refs fk (src ++ [a]) id tgt.
Proof.
  intros H Ha x Hx. apply in_app_iff in Hx. destruct Hx as [Hx|[<-|[]]]; auto.
Qed.

Lemma refs_app_tgt {A B} (fk : A -> pk) src (id : B -> pk) tgt b :
  refs fk src id tgt -> refs fk src id (tgt ++ [b]).
Proof.
  intros H x Hx. rewrite map_app, in_app_iff. left. now apply H.
Qed.

Lemma existsb_id_In {A} (id : A -> pk) k l :
  existsb (fun a => id a =? k) l = true -> In k (map id l).
Proof.
  intro H. apply existsb_exists in H. destruct H as [a [Ha E]].
  apply Z.eqb_eq in E. subst k. now apply in_map.
Qed.

Lemma Enrollment_create_ri st today s o status dd :
  referential_integrity st ->
  referential_integrity (snd (Enrollment_create st today s o status dd)).
Proof.
  intro H. unfold Enrollment_create.
  destruct (existsb (Enrollment_with s o) (enrollments st)); [exact H|].
  destruct (existsb (fun x => Student.id x =? s) (students st)) eqn:Es;
    [|exact H].
  destruct (existsb (fun x => CourseOffering.id x =? o) (course_offerings st))
    eqn:Eo; [|exact H].
  destruct H. constructor; simpl; try assumption.
  - apply refs_app_src; [assumption|]. now apply existsb_id_In.
  - apply refs_app_src; [assumption|]. now apply existsb_id_In.
  - now apply refs_app_tgt.
  - now apply refs_app_tgt.
  - now apply refs_app_tgt.
Qed.

Lemma Enrollment_save_status_ri st id status :
  referential_integrity st ->
  referential_integrity (snd (Enrollment_save_status st id status)).
Proof.
  intro H. unfold Enrollment_save_status.
  destruct (existsb _ _); [|exact H].
  destruct H. constructor; simpl; try assumption.
  - apply refs_map_src; [|assumption].
    intro e. destruct (Enrollment.id e =? id); reflexivity.
  - apply refs_map_src; [|assumption].
    intro e. destruct (Enrollment.id e =? id); reflexivity.
  - apply refs_map_tgt; [|assumption].
    intro e. destruct (Enrollment.id e =? id); reflexivity.
  - apply refs_map_tgt; [|assumption].
    intro e. destruct (Enrollment.id e =? id); reflexivity.
  - apply refs_map_tgt; [|assumption].
    intro e. destruct (Enrollment.id e =? id); reflexivity.
Qed.

Lemma AssessmentScore_create_ri st now a e score remarks :
  referential_integrity st ->
  referential_integrity
    (snd (AssessmentScore_create st now a e score remarks)).
Proof.
  intro H. unfold AssessmentScore_create.
  destruct (existsb (AssessmentScore_with a e) (assessment_scores st));
    [exact H|].
  destruct (existsb (fun x => Assessment.id x =? a) (assessments st)) eqn:Ea;
    [|exact H].
  destruct (existsb (fun x => Enrollment.id x =? e) (enrollments st)) eqn:Ee;
    [|exact H].
  destruct H. constructor; simpl; try assumption.
  - apply refs_app_src; [assumption|]. now apply existsb_id_In.
  - apply refs_app_src; [assumption|]. now apply existsb_id_In.
Qed.

Lemma run_ri rs : forall st,
  referential_integrity st -> referential_integrity (run rs st).
Proof.
  induction rs as [|r rs IH]; intros st H; simpl; [exact H|].
  apply IH. destruct r; simpl.
  - now apply Enrollment_create_ri.
  - now apply Enrollment_save_status_ri.
Qed.

Lemma Enrollment_create_missing st today s o status dd :
  existsb (Enrollment_with s o) (enrollments st) = false ->
  (~ In s (map Student.id (students st)) ->
   Enrollment_create st today s o status dd
   = (Rejected (ForeignKeyViolation "Enrollment" "student" s), st))
  /\ (In s (map Student.id (students st)) ->
      ~ In o (map CourseOffering.id (course_offerings st)) ->
      Enrollment_create st today s o status dd
      = (Rejected (ForeignKeyViolation "Enrollment" "course_offering" o), st)).
Proof.
  intro E. unfold Enrollment_create. rewrite E. split.
  - intro H.
    destruct (existsb (fun x => Student.id x =? s) (students st)) eqn:Es;
      [|reflexivity].
    exfalso. apply H. now apply existsb_id_In.
  - intros Hs Ho.
    replace (existsb (fun x => Student.id x =? s) (students st)) with true.
    + destruct (existsb (fun x => CourseOffering.id x =? o)
                  (course_offerings st)) eqn:Eo; [|reflexivity].
      exfalso. apply Ho. now apply existsb_id_In.
    + symmetry. apply in_map_iff in Hs. destruct Hs as [x [<- Hx]].
      now apply In_existsb_id.
Qed.



(** X6.  No deletion leaves a dangling key: after the deletion of a course,
    an offering, an enrollment, an assessment, a semester, an academic
    year, a student, a faculty member, a department, an event or a user,
    every key of every remaining row names a remaining row. *)
Theorem deletions_keep_referential_integrity :
  forall st,
    referential_integrity st ->
    (forall id, referential_integrity (Course_delete st id))
    /\ (forall id, referential_integrity (CourseOffering_delete st id))
    /\ (forall id, referential_integrity (Enrollment_delete st id))
    /\ (forall id, referential_integrity (Assessment_delete st id))
    /\ (forall id, referential_integrity (Semester_delete st id))
    /\ (forall id, referential_integrity (AcademicYear_delete st id))
    /\ (forall id, referential_integrity (Student_delete st id))
    /\ (forall id, referential_integrity (Faculty_delete st id))
    /\ (forall id, referential_integrity (Department_delete st id))
    /\ (forall id, referential_integrity (Event_delete st id))
    /\ (forall u, referential_integrity (User_delete st u)).
Proof.
  intros st H. repeat match goal with |- _ /\ _ => split end; intro id.
  - now apply Course_delete_ri.
  - now apply delete_course_offerings_ri.
  - now apply delete_enrollments_ri.
  - now apply delete_assessments_ri.
  - now apply delete_semesters_ri.
  - now apply AcademicYear_delete_ri.
  - now apply delete_students_ri.
  - now apply delete_faculty_ri.
  - now apply Department_delete_ri.
  - now apply Event_delete_ri.
  - now apply User_delete_ri.
Qed.

(** X6, on the campus: the deletion of student A. *)
Lemma deletions_keep_referential_integrity_campus :
  referential_integrity (Student_delete campus 1).
Proof.
  apply (proj1 (proj2 (proj2 (proj2 (proj2 (proj2 (proj2
           (deletions_keep_referential_integrity campus
              (referential_integrity_b_sound campus eq_refl))))))))).
Defined.

(** *** What the other deletions delete *)

(** Reading a table of a store that an operation has built. *)
Ltac tables :=
  cbn [academic_years semesters departments faculty students programs
       courses course_prerequisites course_offerings schedules enrollments
       grades announcements assessments assessment_scores document_requests
       events event_registrations notifications feedbacks
       course_evaluations
       delete_enrollments delete_assessments delete_course_offerings
       delete_semesters delete_students delete_faculty
       Enrollment_delete Assessment_delete CourseOffering_delete
       Course_delete Semester_delete AcademicYear_delete Student_delete
       Faculty_delete Department_delete Event_delete User_delete].

Lemma mem_singleton k j : mem k [j] = (k =? j).
Proof. unfold mem. simpl. apply orb_false_r. Qed.

Lemma clear_in_singleton {A} (get : A -> option pk) set k r :
  clear_in get set [k] r = clear get set k r.
Proof.
  unfold clear_in, clear, refers. destruct (get r) as [j|]; [|reflexivity].
  rewrite mem_singleton. reflexivity.
Qed.

Lemma enrollments_of_students_In st s e :
  In e (enrollments_of_students st [s]) <-> enrollment_of_student st s e.
Proof.
  unfold enrollments_of_students, enrollment_of_student. rewrite in_map_iff.
  split; intros [r H]; exists r;
    rewrite filter_In, mem_singleton, Z.eqb_eq in *; tauto.
Qed.

Lemma not_mem_singleton k j : negb (mem k [j]) = true <-> k <> j.
Proof. rewrite mem_singleton, negb_true_iff. apply Z.eqb_neq. Qed.

(** With distinct keys, the rows whose key is none of the keys of the rows
    chosen by [P] are the rows [P] does not choose. *)
Lemma kept_iff_not_chosen {A} (id : A -> pk) P l a :
  NoDup (map id l) -> In a l ->
  (~ In (id a) (map id (filter P l)) <-> P a = false).
Proof.
  intros ND Ha. split.
  - intro H. destruct (P a) eqn:E; [|reflexivity].
    exfalso. apply H. now apply In_ids_filter.
  - intros E H. apply in_map_iff in H. destruct H as [b [Eb Hb]].
    apply filter_In in Hb. destruct Hb as [Hb Pb].
    assert (b = a); [|congruence].
    clear E Pb. induction l as [|x l IH]; [contradiction|].
    simpl in ND. inversion ND as [|? ? Hni ND']; subst.
    destruct Ha as [->|Ha], Hb as [->|Hb]; auto.
    + exfalso. apply Hni. rewrite <- Eb. now apply in_map.
    + exfalso. apply Hni. rewrite Eb. now apply in_map.
Qed.

(** X7.  Deleting a student deletes the student, the student's
    enrollments, document requests, event registrations and feedback, and
    the grades, assessment scores and course evaluations of those
    enrollments; every other row is kept, and the offerings, their
    counters included, are left as they are. *)
Theorem Student_delete_cascade :
  forall st s,
    (forall x, In x (students (Student_delete st s))
               <-> In x (students st) /\ Student.id x <> s)
    /\ (forall e, In e (enrollments (Student_delete st s))
                  <-> In e (enrollments st)
                      /\ ~ enrollment_of_student st s (Enrollment.id e))
    /\ (forall g, In g (grades (Student_delete st s))
                  <-> In g (grades st)
                      /\ ~ enrollment_of_student st s (Grade.enrollment g))
    /\ (forall a, In a (assessment_scores (Student_delete st s))
                  <-> In a (assessment_scores st)
                      /\ ~ enrollment_of_student st s
                           (AssessmentScore.enrollment a))
    /\ (forall v, In v (course_evaluations (Student_delete st s))
                  <-> In v (course_evaluations st)
                      /\ ~ enrollment_of_student st s
                           (CourseEvaluation.enrollment v))
    /\ (forall r, In r (document_requests (Student_delete st s))
                  <-> In r (document_requests st)
                      /\ DocumentRequest.student r <> s)
    /\ (forall r, In r (event_registrations (Student_delete st s))
                  <-> In r (event_registrations st)
                      /\ EventRegistration.student r <> s)
    /\ (forall f, In f (feedbacks (Student_delete st s))
                  <-> In f (feedbacks st) /\ Feedback.student f <> s)
    /\ student_free_tables_kept st (Student_delete st s)
    /\ (Enrollment_keys_distinct st ->
        forall e, In e (enrollments (Student_delete st s))
                  <-> In e (enrollments st) /\ Enrollment.student e <> s).
Proof.
  intros st s.
  repeat match goal with |- _ /\ _ => split end; tables.
  - intro x. rewrite filter_In, not_mem_singleton. tauto.
  - intro e.
    rewrite filter_In, not_mem_In, enrollments_of_students_In. tauto.
  - intro g.
    rewrite filter_In, not_mem_In, enrollments_of_students_In. tauto.
  - intro a.
    rewrite filter_In, not_mem_In, enrollments_of_students_In. tauto.
  - intro v.
    rewrite filter_In, not_mem_In, enrollments_of_students_In. tauto.
  - intro r. rewrite filter_In, not_mem_singleton. tauto.
  - intro r. rewrite filter_In, not_mem_singleton. tauto.
  - intro f. rewrite filter_In, not_mem_singleton. tauto.
  - repeat split.
  - intros ND e. rewrite filter_In, not_mem_In.
    split; intros [He H]; (split; [exact He|]).
    + apply (kept_iff_not_chosen Enrollment.id _ _ e ND He) in H.
      cbv beta in H. rewrite mem_singleton in H. now apply Z.eqb_neq.
    + apply (kept_iff_not_chosen Enrollment.id _ _ e ND He).
      cbv beta. rewrite mem_singleton. now apply Z.eqb_neq.
Qed.

(** X7, on the campus: student B's enrollment is kept when student A is
    deleted. *)
Lemma Student_delete_cascade_campus :
  In (Enrollment.mk 2 2 1 0 ENROLLED None)
    (enrollments (Student_delete campus 1)).
Proof.
  apply (proj2 (proj2 (proj2 (proj2 (proj2 (proj2 (proj2 (proj2 (proj2
           (Student_delete_cascade campus 1)))))))))).
  - simpl. repeat constructor; simpl; intuition discriminate.
  - split; [right; left; reflexivity | discriminate].
Defined.

(** X8.  Deleting a faculty member deletes that row and no other: the
    departments the member headed are kept with [head] null, the offerings
    the member taught are kept with [faculty] null and their other
    columns, the counters included, unchanged; afterwards no department
    and no offering names the member. *)
Theorem Faculty_delete_nullifies :
  forall st f,
    (forall x, In x (faculty (Faculty_delete st f))
               <-> In x (faculty st) /\ Faculty.id x <> f)
    /\ departments (Faculty_delete st f)
       = map (fun d => if refers (Department.head d) f
                       then Department_set_head None d else d)
           (departments st)
    /\ course_offerings (Faculty_delete st f)
       = map (fun o => if refers (CourseOffering.faculty o) f
                       then CourseOffering_set_faculty None o else o)
           (course_offerings st)
    /\ map Department.id (departments (Faculty_delete st f))
       = map Department.id (departments st)
    /\ capacity_columns (Faculty_delete st f) = capacity_columns st
    /\ (forall d, In d (departments (Faculty_delete st f)) ->
                  Department.head d <> Some f)
    /\ (forall o, In o (course_offerings (Faculty_delete st f)) ->
                  CourseOffering.faculty o <> Some f)
    /\ faculty_free_tables_kept st (Faculty_delete st f).
Proof.
  intros st f.
  assert (D : departments (Faculty_delete st f)
              = map (clear Department.head Department_set_head f)
                  (departments st)).
  { tables. apply map_ext. intro d. apply clear_in_singleton. }
  assert (O : course_offerings (Faculty_delete st f)
              = map (clear CourseOffering.faculty CourseOffering_set_faculty f)
                  (course_offerings st)).
  { tables. apply map_ext. intro o. apply clear_in_singleton. }
  repeat match goal with |- _ /\ _ => split end.
  - intro x. tables. rewrite filter_In, not_mem_singleton. tauto.
  - exact D.
  - exact O.
  - rewrite D, map_map. apply map_ext. intro d. now apply clear_same.
  - unfold capacity_columns. rewrite O, map_map. apply map_ext. intro o.
    unfold clear. destruct (refers _ _); reflexivity.
  - intros d Hd E. rewrite D in Hd. apply in_map_iff in Hd.
    destruct Hd as [x [<- Hx]]. unfold clear, refers in E.
    destruct (Department.head x) as [k|] eqn:Ek; [|congruence].
    destruct (k =? f) eqn:K; [discriminate|].
    rewrite Ek in E. inversion E; subst. rewrite Z.eqb_refl in K.
    discriminate.
  - intros o Ho E. rewrite O in Ho. apply in_map_iff in Ho.
    destruct Ho as [x [<- Hx]]. unfold clear, refers in E.
    destruct (CourseOffering.faculty x) as [k|] eqn:Ek; [|congruence].
    destruct (k =? f) eqn:K; [discriminate|].
    rewrite Ek in E. inversion E; subst. rewrite Z.eqb_refl in K.
    discriminate.
  - repeat split.
Qed.

(** X10.  Deleting an event deletes the event and its registrations, and
    nothing else: the students registered are kept. *)
Theorem Event_delete_cascade :
  forall st id,
    (forall e, In e (events (Event_delete st id))
               <-> In e (events st) /\ Event.id e <> id)
    /\ (forall r, In r (event_registrations (Event_delete st id))
                  <-> In r (event_registrations st)
                      /\ EventRegistration.event r <> id)
    /\ event_free_tables_kept st (Event_delete st id).
Proof.
  intros st id. split; [|split].
  - intro e. simpl. rewrite filter_In, negb_true_iff, Z.eqb_neq. tauto.
  - intro r. simpl. rewrite filter_In, negb_true_iff, Z.eqb_neq. tauto.
  - repeat split.
Qed.

Lemma semesters_of_year_In st y s :
  In s (semesters_of_year st y) <-> semester_of_year st y s.
Proof.
  unfold semesters_of_year, semester_of_year. rewrite in_map_iff.
  split; intros [r H]; exists r; rewrite filter_In, Z.eqb_eq in *; tauto.
Qed.

Lemma offerings_of_year_In st y o :
  In o (offerings_of_semesters st (semesters_of_year st y))
  <-> offering_in_year st y o.
Proof.
  unfold offerings_of_semesters, offering_in_year. rewrite in_map_iff.
  split; intros [r H]; exists r;
    rewrite filter_In, mem_In, semesters_of_year_In in *; tauto.
Qed.

Lemma enrollments_of_year_In st y e :
  In e (enrollments_of_offerings st
          (offerings_of_semesters st (semesters_of_year st y)))
  <-> enrollment_in_year st y e.
Proof.
  unfold enrollments_of_offerings, enrollment_in_year. rewrite in_map_iff.
  split; intros [r H]; exists r;
    rewrite filter_In, mem_In, offerings_of_year_In in *; tauto.
Qed.

Lemma assessments_of_year_In st y a :
  In a (assessments_of_offerings st
          (offerings_of_semesters st (semesters_of_year st y)))
  <-> assessment_in_year st y a.
Proof.
  unfold assessments_of_offerings, assessment_in_year. rewrite in_map_iff.
  split; intros [r H]; exists r;
    rewrite filter_In, mem_In, offerings_of_year_In in *; tauto.
Qed.

(** X9.  Deleting an academic year deletes the year, its semesters, the
    offerings of those semesters and everything that hangs on an offering
    (schedules, enrollments, assessments, grades, scores, evaluations);
    every other row of these tables is kept, and the catalog, the people
    and the departments are left as they are.  With distinct semester
    keys, the semesters kept are those of the other years. *)
Theorem AcademicYear_delete_cascade :
  forall st y,
    (forall x, In x (academic_years (AcademicYear_delete st y))
               <-> In x (academic_years st) /\ AcademicYear.id x <> y)
    /\ (forall s, In s (semesters (AcademicYear_delete st y))
                  <-> In s (semesters st)
                      /\ ~ semester_of_year st y (Semester.id s))
    /\ (forall o, In o (course_offerings (AcademicYear_delete st y))
                  <-> In o (course_offerings st)
                      /\ ~ offering_in_year st y (CourseOffering.id o))
    /\ (forall s, In s (schedules (AcademicYear_delete st y))
                  <-> In s (schedules st)
                      /\ ~ offering_in_year st y (Schedule.course_offering s))
    /\ (forall e, In e (enrollments (AcademicYear_delete st y))
                  <-> In e (enrollments st)
                      /\ ~ enrollment_in_year st y (Enrollment.id e))
    /\ (forall g, In g (grades (AcademicYear_delete st y))
                  <-> In g (grades st)
                      /\ ~ enrollment_in_year st y (Grade.enrollment g))
    /\ (forall a, In a (assessments (AcademicYear_delete st y))
                  <-> In a (assessments st)
                      /\ ~ assessment_in_year st y (Assessment.id a))
    /\ (forall s, In s (assessment_scores (AcademicYear_delete st y))
                  <-> In s (assessment_scores st)
                      /\ ~ enrollment_in_year st y
                           (AssessmentScore.enrollment s)
                      /\ ~ assessment_in_year st y
                           (AssessmentScore.assessment s))
    /\ (forall v, In v (course_evaluations (AcademicYear_delete st y))
                  <-> In v (course_evaluations st)
                      /\ ~ enrollment_in_year st y
                           (CourseEvaluation.enrollment v))
    /\ calendar_free_tables_kept st (AcademicYear_delete st y)
    /\ (NoDup (map Semester.id (semesters st)) ->
        forall s, In s (semesters (AcademicYear_delete st y))
                  <-> In s (semesters st) /\ Semester.academic_year s <> y).
Proof.
  intros st y.
  repeat match goal with |- _ /\ _ => split end; tables.
  - intro x. rewrite filter_In, negb_true_iff, Z.eqb_neq. tauto.
  - intro s. rewrite filter_In, not_mem_In, semesters_of_year_In. tauto.
  - intro o. rewrite filter_In, not_mem_In, offerings_of_year_In. tauto.
  - intro s. rewrite filter_In, not_mem_In, offerings_of_year_In. tauto.
  - intro e. rewrite filter_In, not_mem_In, enrollments_of_year_In. tauto.
  - intro g. rewrite filter_In, not_mem_In, enrollments_of_year_In. tauto.
  - intro a. rewrite filter_In, not_mem_In, assessments_of_year_In. tauto.
  - intro s.
    rewrite !filter_In, !not_mem_In, enrollments_of_year_In,
      assessments_of_year_In. tauto.
  - intro v. rewrite filter_In, not_mem_In, enrollments_of_year_In. tauto.
  - repeat split.
  - intros ND s. rewrite filter_In, not_mem_In.
    split; intros [Hs H]; (split; [exact Hs|]).
    + apply (kept_iff_not_chosen Semester.id _ _ s ND Hs) in H.
      cbv beta in H. now apply Z.eqb_neq.
    + apply (kept_iff_not_chosen Semester.id _ _ s ND Hs).
      cbv beta. now apply Z.eqb_neq.
Qed.

(** X9, on the campus: with its only year deleted, no semester is left. *)
Lemma AcademicYear_delete_cascade_campus :
  ~ In semester_1 (semesters (AcademicYear_delete campus 1)).
Proof.
  intro H.
  apply (proj2 (proj2 (proj2 (proj2 (proj2 (proj2 (proj2 (proj2 (proj2
           (proj2 (AcademicYear_delete_cascade campus 1))))))))))) in H.
  - destruct H as [_ H]. apply H. reflexivity.
  - simpl. repeat constructor. intros [].
Defined.


(** *** Deleting and the counters *)

Lemma filter_all {A} (P : A -> bool) l :
  (forall x, In x l -> P x = true) -> filter P l = l.
Proof.
  induction l as [|a l IH]; simpl; intro H; [reflexivity|].
  rewrite (H a (or_introl eq_refl)). f_equal. apply IH.
  intros x Hx. apply H. now right.
Qed.

Lemma remove_row_length {A} (id : A -> pk) (Q : A -> bool) l a :
  NoDup (map id l) -> In a l ->
  (List.length (filter Q (filter (fun x => negb (mem (id x) [id a])) l))
   + (if Q a then 1 else 0)
   = List.length (filter Q l))%nat.
Proof.
  induction l as [|x l IH]; simpl; intros ND Ha; [contradiction|].
  inversion ND as [|? ? Hni ND']; subst.
  destruct Ha as [->|Ha].
  - rewrite Z.eqb_refl. simpl.
    rewrite (filter_all (fun x => negb ((id x =? id a) || false))).
    + destruct (Q a); simpl; lia.
    + intros y Hy. rewrite orb_false_r. apply negb_true_iff, Z.eqb_neq.
      intro E. apply Hni. rewrite <- E. now apply in_map.
  - assert (N : (id x =? id a) = false).
    { apply Z.eqb_neq. intro E. apply Hni. rewrite E. now apply in_map. }
    rewrite N. simpl. specialize (IH ND' Ha). simpl in IH.
    destruct (Q x); simpl; lia.
Qed.

(** X13.  No deletion writes a counter.  Deleting an enrollment, an
    assessment, a student, a department or an event leaves every offering
    as it was, and deleting a faculty member or a user leaves max_slots
    and enrolled_count of every offering as they were; the deletion of a
    course, a semester or an academic year removes offerings and changes
    none.  So the deletion of an enrollment (with distinct keys) takes one
    enrollment away from its offering while enrolled_count stays. *)
Theorem deletions_keep_counters :
  forall st,
    (forall id,
       course_offerings (Enrollment_delete st id) = course_offerings st)
    /\ (forall id, course_offerings (Assessment_delete st id)
                   = course_offerings st)
    /\ (forall id, course_offerings (Student_delete st id)
                   = course_offerings st)
    /\ (forall id, course_offerings (Department_delete st id)
                   = course_offerings st)
    /\ (forall id, course_offerings (Event_delete st id) = course_offerings st)
    /\ (forall id, capacity_columns (Faculty_delete st id)
                   = capacity_columns st)
    /\ (forall u, capacity_columns (User_delete st u) = capacity_columns st)
    /\ (forall id o, In o (course_offerings (Course_delete st id)) ->
                     In o (course_offerings st))
    /\ (forall id o, In o (course_offerings (Semester_delete st id)) ->
                     In o (course_offerings st))
    /\ (forall id o, In o (course_offerings (AcademicYear_delete st id)) ->
                     In o (course_offerings st))
    /\ (forall e,
           Enrollment_keys_distinct st -> In e (enrollments st) ->
           (enrollment_count (Enrollment_delete st (Enrollment.id e))
              (Enrollment.course_offering e) + 1
            = enrollment_count st (Enrollment.course_offering e))%nat
           /\ capacity_columns (Enrollment_delete st (Enrollment.id e))
              = capacity_columns st).
Proof.
  intro st.
  assert (F : forall ids,
             capacity_columns (delete_faculty ids st) = capacity_columns st).
  { intro ids. unfold capacity_columns. tables.
    rewrite map_map. apply map_ext. intro o. unfold clear_in.
    destruct (CourseOffering.faculty o) as [k|]; [|reflexivity].
    destruct (mem k ids); reflexivity. }
  repeat match goal with |- _ /\ _ => split end; try reflexivity.
  - intro id. apply F.
  - intro u. apply (F (faculty_of_user st u)).
  - intros id o. tables. intro H. apply filter_In in H. tauto.
  - intros id o. tables. intro H. apply filter_In in H. tauto.
  - intros id o. tables. intro H. apply filter_In in H. tauto.
  - intros e ND He. split; [|reflexivity].
    unfold enrollment_count. tables.
    rewrite <- (remove_row_length Enrollment.id
                  (fun x => Enrollment.course_offering x
                            =? Enrollment.course_offering e)
                  (enrollments st) e ND He).
    rewrite Z.eqb_refl. reflexivity.
Qed.

(** X13, on the campus: with student A's enrollment in programming
    deleted, one enrollment is left in the offering, and its counter
    still says 2. *)
Lemma deletions_keep_counters_campus :
  (enrollment_count (Enrollment_delete campus 1%Z) 1%Z + 1
   = enrollment_count campus 1%Z)%nat
  /\ capacity_columns (Enrollment_delete campus 1) = capacity_columns campus.
Proof.
  apply (proj2 (proj2 (proj2 (proj2 (proj2 (proj2 (proj2 (proj2 (proj2
           (proj2 (deletions_keep_counters campus))))))))))
           (Enrollment.mk 1 1 1 0 ENROLLED None)).
  - unfold Enrollment_keys_distinct. simpl.
    repeat constructor; simpl; intuition discriminate.
  - left. reflexivity.
Defined.

(** *** Creating and deleting an enrollment *)

Lemma refs_below {A B} (fk : A -> pk) src (id : B -> pk) tgt :
  refs fk src id tgt ->
  forall a, In a src -> negb (mem (fk a) [next_id id tgt]) = true.
Proof.
  intros H a Ha. apply not_mem_singleton. intro E.
  apply (next_id_fresh id tgt). rewrite <- E. now apply H.
Qed.



(** *** Related objects *)

Lemma refs_find {A B} (fk : A -> pk) src (id : B -> pk) tgt a :
  refs fk src id tgt -> In a src ->
  exists b, find (fun x => id x =? fk a) tgt = Some b /\ In b tgt.
Proof.
  intros H Ha. specialize (H a Ha). apply in_map_iff in H.
  destruct H as [b [E Hb]].
  destruct (find (fun x => id x =? fk a) tgt) as [b'|] eqn:F.
  - exists b'. split; [reflexivity|]. apply find_some in F. tauto.
  - exfalso. apply (find_none _ _ F) in Hb. rewrite E, Z.eqb_refl in Hb.
    discriminate.
Qed.

(** Following one key of a row of a store whose keys all point at rows. *)
Ltac follow H a :=
  let b := fresh "r" in
  let F := fresh "F" in
  let I := fresh "I" in
  destruct (refs_find _ _ _ _ a H) as [b [F I]];
  [ assumption
  | first [ unfold find_enrollment, find_student, find_offering, find_course,
              find_semester, find_academic_year, find_event;
            rewrite F | rewrite F ];
    cbn [related bind] ].

Lemma Semester_str_ok st s :
  referential_integrity st -> In s (semesters st) ->
  exists y, In y (academic_years st)
            /\ Semester_str st s
               = inr (get_semester_type_display s ++ " - "
                      ++ AcademicYear.name y)%string.
Proof.
  intros [] Hs. unfold Semester_str.
  follow ri_semester_year0 s. eauto.
Qed.

Lemma CourseOffering_str_ok st o :
  referential_integrity st -> In o (course_offerings st) ->
  exists c sem, In c (courses st)
                /\ CourseOffering_str st o
                   = inr (Course.course_code c ++ " - "
                          ++ CourseOffering.section o ++ " (" ++ sem
                          ++ ")")%string.
Proof.
  intros R Ho. pose proof R as R'. destruct R'. unfold CourseOffering_str.
  follow ri_offering_course0 o. follow ri_offering_semester0 o.
  destruct (Semester_str_ok st r0 R I0) as [y [_ E]]. rewrite E.
  cbn [bind]. eauto.
Qed.





(** *** Choices *)

Lemma distinct_NoDup l : distinct l = true -> NoDup l.
Proof.
  induction l as [|x l IH]; simpl; intro H; [constructor|].
  apply andb_true_iff in H. destruct H as [Hx Hl].
  constructor; [|now apply IH].
  intro Hin. apply negb_true_iff in Hx.
  assert (E : existsb (String.eqb x) l = true).
  { apply existsb_exists. exists x. split; [exact Hin|apply String.eqb_refl]. }
  congruence.
Qed.

Lemma choice_field_ok_b_sound f :
  choice_field_ok_b f = true -> choice_field_ok f.
Proof.
  unfold choice_field_ok_b, choice_field_ok. rewrite !andb_true_iff.
  intros [[[H1 H2] H3] H4].
  split; [now apply distinct_NoDup|]. split; [now apply distinct_NoDup|].
  split.
  - intros v Hv. rewrite forallb_forall in H3.
    now apply Nat.leb_le, H3.
  - intros d E. rewrite E in H4. apply existsb_exists in H4.
    destruct H4 as [v [Hv Ev]]. apply String.eqb_eq in Ev. now subst.
Qed.

(** X16.  Every choice field of the models can store and show its
    choices: the stored values of a field are pairwise distinct and no
    longer than the column's max_length, its labels are pairwise
    distinct, and its default, when it has one, is one of its values; so
    the labels shown for a semester type, a day and a document type tell
    the choices apart. *)
Theorem choices_fit_their_columns :
  Forall choice_field_ok choice_fields
  /\ (forall s1 s2,
         get_semester_type_display s1 = get_semester_type_display s2 ->
         Semester.semester_type s1 = Semester.semester_type s2)
  /\ (forall s1 s2,
         get_day_of_week_display s1 = get_day_of_week_display s2 ->
         Schedule.day_of_week s1 = Schedule.day_of_week s2)
  /\ (forall r1 r2,
         get_document_type_display r1 = get_document_type_display r2 ->
         DocumentRequest.document_type r1 = DocumentRequest.document_type r2).
Proof.
  split; [|split; [|split]].
  - apply Forall_forall. intros f Hf. apply choice_field_ok_b_sound.
    assert (A : forallb choice_field_ok_b choice_fields = true)
      by (vm_compute; reflexivity).
    rewrite forallb_forall in A. now apply A.
  - intros s1 s2. unfold get_semester_type_display.
    destruct (Semester.semester_type s1), (Semester.semester_type s2);
      simpl; intro H; first [reflexivity | discriminate].
  - intros s1 s2. unfold get_day_of_week_display.
    destruct (Schedule.day_of_week s1), (Schedule.day_of_week s2);
      simpl; intro H; first [reflexivity | discriminate].
  - intros r1 r2. unfold get_document_type_display.
    destruct (DocumentRequest.document_type r1),
      (DocumentRequest.document_type r2);
      simpl; intro H; first [reflexivity | discriminate].
Qed.

(** *** Default ordering *)

Lemma insert_by_perm {A} (leb : A -> A -> bool) x l :
  Permutation (insert_by leb x l) (x :: l).
Proof.
  induction l as [|y l IH]; simpl; [reflexivity|].
  destruct (leb x y); [reflexivity|].
  rewrite IH. apply perm_swap.
Qed.

Lemma order_by_perm {A} (leb : A -> A -> bool) l :
  Permutation (order_by leb l) l.
Proof.
  induction l as [|x l IH]; simpl; [constructor|].
  rewrite insert_by_perm. now constructor.
Qed.

Section Ordered.
Variables (A : Type) (leb : A -> A -> bool).
Hypothesis leb_total : forall a b, leb a b = true \/ leb b a = true.
Hypothesis leb_trans :
  forall a b c, leb a b = true -> leb b c = true -> leb a c = true.

Lemma insert_by_sorted x l :
  StronglySorted (fun a b => leb a b = true) l ->
  StronglySorted (fun a b => leb a b = true) (insert_by leb x l).
Proof.
  induction l as [|y l IH]; simpl; intro S.
  - constructor; constructor.
  - inversion S as [|? ? S' Hy]; subst.
    destruct (leb x y) eqn:E.
    + constructor; [exact S|]. constructor; [exact E|].
      eapply Forall_impl; [|exact Hy]. intros z Hz.
      now apply leb_trans with y.
    + constructor; [now apply IH|].
      assert (Hyx : leb y x = true)
        by (destruct (leb_total x y); congruence).
      rewrite (Forall_forall). intros z Hz.
      apply (Permutation_in _ (insert_by_perm leb x l)) in Hz.
      destruct Hz as [<-|Hz]; [exact Hyx|].
      rewrite Forall_forall in Hy. now apply Hy.
Qed.

Lemma order_by_sorted l :
  StronglySorted (fun a b => leb a b = true) (order_by leb l).
Proof.
  induction l as [|x l IH]; simpl; [constructor|].
  now apply insert_by_sorted.
Qed.
End Ordered.

Lemma day_compare a b :
  String.compare (fst (DayOfWeek_choice a)) (fst (DayOfWeek_choice b))
  = Z.compare (day_rank a) (day_rank b).
Proof. destruct a, b; reflexivity. Qed.

Lemma Schedule_before_iff a b :
  Schedule_before a b = true <-> listed_before a b.
Proof.
  unfold Schedule_before, listed_before. rewrite day_compare.
  destruct (Z.compare_spec (day_rank (Schedule.day_of_week a))
              (day_rank (Schedule.day_of_week b))) as [E|L|G].
  - rewrite Z.leb_le. split.
    + intro H. right. split; [|exact H].
      destruct (Schedule.day_of_week a), (Schedule.day_of_week b);
        first [reflexivity | discriminate].
    + intros [H|[_ H]]; [lia|exact H].
  - split; [intros _; now left | reflexivity].
  - split; [discriminate|].
    intros [H|[H _]]; [lia|]. rewrite H in G. lia.
Qed.

(** X17.  A query on the schedules lists every row of the table once, the
    days in the alphabetical order of their stored values, Friday, Monday,
    Saturday, Thursday, Tuesday, Wednesday, and within a day by start
    time: a row listed before another has an earlier day in that order, or
    the same day and a start time that is not later. *)
Theorem Schedule_all_ordered :
  forall st,
    Permutation (Schedule_all st) (schedules st)
    /\ StronglySorted listed_before (Schedule_all st)
    /\ (forall a b,
           Schedule.day_of_week a = FRI -> Schedule.day_of_week b = MON ->
           listed_before a b /\ ~ listed_before b a).
Proof.
  intro st. split; [apply order_by_perm|]. split.
  - assert (S : StronglySorted (fun a b => Schedule_before a b = true)
                  (Schedule_all st)).
    { apply order_by_sorted.
      - intros a b.
        destruct (Schedule_before a b) eqn:E; [now left|right].
        apply Schedule_before_iff. unfold listed_before.
        assert (N : ~ listed_before a b).
        { intro H. apply Schedule_before_iff in H. congruence. }
        unfold listed_before in N.
        destruct (Z.lt_total (day_rank (Schedule.day_of_week a))
                    (day_rank (Schedule.day_of_week b))) as [L|[L|L]].
        + tauto.
        + right.
          assert (D : Schedule.day_of_week a = Schedule.day_of_week b).
          { destruct (Schedule.day_of_week a), (Schedule.day_of_week b);
              first [reflexivity | discriminate]. }
          split; [now symmetry|].
          destruct (Z.le_gt_cases (Schedule.start_time a)
                      (Schedule.start_time b)); [tauto|lia].
        + now left.
      - intros a b c Hab Hbc. apply Schedule_before_iff in Hab, Hbc.
        apply Schedule_before_iff. unfold listed_before in *.
        destruct Hab as [Hab|[Dab Tab]], Hbc as [Hbc|[Dbc Tbc]].
        + left. lia.
        + left. rewrite <- Dbc. exact Hab.
        + left. rewrite Dab. exact Hbc.
        + right. split; [congruence|lia]. }
    induction S as [|a l S IH F]; constructor; [exact IH|].
    eapply Forall_impl; [|exact F].
    intros b Hb. now apply Schedule_before_iff.
  - intros a b Ha Hb. unfold listed_before. rewrite Ha, Hb. simpl. split.
    + left. lia.
    + intros [H|[H _]]; [lia|discriminate].
Qed.

(** *** Registrations and grades *)

(** X18.  An event takes every registration of a new (event, student)
    pair whose event and student exist, whatever its max_participants:
    the registration is saved also when the event already has as many
    registrations as max_participants, or more.  At most one registration
    exists per pair: a second one is refused as a uniqueness violation
    naming the pair, with the store unchanged. *)
Theorem EventRegistration_ignores_max_participants :
  forall st now event student,
    EventRegistration_unique st ->
    EventRegistration_unique
      (snd (EventRegistration_create st now event student))
    /\ (forall r,
           In r (event_registrations st) ->
           EventRegistration.event r = event ->
           EventRegistration.student r = student ->
           EventRegistration_create st now event student
           = (Rejected
                (UniqueViolation "EventRegistration"
                   [("event"%string, event); ("student"%string, student)]),
              st))
    /\ (existsb (EventRegistration_with event student)
          (event_registrations st) = false ->
        In event (map Event.id (events st)) ->
        In student (map Student.id (students st)) ->
        fst (EventRegistration_create st now event student)
        = Saved (next_id EventRegistration.id (event_registrations st))
        /\ registration_count
             (snd (EventRegistration_create st now event student)) event
           = N.succ (registration_count st event)
        /\ events (snd (EventRegistration_create st now event student))
           = events st).
Proof.
  intros st now event student U. split; [|split].
  - unfold EventRegistration_create.
    destruct (existsb (EventRegistration_with event student)
                (event_registrations st)) eqn:E; [exact U|].
    destruct (negb _); [exact U|]. destruct (negb _); [exact U|].
    intros e' s'. cbn [snd event_registrations].
    rewrite filter_app, length_app. simpl.
    destruct (EventRegistration_with e' s' _) eqn:W; simpl.
    + unfold EventRegistration_with in W. simpl in W.
      apply andb_true_iff in W. rewrite !Z.eqb_eq in W. destruct W; subst.
      rewrite (existsb_false_filter _ _ E). simpl. lia.
    + specialize (U e' s'). lia.
  - intros r Hr He Hs. unfold EventRegistration_create.
    replace (existsb (EventRegistration_with event student)
               (event_registrations st)) with true; [reflexivity|].
    symmetry. apply existsb_exists. exists r. split; [exact Hr|].
    unfold EventRegistration_with. rewrite He, Hs, !Z.eqb_refl. reflexivity.
  - intros E He Hs. unfold EventRegistration_create. rewrite E.
    replace (existsb (fun e => Event.id e =? event) (events st)) with true.
    2:{ symmetry. apply in_map_iff in He. destruct He as [x [<- Hx]].
        now apply In_existsb_id. }
    replace (existsb (fun s => Student.id s =? student) (students st))
      with true.
    2:{ symmetry. apply in_map_iff in Hs. destruct Hs as [x [<- Hx]].
        now apply In_existsb_id. }
    cbn [negb fst snd]. split; [reflexivity|]. split; [|reflexivity].
    unfold registration_count. cbn [event_registrations].
    rewrite filter_app, length_app. cbn [filter EventRegistration.event].
    rewrite Z.eqb_refl. cbn [List.length]. lia.
Qed.

(** X18, on an event with max_participants = 1 and one registration:
    student B is registered as well. *)
Lemma EventRegistration_ignores_max_participants_full :
  fst (EventRegistration_create full_event 5 1 2) = Saved 2
  /\ registration_count (snd (EventRegistration_create full_event 5 1 2)) 1
     = N.succ (registration_count full_event 1)
  /\ events (snd (EventRegistration_create full_event 5 1 2))
     = events full_event.
Proof.
  refine (proj2 (proj2 (EventRegistration_ignores_max_participants
                          full_event 5 1 2 _)) eq_refl _ _).
  - intros e s. simpl. destruct (EventRegistration_with e s _); simpl; lia.
  - left. reflexivity.
  - right. left. reflexivity.
Defined.

Lemma find_app_none {A} (f : A -> bool) l x :
  find f l = None -> find f (l ++ [x]) = if f x then Some x else None.
Proof.
  induction l as [|a l IH]; simpl; [reflexivity|].
  destruct (f a); [discriminate|exact IH].
Qed.

(** X19.  An enrollment has at most one grade.  A grade is saved for an
    existing enrollment that has none, and [enrollment.grade] then gives
    the grade saved; a second grade for the enrollment is refused as a
    uniqueness violation, and a grade for an enrollment that does not
    exist as a foreign-key violation, both with the store unchanged.  No
    score and no assessment is read: the grades entered are stored as
    they are. *)
Theorem Grade_one_per_enrollment :
  forall st enrollment midterm final rating remarks submitted,
    Grade_unique st ->
    Grade_unique
      (snd (Grade_create st enrollment midterm final rating remarks
              submitted))
    /\ (In enrollment (map Grade.enrollment (grades st)) ->
        Grade_create st enrollment midterm final rating remarks submitted
        = (Rejected (UniqueViolation "Grade"
                       [("enrollment"%string, enrollment)]), st))
    /\ (~ In enrollment (map Grade.enrollment (grades st)) ->
        ~ In enrollment (map Enrollment.id (enrollments st)) ->
        Grade_create st enrollment midterm final rating remarks submitted
        = (Rejected (ForeignKeyViolation "Grade" "enrollment" enrollment),
           st))
    /\ (~ In enrollment (map Grade.enrollment (grades st)) ->
        In enrollment (map Enrollment.id (enrollments st)) ->
        fst (Grade_create st enrollment midterm final rating remarks
               submitted)
        = Saved (next_id Grade.id (grades st))
        /\ Enrollment_grade
             (snd (Grade_create st enrollment midterm final rating remarks
                     submitted)) enrollment
           = inr (Grade.mk (next_id Grade.id (grades st)) enrollment midterm
                    final rating remarks submitted)).
Proof.
  intros st enrollment midterm final rating remarks submitted U.
  assert (X : existsb (fun g => Grade.enrollment g =? enrollment) (grades st)
              = true
              <-> In enrollment (map Grade.enrollment (grades st))).
  { split; [apply existsb_id_In|].
    intro H. apply in_map_iff in H. destruct H as [g [<- Hg]].
    now apply In_existsb_id. }
  assert (Y : existsb (fun e => Enrollment.id e =? enrollment)
                (enrollments st) = true
              <-> In enrollment (map Enrollment.id (enrollments st))).
  { split; [apply existsb_id_In|].
    intro H. apply in_map_iff in H. destruct H as [g [<- Hg]].
    now apply In_existsb_id. }
  unfold Grade_create.
  destruct (existsb (fun g => Grade.enrollment g =? enrollment) (grades st))
    eqn:Eg;
    [|destruct (existsb (fun e => Enrollment.id e =? enrollment)
                  (enrollments st)) eqn:Ee]; cbn [negb fst snd].
  - split; [exact U|]. split; [reflexivity|].
    split; intros N; exfalso; apply N; now apply X.
  - assert (Ng : ~ In enrollment (map Grade.enrollment (grades st))).
    { intro H. apply X in H. discriminate. }
    split; [|split; [tauto|split]].
    + unfold Grade_unique. cbn [grades]. rewrite map_app. simpl.
      now apply NoDup_snoc.
    + intros _ N. exfalso. apply N. now apply Y.
    + intros _ _. split; [reflexivity|].
      unfold Enrollment_grade. cbn [grades].
      rewrite find_app_none.
      * cbn [Grade.enrollment]. rewrite Z.eqb_refl. reflexivity.
      * destruct (find _ (grades st)) eqn:F; [|reflexivity].
        apply find_existsb in F. congruence.
  - assert (Ne : ~ In enrollment (map Enrollment.id (enrollments st))).
    { intro H. apply Y in H. discriminate. }
    split; [exact U|]. split; [|split; [reflexivity|tauto]].
    intro H. apply X in H. discriminate.
Qed.

(** X19, on the campus: the grade of student B in programming. *)
Lemma Grade_one_per_enrollment_campus :
  fst (Grade_create campus 2 None (Some (inject_Z 2)) "2.00" "Passed" None)
  = Saved 3
  /\ Enrollment_grade
       (snd (Grade_create campus 2 None (Some (inject_Z 2)) "2.00" "Passed"
               None)) 2
     = inr (Grade.mk 3 2 None (Some (inject_Z 2)) "2.00" "Passed" None).
Proof.
  refine (proj2 (proj2 (proj2 (Grade_one_per_enrollment campus 2 None
                                 (Some (inject_Z 2)) "2.00"%string
                                 "Passed"%string None _))) _ _).
  - unfold Grade_unique. simpl.
    repeat constructor; simpl; intuition discriminate.
  - simpl. intuition discriminate.
  - simpl. tauto.
Defined.

(** ** The admin console *)

Lemma named_In n l : named n l = true <-> In n l.
Proof.
  unfold named. rewrite existsb_exists. split.
  - intros [x [Hx E]]. apply String.eqb_eq in E. now subst.
  - intro H. exists n. split; [assumption | apply String.eqb_refl].
Qed.

Lemma named_not_In n l : negb (named n l) = true <-> ~ In n l.
Proof.
  rewrite negb_true_iff, <- not_true_iff_false. now rewrite named_In.
Qed.

Lemma same_names_iff l1 l2 :
  same_names l1 l2 = true -> forall n, In n l1 <-> In n l2.
Proof.
  unfold same_names. rewrite andb_true_iff, !forallb_forall.
  intros [H1 H2] n. split; intro H.
  - apply named_In. now apply H1.
  - apply named_In. now apply H2.
Qed.

(** What [form_complete] checks: the form is built, no field comes twice,
    and its fields are the editable fields of the model that the class
    does not make read-only. *)
Lemma form_complete_spec a :
  form_complete a = true ->
  exists fields,
    get_form a = inr fields
    /\ NoDup fields
    /\ forall n,
         In n fields <->
         (exists f, In f (fields_of (am_model a))
                    /\ mf_name f = n /\ mf_editable f = true)
         /\ ~ In n (am_readonly_fields a).
Proof.
  unfold form_complete. destruct (get_form a) as [e | fields];
    [discriminate|].
  rewrite andb_true_iff. intros [D S]. exists fields.
  split; [reflexivity|]. split; [now apply distinct_NoDup|].
  intro n. rewrite (same_names_iff _ _ S n), in_map_iff. split.
  - intros [f [E H]]. apply filter_In in H. destruct H as [H B].
    apply andb_true_iff in B. destruct B as [B1 B2].
    apply named_not_In in B2. rewrite E in B2. split; [|assumption].
    exists f. now repeat split.
  - intros [[f [H [E B1]]] B2]. exists f. split; [assumption|].
    apply filter_In. split; [assumption|].
    apply andb_true_iff. split; [assumption|].
    apply named_not_In. now rewrite E.
Qed.

Ltac form_built :=
  match goal with
  | |- match get_form ?a with _ => _ end =>
      let H := fresh in
      destruct (form_complete_spec a) as [? [H ?]];
      [vm_compute; reflexivity | rewrite H; assumption]
  end.

Ltac form_raises := vm_compute; tauto.

(** X20.  The add and change pages of the console.  Three of the twenty
    classes cannot build their form: [StudentAdmin], [EnrollmentAdmin] and
    [DocumentRequestAdmin] name in their fieldsets a column that the model
    fills in by itself ([enrolled_at], [date_enrolled], [request_date],
    all [auto_now_add]) and do not make it read-only, so building the form
    raises [FieldError].  Every other class builds a form that has, once
    each, exactly the editable fields of its model that are not
    read-only. *)
Theorem admin_forms :
  Forall
    (fun a =>
       match get_form a with
       | inl e =>
           In (am_name a, e)
             [("StudentAdmin"%string, NonEditable "enrolled_at");
              ("EnrollmentAdmin"%string, NonEditable "date_enrolled");
              ("DocumentRequestAdmin"%string, NonEditable "request_date")]
       | inr fields =>
           NoDup fields
           /\ forall n,
                In n fields <->
                (exists f, In f (fields_of (am_model a))
                           /\ mf_name f = n /\ mf_editable f = true)
                /\ ~ In n (am_readonly_fields a)
       end) admins
  /\ get_form StudentAdmin = inl (NonEditable "enrolled_at")
  /\ get_form EnrollmentAdmin = inl (NonEditable "date_enrolled")
  /\ get_form DocumentRequestAdmin = inl (NonEditable "request_date").
Proof.
  split; [|repeat split; reflexivity].
  unfold admins.
  repeat (apply Forall_cons; [first [form_built | form_raises]|]).
  apply Forall_nil.
Qed.

Lemma field_named_Some model n :
  (match field_named model n with Some _ => true | None => false end) = true
  -> exists f, field_named model n = Some f.
Proof.
  destruct (field_named model n) as [f|]; [now exists f | discriminate].
Qed.

(** X21.  The options of the change lists fit the models.  In each of the
    twenty classes: a column of [list_display] is a field of the model or
    a method of the class; a [list_editable] column is shown, is not the
    first column (the link to the change page) and is an editable field;
    [date_hierarchy] names a date or date-time field; every lookup of
    [list_filter], [search_fields] and [ordering] follows relations up to
    a field; [filter_horizontal] names a many-to-many field; and an
    inline's model holds one key to the model of the page, its columns
    being editable fields other than that key. *)
Theorem change_list_options_fit :
  Forall
    (fun a =>
       (forall n, In n (am_list_display a) ->
                  (exists f, field_named (am_model a) n = Some f)
                  \/ In n (am_methods a))
       /\ (forall n, In n (am_list_editable a) ->
                     In n (am_list_display a)
                     /\ hd_error (am_list_display a) <> Some n
                     /\ exists f, field_named (am_model a) n = Some f
                                  /\ mf_editable f = true)
       /\ (forall n, am_date_hierarchy a = Some n ->
                     exists f, field_named (am_model a) n = Some f
                               /\ mf_kind f = DateLike)
       /\ (forall p, In p (am_list_filter a)
                     \/ In p (am_search_fields a)
                     \/ In p (map snd (am_ordering a)) ->
                     resolves (am_model a) p = true)
       /\ (forall n, In n (am_filter_horizontal a) ->
                     exists f to, field_named (am_model a) n = Some f
                                  /\ mf_kind f = Many to)
       /\ (forall i, In i (am_inlines a) -> inline_ok a i = true))
    admins.
Proof.
  assert (C : forallb (fun a => change_list_ok a
                                && forallb (inline_ok a) (am_inlines a))
                admins = true) by (vm_compute; reflexivity).
  rewrite forallb_forall in C. apply Forall_forall. intros a Ha.
  specialize (C a Ha). apply andb_true_iff in C. destruct C as [C I].
  unfold change_list_ok in C. rewrite !andb_true_iff in C.
  destruct C as [[[[[D E] H] L] F] R].
  repeat match goal with |- _ /\ _ => split end.
  - intros n Hn. unfold list_display_ok in D.
    rewrite forallb_forall in D. specialize (D n Hn).
    apply orb_true_iff in D. destruct D as [D | D].
    + left. now apply field_named_Some.
    + right. now apply named_In.
  - intros n Hn. unfold list_editable_ok in E.
    rewrite forallb_forall in E. specialize (E n Hn).
    rewrite !andb_true_iff in E. destruct E as [[E1 E2] E3].
    split; [now apply named_In|]. split.
    + destruct (am_list_display a) as [|first l]; [discriminate|].
      simpl. intro Q. injection Q as Q. subst first.
      now rewrite String.eqb_refl in E3.
    + destruct (field_named (am_model a) n) as [f|]; [|discriminate].
      now exists f.
  - intros n Hn. unfold date_hierarchy_ok in H. rewrite Hn in H.
    destruct (field_named (am_model a) n) as [f|]; [|discriminate].
    exists f. split; [reflexivity|].
    now destruct (mf_kind f).
  - intros p Hp. unfold lookups_ok in L. rewrite !andb_true_iff in L.
    destruct L as [[L1 L2] L3]. rewrite forallb_forall in L1, L2, L3.
    destruct Hp as [Hp | [Hp | Hp]]; [now apply L1 | now apply L2 |].
    apply in_map_iff in Hp. destruct Hp as [o [<- Ho]]. now apply L3.
  - intros n Hn. unfold filter_horizontal_ok in F.
    rewrite forallb_forall in F. specialize (F n Hn).
    destruct (field_named (am_model a) n) as [f|]; [|discriminate].
    destruct (mf_kind f) as [| | to | to] eqn:K; try discriminate.
    now exists f, to.
  - intros i Hi. rewrite forallb_forall in I. now apply I.
Qed.
